(** * Click-Lite monitoring demo: a shallow embedding of
    [examples/monitoring_demo.py] and the properties of its load driver,
    dashboard renderer and start-up precheck.

    The Python program talks to the outside world through five kinds of
    primitive: the wall clock, the pseudo-random generator, blocking HTTP
    requests, [time.sleep] and [print].  The embedding threads an explicit
    [World] through every method: the world holds the [MonitoringDemo]
    object, the clock, an environment of oracles that fixes every answer
    the outside world will give, and the chronological trace of the actions
    the program performed.  Methods are written in a small state-and-
    exception monad, in the order of the source statements.

    Conventions.
    - Time is counted in milliseconds ([Z]); the source's seconds are
      multiplied by 1000 ([time.sleep(0.1)] is [time_sleep 100]).
    - [random.random()] yields the rational [k / 2^53] for the raw draw
      [k]; float rounding is not modelled.
    - JSON numbers with a fractional part are rationals; the literals
      NaN and Infinity are left out.
    - [while] loops take fuel; a loop that exhausts it yields [Fuel].
    - Every request gets a reply or a failure after a finite time: a
      service that never answers is left out.
    - SIGINT reaches the main thread during its blocking calls (requests
      and sleeps), where it raises [KeyboardInterrupt]; other threads
      never see it.
    - The trace of a world is the trace of one thread.  The dashboard
      thread started by [run_demo] runs [display_metrics_dashboard] in a
      world of its own; the two threads share the [running] field only,
      and only [run_demo] writes it. *)

From Stdlib Require Import ZArith NArith QArith Qround String Ascii List Bool Lia.
From Stdlib Require Import DecimalString Lqa.
Import ListNotations.

Local Open Scope Z_scope.
Local Open Scope string_scope.

(** ** Python values *)

#[local] Set Warnings "-register-all".

(** The result of [response.json()].  An object keeps its members in
    document order. *)
Inductive JSON : Type :=
| JNull
| JBool (b : bool)
| JInt (z : Z)
| JFloat (q : Q)
| JStr (s : string)
| JArr (items : list JSON)
| JObj (members : list (string * JSON)).

(** Exceptions the program can meet.  [KeyboardInterrupt] derives from
    [BaseException] only; every other one derives from [Exception].
    [RequestException r] stands for the subclasses of
    [requests.exceptions.RequestException] raised by a request. *)
Inductive request_error : Type :=
| ConnectionError
| Timeout
| TooManyRedirects
| InvalidJSONError.

Inductive exn : Type :=
| KeyboardInterrupt
| RequestException (r : request_error)
| JSONDecodeError
| AttributeError
| KeyError
| IndexError
| TypeError
| ValueError
| OverflowError.

(** The [except] clauses of the source: bare [except:],
    [except Exception], [except KeyboardInterrupt] and
    [except requests.exceptions.RequestException]. *)
Inductive clause : Type :=
| ExceptAll
| ExceptException
| ExceptKeyboardInterrupt
| ExceptRequestException.

Definition caught_by (c : clause) (e : exn) : bool :=
  match c, e with
  | ExceptAll, _ => true
  | ExceptException, KeyboardInterrupt => false
  | ExceptException, _ => true
  | ExceptKeyboardInterrupt, KeyboardInterrupt => true
  | ExceptKeyboardInterrupt, _ => false
  | ExceptRequestException, RequestException _ => true
  | ExceptRequestException, JSONDecodeError => true
  | ExceptRequestException, _ => false
  end.

(** ** Observable actions *)

(** A synthetic log record, as the dictionaries built by the load phases.
    [timestamp] is the clock reading that [datetime.utcnow()] renders. *)
Record LogRecord : Type := mkLog {
  level : string;
  message : string;
  service : string;
  timestamp : Z;
  attributes : list (string * JSON)
}.

(** The [json=] argument of a POST.  Its [headers=] argument is the same
    constant in every call and is left out. *)
Inductive payload : Type :=
| Logs (records : list LogRecord)
| Sql (sql : string).

(** A printed line is kept as the pieces of its f-string: literal text and
    the values interpolated with [{v}], [{v:.1f}], [{v:,}] and [{e}]. *)
Inductive piece : Type :=
| Lit (s : string)
| Str (v : JSON)
| Fixed1 (v : JSON)
| Grouped (v : JSON)
| ExnText (e : exn).

Inductive event : Type :=
| EvPrint (line : list piece)
| EvGet (url : string) (timeout : option Z)
| EvPost (url : string) (body : payload)
| EvSleep (ms : Z)
| EvSetRunning (b : bool)
| EvThreadStart (target : string).

(** ** The world *)

(** What the remote service answers to one request: a response with its
    status code and its body ([None] when the body is not JSON), or a
    failure of the request. *)
Inductive reply : Type :=
| Response (status_code : Z) (body : option JSON)
| Failure (r : request_error).

(** The environment fixes, once and for all, the raw draws of the
    generator, the reply and duration of each request, and whether SIGINT
    arrives during each blocking call of the main thread. *)
Record Env : Type := mkEnv {
  rand_raw : nat -> N;
  net_reply : nat -> reply;
  net_time : nat -> N;
  sigint : nat -> bool
}.

(** CPython runs signal handlers in the main thread only. *)
Inductive thread_kind : Type := MainThread | Worker.

Definition is_main (t : thread_kind) : bool :=
  match t with MainThread => true | Worker => false end.

Record MonitoringDemo : Type := mkDemo {
  api_url : string;
  running : bool
}.

Record World : Type := mkWorld {
  env : Env;
  thread : thread_kind;
  self : MonitoringDemo;
  clock : Z;
  n_rand : nat;
  n_net : nat;
  n_block : nat;
  out : list event
}.

Definition emit (e : event) (w : World) : World :=
  mkWorld (env w) (thread w) (self w) (clock w)
          (n_rand w) (n_net w) (n_block w) (out w ++ [e]).

Definition advance (ms : Z) (w : World) : World :=
  mkWorld (env w) (thread w) (self w) (clock w + ms)
          (n_rand w) (n_net w) (n_block w) (out w).

Definition with_self (d : MonitoringDemo) (w : World) : World :=
  mkWorld (env w) (thread w) d (clock w)
          (n_rand w) (n_net w) (n_block w) (out w).

Definition tick_rand (w : World) : World :=
  mkWorld (env w) (thread w) (self w) (clock w)
          (S (n_rand w)) (n_net w) (n_block w) (out w).

Definition tick_net (w : World) : World :=
  mkWorld (env w) (thread w) (self w) (clock w)
          (n_rand w) (S (n_net w)) (n_block w) (out w).

Definition tick_block (w : World) : World :=
  mkWorld (env w) (thread w) (self w) (clock w)
          (n_rand w) (n_net w) (S (n_block w)) (out w).

(** Whether SIGINT reaches the thread during its next blocking call. *)
Definition interrupted (w : World) : bool :=
  is_main (thread w) && sigint (env w) (n_block w).

(** ** The monad *)

Inductive result (A : Type) : Type :=
| Val (a : A)
| Exc (e : exn)
| Fuel.

Arguments Val {A} a.
Arguments Exc {A} e.
Arguments Fuel {A}.

Definition M (A : Type) : Type := World -> result A * World.

Definition ret {A} (a : A) : M A := fun w => (Val a, w).

Definition raise {A} (e : exn) : M A := fun w => (Exc e, w).

Definition bind {A B} (m : M A) (k : A -> M B) : M B :=
  fun w =>
    match m w with
    | (Val a, w') => k a w'
    | (Exc e, w') => (Exc e, w')
    | (Fuel, w') => (Fuel, w')
    end.

Declare Scope py_scope.
Delimit Scope py_scope with py.
Notation "x <- m ;; k" := (bind m (fun x => k))
  (at level 100, m at next level, right associativity) : py_scope.
Notation "m ;; k" := (bind m (fun _ => k))
  (at level 100, right associativity) : py_scope.
Local Open Scope py_scope.

(** [try: body  except c: handler]. *)
Definition try_except {A} (c : clause) (body : M A) (handler : exn -> M A) : M A :=
  fun w =>
    match body w with
    | (Exc e, w') => if caught_by c e then handler e w' else (Exc e, w')
    | r => r
    end.

(** [try: body  finally: final].  An exception of [final] replaces the
    outcome of [body]. *)
Definition try_finally {A} (body : M A) (final : M unit) : M A :=
  fun w =>
    match body w with
    | (Fuel, w') => (Fuel, w')
    | (r, w') =>
        match final w' with
        | (Val _, w'') => (r, w'')
        | (Exc e, w'') => (Exc e, w'')
        | (Fuel, w'') => (Fuel, w'')
        end
    end.

(** [while cond: body]. *)
Fixpoint while (fuel : nat) (cond : M bool) (body : M unit) : M unit :=
  match fuel with
  | O => fun w => (Fuel, w)
  | S fuel' =>
      c <- cond ;;
      if c then body ;; while fuel' cond body else ret tt
  end.

(** [for i in range(n): body i]. *)
Fixpoint for_range_from (i : nat) (n : nat) (body : nat -> M unit) : M unit :=
  match n with
  | O => ret tt
  | S n' => body i ;; for_range_from (S i) n' body
  end.

Definition for_range (n : nat) (body : nat -> M unit) : M unit :=
  for_range_from 0 n body.

(** [acc = []] followed by [for _ in range(n): acc.append(item)]. *)
Fixpoint collect {A} (n : nat) (item : M A) (acc : list A) : M (list A) :=
  match n with
  | O => ret acc
  | S n' => x <- item ;; collect n' item (acc ++ [x])
  end.

(** ** Primitives *)

Definition get_running : M bool :=
  fun w => (Val (running (self w)), w).

(** [self.running = b]. *)
Definition set_running (b : bool) : M unit :=
  fun w => (Val tt, emit (EvSetRunning b) (with_self (mkDemo (api_url (self w)) b) w)).

Definition get_api_url : M string :=
  fun w => (Val (api_url (self w)), w).

Definition print (line : list piece) : M unit :=
  fun w => (Val tt, emit (EvPrint line) w).

(** [print(s)] for a plain string, and [print()]. *)
Definition say (s : string) : M unit := print [Lit s].
Definition newline : M unit := print [].

(** [time.time()], in milliseconds. *)
Definition time_time : M Z :=
  fun w => (Val (clock w), w).

(** The world once [time.sleep] has been entered. *)
Definition asleep (ms : Z) (w : World) : World :=
  tick_block (emit (EvSleep ms) w).

(** [time.sleep(ms / 1000)]: a blocking call.  In the main thread SIGINT
    wakes it with [KeyboardInterrupt]; otherwise the clock moves on by
    [ms]. *)
Definition time_sleep (ms : Z) : M unit :=
  fun w =>
    if interrupted w then (Exc KeyboardInterrupt, asleep ms w)
    else (Val tt, advance ms (asleep ms w)).

(** The world once a request has been made: the request is recorded and
    the clock has moved on by the duration of the call. *)
Definition sent (request : event) (w : World) : World :=
  advance (Z.of_N (net_time (env w) (n_net w)))
          (tick_net (tick_block (emit request w))).

(** One blocking HTTP round trip: the call returns the response, raises
    the failure of the request, or is interrupted by SIGINT. *)
Definition round_trip (request : event) : M (Z * option JSON) :=
  fun w =>
    if interrupted w then (Exc KeyboardInterrupt, sent request w)
    else match net_reply (env w) (n_net w) with
         | Response status_code body => (Val (status_code, body), sent request w)
         | Failure r => (Exc (RequestException r), sent request w)
         end.

Definition requests_get (url : string) (timeout : option Z) : M (Z * option JSON) :=
  round_trip (EvGet url timeout).

Definition requests_post (url : string) (body : payload) : M (Z * option JSON) :=
  round_trip (EvPost url body).

(** [response.json()]. *)
Definition response_json (response : Z * option JSON) : M JSON :=
  match snd response with
  | Some v => ret v
  | None => raise JSONDecodeError
  end.

(** *** The [random] module *)

Definition next_raw : M N :=
  fun w => (Val (rand_raw (env w) (n_rand w)), tick_rand w).

(** Resolution of [random.random()]: 53 bits. *)
Definition RANDOM_RES : Z := 2 ^ 53.

(** The float that [random.random()] makes of the raw draw [k]. *)
Definition unit_draw (k : N) : Q :=
  Qmake (Z.of_N k mod RANDOM_RES) (Z.to_pos RANDOM_RES).

(** [random.random()]: a rational in the interval [0, 1). *)
Definition random_random : M Q :=
  k <- next_raw ;;
  ret (unit_draw k).

(** [random.randint(a, b)]: an integer [n] with [a <= n <= b]. *)
Definition random_randint (a b : Z) : M Z :=
  k <- next_raw ;;
  ret (a + Z.of_N k mod (b - a + 1)).

(** [random.choice(seq)]; an empty sequence raises [IndexError]. *)
Definition random_choice {A} (seq : list A) : M A :=
  k <- next_raw ;;
  match nth_error seq (N.to_nat (k mod N.of_nat (length seq))) with
  | Some x => ret x
  | None => raise IndexError
  end.

(** [itertools.accumulate(weights)]. *)
Fixpoint accumulate (acc : Z) (weights : list Z) : list Z :=
  match weights with
  | [] => []
  | x :: rest => (acc + x) :: accumulate (acc + x) rest
  end.

(** [bisect.bisect_right(a, x, 0, hi)] on a sorted list: the number of
    entries among the first [hi] that are [<= x]. *)
Fixpoint bisect (a : list Z) (x : Q) (hi : nat) : nat :=
  match a, hi with
  | y :: rest, S hi' =>
      if Qle_bool (inject_Z y) x then S (bisect rest x hi') else O
  | _, _ => O
  end.

(** The index picked by [random.choices] for the draw [u] among [n]
    elements: [bisect(cum_weights, u * total, 0, n - 1)]. *)
Definition choices_index (cum_weights : list Z) (n : nat) (u : Q) : nat :=
  let total := last cum_weights 0 in
  bisect cum_weights (u * inject_Z total) (n - 1).

(** [random.choices(population, weights=weights)], with the default
    [k=1]: a list of one element. *)
Definition random_choices {A} (population : list A) (weights : list Z)
  : M (list A) :=
  let n := length population in
  let cum_weights := accumulate 0 weights in
  if negb (length cum_weights =? n)%nat then raise ValueError
  else if (last cum_weights 0 <=? 0)%Z then raise ValueError
  else
    u <- random_random ;;
    match nth_error population (choices_index cum_weights n u) with
    | Some x => ret [x]
    | None => raise IndexError
    end.

(** [l[0]]. *)
Definition first {A} (l : list A) : M A :=
  match l with
  | x :: _ => ret x
  | [] => raise IndexError
  end.

(** ** Python helpers *)

Definition string_of_Z (z : Z) : string :=
  NilZero.string_of_int (Z.to_int z).

Definition NL : string := String (ascii_of_nat 10) EmptyString.
Definition ESC : string := String (ascii_of_nat 27) EmptyString.

(** Member lookup in a parsed object; of two members with one name the
    later one counts, as in [json.loads]. *)
Fixpoint assoc (key : string) (members : list (string * JSON)) : option JSON :=
  match members with
  | [] => None
  | (k, v) :: rest =>
      match assoc key rest with
      | Some v' => Some v'
      | None => if String.eqb key k then Some v else None
      end
  end.

(** [v.get(key, default)]: only a dictionary has the method. *)
Definition dict_get (v : JSON) (key : string) (default : JSON) : M JSON :=
  match v with
  | JObj members =>
      ret (match assoc key members with Some x => x | None => default end)
  | _ => raise AttributeError
  end.

(** ** The API client *)

Definition API_URL : string := "http://localhost:20002/api/v1".

(** [MonitoringDemo.__init__]. *)
Definition MonitoringDemo_init : MonitoringDemo := mkDemo API_URL true.

Definition check_health : M JSON :=
  url <- get_api_url ;;
  response <- requests_get (url ++ "/monitoring/health") None ;;
  response_json response.

Definition get_metrics : M JSON :=
  url <- get_api_url ;;
  response <- requests_get (url ++ "/monitoring/metrics") None ;;
  parsed <- response_json response ;;
  dict_get parsed "metrics" (JArr []).

Definition get_alerts : M JSON :=
  url <- get_api_url ;;
  response <- requests_get (url ++ "/monitoring/alerts/active") None ;;
  parsed <- response_json response ;;
  dict_get parsed "alerts" (JArr []).

(** ** The load driver *)

Definition queries : list string :=
  [ "SELECT COUNT(" ++ "*) FROM logs WHERE level = 'error'";
    "SELECT service, COUNT(" ++ "*) as count FROM logs GROUP BY service";
    "SELECT * FROM logs ORDER BY timestamp DESC LIMIT 100";
    "SELECT level, COUNT(" ++ "*) FROM logs WHERE timestamp > datetime('now', '-5 minutes') GROUP BY level" ].

Definition execute_query : M unit :=
  sql <- random_choice queries ;;
  try_except ExceptAll
    (url <- get_api_url ;;
     requests_post (url ++ "/query/execute") (Sql sql) ;;
     ret tt)
    (fun _ => ret tt).

Definition Qlt_bool (x y : Q) : bool := negb (Qle_bool y x).

(** One record of the normal load: the dictionary literal, its entries
    evaluated in order. *)
Definition normal_record : M LogRecord :=
  chosen <- random_choices ["debug"; "info"; "warning"; "error"] [10; 70; 15; 5] ;;
  log_level <- first chosen ;;
  what <- random_choice
            ["User login"; "API request"; "Data processed"; "Cache hit"; "Task completed"] ;;
  svc <- random_choice ["web"; "api"; "worker"; "cache"] ;;
  now <- time_time ;;
  user_id <- random_randint 1000 9999 ;;
  duration_ms <- random_randint 10 500 ;;
  ret (mkLog log_level ("Normal operation log - " ++ what) svc now
         [ ("user_id", JInt user_id);
           ("duration_ms", JInt duration_ms);
           ("status", JStr (if negb (String.eqb log_level "error")
                            then "success" else "failed")) ]).

(** The body of the [while] loop of [generate_normal_load]. *)
Definition normal_load_body : M unit :=
  batch_size <- random_randint 10 50 ;;
  logs <- collect (Z.to_nat batch_size) normal_record [] ;;
  try_except ExceptAll
    (url <- get_api_url ;;
     requests_post (url ++ "/ingest/logs") (Logs logs) ;;
     ret tt)
    (fun _ => ret tt) ;;
  u <- random_random ;;
  (if Qlt_bool u (3 # 10) then execute_query else ret tt) ;;
  time_sleep 1000.

(** The loop test [time.time() - start_time < duration and self.running]. *)
Definition load_test (start_time duration : Z) : M bool :=
  now <- time_time ;;
  if (now - start_time <? duration * 1000)%Z then get_running else ret false.

Definition generate_normal_load (fuel : nat) (duration : Z) : M unit :=
  say ("Generating normal load for " ++ string_of_Z duration ++ " seconds...") ;;
  start_time <- time_time ;;
  while fuel (load_test start_time duration) normal_load_body.

Definition high_record (batch_size : Z) : M LogRecord :=
  log_level <- random_choice ["info"; "warning"; "error"] ;;
  now <- time_time ;;
  ret (mkLog log_level "High load test log" "load-test" now
         [ ("load_test", JBool true); ("batch_size", JInt batch_size) ]).

(** The body of the [while] loop of [generate_high_load]. *)
Definition high_load_body : M unit :=
  batch_size <- random_randint 500 1000 ;;
  logs <- collect (Z.to_nat batch_size) (high_record batch_size) [] ;;
  try_except ExceptAll
    (url <- get_api_url ;;
     requests_post (url ++ "/ingest/bulk") (Logs logs) ;;
     ret tt)
    (fun _ => ret tt) ;;
  time_sleep 100.

Definition generate_high_load (fuel : nat) (duration : Z) : M unit :=
  say ("Generating HIGH LOAD for " ++ string_of_Z duration ++ " seconds...") ;;
  start_time <- time_time ;;
  while fuel (load_test start_time duration) high_load_body.

Definition slow_sql : string :=
  "
            SELECT 
                service,
                level,
                DATE_TRUNC('minute', timestamp) as minute,
                COUNT(" ++ "*) as count,
                AVG(CAST(json_extract(attributes, '$.duration_ms') as FLOAT)) as avg_duration
            FROM logs
            WHERE timestamp > datetime('now', '-1 hour')
            GROUP BY service, level, minute
            ORDER BY minute DESC, count DESC
            ".

(** The body of the [for] loop of [generate_slow_queries]. *)
Definition slow_query_body (i : nat) : M unit :=
  try_except ExceptAll
    (url <- get_api_url ;;
     requests_post (url ++ "/query/execute") (Sql slow_sql) ;;
     ret tt)
    (fun _ => ret tt) ;;
  time_sleep 500.

Definition generate_slow_queries (count : nat) : M unit :=
  say ("Generating " ++ string_of_Z (Z.of_nat count) ++ " slow queries...") ;;
  for_range count slow_query_body.

(** ** The dashboard renderer *)

(** A Python number: an [int] or a [float]. *)
Inductive number : Type :=
| Int (z : Z)
| Float (q : Q).

(** [x // d] and [x % d] for a positive integer [d]. *)
Definition floordiv (x : number) (d : Z) : number :=
  match x with
  | Int z => Int (z / d)
  | Float q => Float (inject_Z (Qfloor (q / inject_Z d)))
  end.

Definition modulo (x : number) (d : Z) : number :=
  match x with
  | Int z => Int (z mod d)
  | Float q => Float (q - inject_Z d * inject_Z (Qfloor (q / inject_Z d)))
  end.

(** [int(x)]: a float is cut towards zero. *)
Definition int_of (x : number) : Z :=
  match x with
  | Int z => z
  | Float q => if Qle_bool 0 q then Qfloor q else Qceiling q
  end.

(** [MonitoringDemo.format_uptime]. *)
Definition format_uptime (seconds : number) : string :=
  let days := int_of (floordiv seconds 86400) in
  let hours := int_of (floordiv (modulo seconds 86400) 3600) in
  let minutes := int_of (floordiv (modulo seconds 3600) 60) in
  string_of_Z days ++ "d " ++ string_of_Z hours ++ "h " ++ string_of_Z minutes ++ "m".

(** The operand of the arithmetic of [format_uptime]: a [bool] counts as
    an [int], anything but a number raises [TypeError]. *)
Definition as_number (v : JSON) : M number :=
  match v with
  | JInt z => ret (Int z)
  | JBool b => ret (Int (Z.b2z b))
  | JFloat q => ret (Float q)
  | _ => raise TypeError
  end.

Definition upper_ascii (c : ascii) : ascii :=
  let n := nat_of_ascii c in
  if ((97 <=? n) && (n <=? 122))%nat then ascii_of_nat (n - 32) else c.

Fixpoint upper (s : string) : string :=
  match s with
  | EmptyString => EmptyString
  | String c rest => String (upper_ascii c) (upper rest)
  end.

(** [v.upper()]: only a string has the method.  Letters outside ASCII
    are left as they are. *)
Definition str_upper (v : JSON) : M string :=
  match v with
  | JStr s => ret (upper s)
  | _ => raise AttributeError
  end.

(** [s * n]. *)
Fixpoint repeat_string (s : string) (n : nat) : string :=
  match n with
  | O => EmptyString
  | S n' => s ++ repeat_string s n'
  end.

(** [s.center(width)], padded with spaces as CPython does. *)
Definition center (s : string) (width : nat) : string :=
  let len := String.length s in
  if (width <=? len)%nat then s
  else
    let marg := (width - len)%nat in
    let left := (marg / 2 + (if Nat.odd marg && Nat.odd width then 1 else 0))%nat in
    repeat_string " " left ++ s ++ repeat_string " " (marg - left).

Definition RESET : string := ESC ++ "[0m".
Definition GREEN : string := ESC ++ "[92m".
Definition YELLOW : string := ESC ++ "[93m".
Definition RED : string := ESC ++ "[91m".
Definition BLUE : string := ESC ++ "[94m".

Definition status_colors : list (string * string) :=
  [("ok", GREEN); ("degraded", YELLOW); ("down", RED)].

Definition severity_colors : list (string * string) :=
  [("critical", RED); ("warning", YELLOW); ("info", BLUE)].

Fixpoint color_assoc (key : string) (table : list (string * string)) : option string :=
  match table with
  | [] => None
  | (k, c) :: rest => if String.eqb key k then Some c else color_assoc key rest
  end.

(** [table.get(key, RESET)] on a colour table: a list or a dictionary is
    not hashable. *)
Definition color_get (table : list (string * string)) (key : JSON) : M string :=
  match key with
  | JStr s => ret (match color_assoc s table with Some c => c | None => RESET end)
  | JArr _ | JObj _ => raise TypeError
  | _ => ret RESET
  end.

(** [v[key]] for a string [key]. *)
Definition subscript (v : JSON) (key : string) : M JSON :=
  match v with
  | JObj members =>
      match assoc key members with
      | Some x => ret x
      | None => raise KeyError
      end
  | _ => raise TypeError
  end.

Definition hashable (v : JSON) : bool :=
  match v with
  | JArr _ | JObj _ => false
  | _ => true
  end.

(** The keys of a dictionary, each once, in order of first insertion. *)
Fixpoint keys (seen : list string) (members : list (string * JSON)) : list string :=
  match members with
  | [] => []
  | (k, _) :: rest =>
      if existsb (String.eqb k) seen then keys seen rest
      else k :: keys (k :: seen) rest
  end.

(** The elements a [for] loop or a comprehension draws from [v]. *)
Definition iterate (v : JSON) : M (list JSON) :=
  match v with
  | JArr items => ret items
  | JStr s => ret (map (fun c => JStr (String c EmptyString)) (list_ascii_of_string s))
  | JObj members => ret (map JStr (keys [] members))
  | _ => raise TypeError
  end.

(** [{m["name"]: m["value"] for m in metrics}], as the list of its
    insertions. *)
Fixpoint metric_entries (metrics : list JSON) (acc : list (JSON * JSON))
  : M (list (JSON * JSON)) :=
  match metrics with
  | [] => ret acc
  | m :: rest =>
      name <- subscript m "name" ;;
      value <- subscript m "value" ;;
      if hashable name then metric_entries rest (acc ++ [(name, value)])
      else raise TypeError
  end.

(** The value stored in [metric_map] under the string [key]: the last
    insertion counts. *)
Fixpoint metric_find (key : string) (entries : list (JSON * JSON)) : option JSON :=
  match entries with
  | [] => None
  | (k, v) :: rest =>
      match metric_find key rest with
      | Some v' => Some v'
      | None =>
          match k with
          | JStr k' => if String.eqb key k' then Some v else None
          | _ => None
          end
      end
  end.

(** [metric_map.get(key, 0)]. *)
Definition metric_get (entries : list (JSON * JSON)) (key : string) : JSON :=
  match metric_find key entries with
  | Some v => v
  | None => JInt 0
  end.

(** The largest magnitude an [int] may have to be formatted as a float. *)
Definition FLOAT_LIMIT : Z := 2 ^ 1024 - 2 ^ 970.

(** [{v:.1f}] and [{v:,}]: a number is formatted, a string raises
    [ValueError], anything else [TypeError]. *)
Definition format_fixed1 (v : JSON) : M piece :=
  match v with
  | JInt z => if (Z.abs z <? FLOAT_LIMIT)%Z then ret (Fixed1 v) else raise OverflowError
  | JBool _ | JFloat _ => ret (Fixed1 v)
  | JStr _ => raise ValueError
  | _ => raise TypeError
  end.

Definition format_grouped (v : JSON) : M piece :=
  match v with
  | JInt _ | JBool _ | JFloat _ => ret (Grouped v)
  | JStr _ => raise ValueError
  | _ => raise TypeError
  end.

(** [if v:]. *)
Definition truthy (v : JSON) : bool :=
  match v with
  | JNull => false
  | JBool b => b
  | JInt z => negb (z =? 0)%Z
  | JFloat q => negb (Qeq_bool q 0)
  | JStr s => negb (String.eqb s EmptyString)
  | JArr items => negb (Nat.eqb (List.length items) 0)
  | JObj members => negb (Nat.eqb (List.length members) 0)
  end.

(** The elements of [v[:5]]; what cannot be sliced raises [TypeError]. *)
Definition first_five (v : JSON) : M (list JSON) :=
  match v with
  | JArr items => ret (firstn 5 items)
  | JStr s =>
      ret (map (fun c => JStr (String c EmptyString))
               (firstn 5 (list_ascii_of_string s)))
  | _ => raise TypeError
  end.

(** [for x in l: body x]. *)
Fixpoint for_each {A} (l : list A) (body : A -> M unit) : M unit :=
  match l with
  | [] => ret tt
  | x :: rest => body x ;; for_each rest body
  end.

Definition render_alert (alert : JSON) : M unit :=
  severity <- subscript alert "severity" ;;
  severity_color <- color_get severity_colors severity ;;
  severity' <- subscript alert "severity" ;;
  label <- str_upper severity' ;;
  name <- subscript alert "name" ;;
  text <- subscript alert "message" ;;
  print [Lit (severity_color ++ "[" ++ label ++ "]" ++ RESET ++ " ");
         Str name; Lit ": "; Str text].

(** The [try] block of [display_metrics_dashboard], cut at the comments
    of the source: header, health status, key and performance metrics,
    active alerts. *)
Definition display_header : M unit :=
  say (repeat_string "=" 80) ;;
  say (center "CLICK-LITE MONITORING DASHBOARD" 80) ;;
  say (repeat_string "=" 80) ;;
  newline.

Definition display_health (health : JSON) : M unit :=
  status <- dict_get health "status" (JStr "unknown") ;;
  status_color <- color_get status_colors status ;;
  label <- str_upper status ;;
  say ("System Status: " ++ status_color ++ label ++ RESET) ;;
  version <- dict_get health "version" (JStr "unknown") ;;
  print [Lit "Version: "; Str version] ;;
  uptime <- dict_get health "uptime_seconds" (JInt 0) ;;
  seconds <- as_number uptime ;;
  say ("Uptime: " ++ format_uptime seconds) ;;
  newline.

Definition display_metrics (metrics : JSON) : M unit :=
  say "KEY METRICS:" ;;
  say (repeat_string "-" 40) ;;
  items <- iterate metrics ;;
  metric_map <- metric_entries items [] ;;
  let ingestion_rate := metric_get metric_map "ingestion_rate_per_second" in
  let query_rate := metric_get metric_map "query_rate_per_second" in
  let total_logs := metric_get metric_map "total_logs_ingested" in
  let total_queries := metric_get metric_map "total_queries_executed" in
  p <- format_fixed1 ingestion_rate ;;
  print [Lit "Ingestion Rate: "; p; Lit " logs/sec"] ;;
  p <- format_fixed1 query_rate ;;
  print [Lit "Query Rate: "; p; Lit " queries/sec"] ;;
  p <- format_grouped total_logs ;;
  print [Lit "Total Logs: "; p] ;;
  p <- format_grouped total_queries ;;
  print [Lit "Total Queries: "; p] ;;
  newline ;;
  say "PERFORMANCE:" ;;
  say (repeat_string "-" 40) ;;
  let query_avg := metric_get metric_map "query_duration_ms_avg" in
  let query_p99 := metric_get metric_map "query_duration_ms_p99" in
  p <- format_fixed1 query_avg ;;
  print [Lit "Avg Query Duration: "; p; Lit " ms"] ;;
  p <- format_fixed1 query_p99 ;;
  print [Lit "P99 Query Duration: "; p; Lit " ms"] ;;
  newline.

Definition display_alerts (alerts : JSON) : M unit :=
  say "ACTIVE ALERTS:" ;;
  say (repeat_string "-" 40) ;;
  (if truthy alerts
   then shown <- first_five alerts ;; for_each shown render_alert
   else say (GREEN ++ "No active alerts" ++ RESET)) ;;
  newline ;;
  say "Press Ctrl+C to stop monitoring...".

Definition dashboard_snapshot : M unit :=
  say (ESC ++ "[2J" ++ ESC ++ "[H") ;;
  health <- check_health ;;
  metrics <- get_metrics ;;
  alerts <- get_alerts ;;
  display_header ;;
  display_health health ;;
  display_metrics metrics ;;
  display_alerts alerts.

(** The body of the [while] loop of [display_metrics_dashboard]. *)
Definition dashboard_tick : M unit :=
  try_except ExceptException
    dashboard_snapshot
    (fun e => print [Lit "Error updating dashboard: "; ExnText e]) ;;
  time_sleep 2000.

Definition display_metrics_dashboard (fuel : nat) : M unit :=
  while fuel get_running dashboard_tick.

(** ** The run controller *)

(** [threading.Thread(target=...)], [daemon = True] and [start()].  The
    trace of a world is the trace of one thread: the started thread runs
    its target in a [Worker] world of its own, and shares with the main
    thread nothing but the [running] field. *)
Definition thread_start (target : string) : M unit :=
  fun w => (Val tt, emit (EvThreadStart target) w).

(** The body of the [try] statement of [run_demo]: the four phases. *)
Definition run_phases (fuel : nat) : M unit :=
  say "Phase 1: Normal operation (60 seconds)" ;;
  generate_normal_load fuel 60 ;;
  say (NL ++ "Phase 2: High load test (30 seconds)") ;;
  generate_high_load fuel 30 ;;
  say (NL ++ "Phase 3: Slow query test") ;;
  generate_slow_queries 10 ;;
  say (NL ++ "Phase 4: Return to normal operation (30 seconds)") ;;
  generate_normal_load fuel 30 ;;
  say (NL ++ "Demo complete! Check http://localhost:5173/monitoring for the web dashboard.").

Definition run_demo (fuel : nat) : M unit :=
  say "Starting Click-Lite Monitoring Demo..." ;;
  newline ;;
  thread_start "display_metrics_dashboard" ;;
  try_finally
    (try_except ExceptKeyboardInterrupt
       (run_phases fuel)
       (fun _ => say (NL ++ "Demo stopped by user.")))
    (set_running false).

(** [demo = MonitoringDemo()]. *)
Definition new_demo : M unit :=
  fun w => (Val tt, with_self MonitoringDemo_init w).

(** [main]; the value of the [try] statement tells whether the function
    went past it or returned from inside it. *)
Definition main (fuel : nat) : M unit :=
  proceed <-
    try_except ExceptRequestException
      (response <- requests_get (API_URL ++ "/monitoring/health/live") (Some 2000) ;;
       if negb (fst response =? 200)%Z
       then
         say "Error: Click-Lite services are not responding properly." ;;
         say "Please ensure the backend is running on port 20002." ;;
         ret false
       else ret true)
      (fun _ =>
         say "Error: Cannot connect to Click-Lite services." ;;
         say "Please ensure:" ;;
         say "1. Backend is running: cd backend && go run main.go" ;;
         say "2. Frontend is running: cd frontend && pnpm dev" ;;
         ret false) ;;
  if proceed then new_demo ;; run_demo fuel else ret tt.

(** * Vocabulary of the properties *)

(** The world after [k] more raw draws. *)
Definition bump_rand (k : nat) (w : World) : World :=
  mkWorld (env w) (thread w) (self w) (clock w)
          (k + n_rand w) (n_net w) (n_block w) (out w).

(** The [i]-th raw draw still to come in [w]. *)
Definition draw (w : World) (i : nat) : N := rand_raw (env w) (i + n_rand w).

(** The level that the weights 10, 70, 15, 5 give to a draw [u] of the
    unit interval: the interval is cut at 0.10, 0.80 and 0.95. *)
Definition level_of_draw (u : Q) : string :=
  if Qlt_bool u (10 # 100) then "debug"
  else if Qlt_bool u (80 # 100) then "info"
  else if Qlt_bool u (95 # 100) then "warning"
  else "error".

(** The size of the batch that the raw draw [k] gives to
    [random.randint(a, b)]. *)
Definition randint_of (a b : Z) (k : N) : Z := (a + Z.of_N k mod (b - a + 1))%Z.

(** [grows P w w']: the trace of [w'] is that of [w] followed by events
    that all satisfy [P]. *)
Definition grows (P : event -> Prop) (w w' : World) : Prop :=
  exists evs, out w' = (out w ++ evs)%list /\ Forall P evs.

(** [quiet P w w']: from [w] to [w'] the object, the environment and the
    thread are unchanged, the clock has not gone back, and the new events
    satisfy [P]. *)
Definition quiet (P : event -> Prop) (w w' : World) : Prop :=
  self w' = self w /\ env w' = env w /\ thread w' = thread w /\
  (clock w <= clock w')%Z /\ grows P w w'.

(** A method respects a relation on worlds when each of its runs relates
    the world it starts in to the world it ends in. *)
Definition respects (R : World -> World -> Prop) {A} (m : M A) : Prop :=
  forall w, R w (snd (m w)).

(** A batch of records has between [lo] and [hi] records. *)
Definition batch_within (lo hi : Z) (e : event) : Prop :=
  match e with
  | EvPost _ (Logs records) => (lo <= Z.of_nat (length records) <= hi)%Z
  | _ => True
  end.

(** The [n] equally spaced draws [0/n], [1/n], ..., [(n-1)/n] of the unit
    interval, and the number of them that pass a test. *)
Definition grid (n : nat) : list Q :=
  map (fun j => Z.of_nat j # Pos.of_nat n) (seq 0 n).

Definition share (test : Q -> bool) (n : nat) : nat :=
  length (filter test (grid n)).

(** The world in which the remote service answers [replies] instead. *)
Definition with_replies (replies : nat -> reply) (w : World) : World :=
  mkWorld (mkEnv (rand_raw (env w)) replies (net_time (env w)) (sigint (env w)))
          (thread w) (self w) (clock w) (n_rand w) (n_net w) (n_block w) (out w).

(** A method is blind to the replies of the service when other replies
    change neither its result nor anything of its final world. *)
Definition blind_to_replies {A} (m : M A) : Prop :=
  forall replies w,
    m (with_replies replies w) = (fst (m w), with_replies replies (snd (m w))).

(** A world of the main thread in which SIGINT arrives only during the
    blocking calls numbered in [hits]. *)
Definition interrupted_world (hits : list nat) (replies : nat -> reply) : World :=
  mkWorld (mkEnv (fun k => N.of_nat k) replies (fun _ => 7%N)
                 (fun k => existsb (Nat.eqb k) hits))
          MainThread MonitoringDemo_init 0 0 0 0 [].

(** The events of one iteration of the slow-query loop. *)
Definition slow_iteration (url : string) : list event :=
  [EvPost (url ++ "/query/execute") (Sql slow_sql); EvSleep 500].

(** A world of the main thread without SIGINT, whose object has been
    stopped: [running] is false. *)
Definition stopped_world (replies : nat -> reply) : World :=
  mkWorld (mkEnv (fun k => N.of_nat k) replies (fun _ => 7%N) (fun _ => false))
          MainThread (mkDemo API_URL false) 0 0 0 0 [].

(** The values written to [self.running], in order. *)
Definition flag_writes (evs : list event) : list bool :=
  flat_map (fun e => match e with EvSetRunning b => [b] | _ => [] end) evs.

Definition no_flag_write (e : event) : Prop :=
  match e with EvSetRunning _ => False | _ => True end.

Definition never_sets_true (e : event) : Prop :=
  match e with EvSetRunning b => b = false | _ => True end.

(** A run settles when it ends, returning or raising [KeyboardInterrupt],
    with the clock at least [ms] later if it returns. *)
Definition settled {A} (ms : Z) (w : World) (run : result A * World) : Prop :=
  match run with
  | (Val _, w') => (clock w + ms <= clock w')%Z
  | (Exc e, w') => e = KeyboardInterrupt /\ (clock w <= clock w')%Z
  | (Fuel, _) => False
  end.

Definition settles {A} (ms : Z) (m : M A) : Prop :=
  forall w, settled ms w (m w).

(** A step that leaves the world as it is. *)
Definition stateless {A} (m : M A) : Prop := forall w, snd (m w) = w.

(** The liveness request of the start-up precheck and its two diagnostics. *)
Definition liveness_request : event :=
  EvGet (API_URL ++ "/monitoring/health/live") (Some 2000).

Definition status_diagnostic : list event :=
  [ EvPrint [Lit "Error: Click-Lite services are not responding properly."];
    EvPrint [Lit "Please ensure the backend is running on port 20002."] ].

Definition connection_diagnostic : list event :=
  [ EvPrint [Lit "Error: Cannot connect to Click-Lite services."];
    EvPrint [Lit "Please ensure:"];
    EvPrint [Lit "1. Backend is running: cd backend && go run main.go"];
    EvPrint [Lit "2. Frontend is running: cd frontend && pnpm dev"] ].

Fixpoint emit_all (evs : list event) (w : World) : World :=
  match evs with
  | [] => w
  | e :: rest => emit_all rest (emit e w)
  end.

(** A success status of HTTP: the class 2xx. *)
Definition http_success (status_code : Z) : bool :=
  ((200 <=? status_code) && (status_code <? 300))%Z.

(** The precheck as the specification words it: the demo is refused, with
    a diagnostic and nothing else, exactly when the liveness request fails
    or is answered with a status that is not a success; otherwise it runs. *)
Definition precheck_as_stated (fuel : nat) (w : World) : Prop :=
  let refused :=
    match net_reply (env w) (n_net w) with
    | Failure _ => true
    | Response status_code _ => negb (http_success status_code)
    end in
  if refused
  then exists diagnostic,
         (diagnostic = status_diagnostic \/ diagnostic = connection_diagnostic) /\
         main fuel w = (Val tt, emit_all diagnostic (sent liveness_request w))
  else main fuel w =
         run_demo fuel (with_self MonitoringDemo_init (sent liveness_request w)).

(** A main-thread world without SIGINT in which the service answers every
    request with [answer]. *)
Definition answering_world (answer : reply) : World :=
  mkWorld (mkEnv (fun k => N.of_nat k) (fun _ => answer) (fun _ => 7%N) (fun _ => false))
          MainThread MonitoringDemo_init 0 0 0 0 [].

(** What a fetch makes of the answer to its request: [check_health]
    returns the parsed body ([field] is [None]), [get_metrics] and
    [get_alerts] go on with [.get(field, [])]. *)
Definition fetch_result (field : option string) (answer : reply) : result JSON :=
  match answer with
  | Failure r => Exc (RequestException r)
  | Response _ None => Exc JSONDecodeError
  | Response _ (Some v) =>
      match field with
      | None => Val v
      | Some key =>
          match v with
          | JObj members =>
              Val (match assoc key members with Some x => x | None => JArr [] end)
          | _ => Exc AttributeError
          end
      end
  end.

Definition fetch_exn (field : option string) (answer : reply) : option exn :=
  match fetch_result field answer with
  | Exc e => Some e
  | _ => None
  end.

(** The three requests of a dashboard tick, in order, and the fetches
    that make them. *)
Definition fetch_requests (url : string) : list event :=
  [ EvGet (url ++ "/monitoring/health") None;
    EvGet (url ++ "/monitoring/metrics") None;
    EvGet (url ++ "/monitoring/alerts/active") None ].

Definition fetches : list (M JSON) := [check_health; get_metrics; get_alerts].

Fixpoint send_all (requests : list event) (w : World) : World :=
  match requests with
  | [] => w
  | request :: rest => send_all rest (sent request w)
  end.

(** The first of the three fetches of a tick to raise, counted from 1,
    with its exception. *)
Definition first_fetch_error (w : World) : option (nat * exn) :=
  let answer i := net_reply (env w) (i + n_net w) in
  match fetch_exn None (answer 0%nat) with
  | Some e => Some (1%nat, e)
  | None =>
      match fetch_exn (Some "metrics") (answer 1%nat) with
      | Some e => Some (2%nat, e)
      | None =>
          match fetch_exn (Some "alerts") (answer 2%nat) with
          | Some e => Some (3%nat, e)
          | None => None
          end
      end
  end.

Definition clear_screen : event := EvPrint [Lit (ESC ++ "[2J" ++ ESC ++ "[H")].

Definition error_line (e : exn) : event :=
  EvPrint [Lit "Error updating dashboard: "; ExnText e].

(** The lines of a snapshot: the header, the metrics when there is no
    metric, the alerts when there is no alert. *)
Definition header_lines : list event :=
  [ EvPrint [Lit (repeat_string "=" 80)];
    EvPrint [Lit (center "CLICK-LITE MONITORING DASHBOARD" 80)];
    EvPrint [Lit (repeat_string "=" 80)];
    EvPrint [] ].

Definition empty_metrics_lines : list event :=
  [ EvPrint [Lit "KEY METRICS:"];
    EvPrint [Lit (repeat_string "-" 40)];
    EvPrint [Lit "Ingestion Rate: "; Fixed1 (JInt 0); Lit " logs/sec"];
    EvPrint [Lit "Query Rate: "; Fixed1 (JInt 0); Lit " queries/sec"];
    EvPrint [Lit "Total Logs: "; Grouped (JInt 0)];
    EvPrint [Lit "Total Queries: "; Grouped (JInt 0)];
    EvPrint [];
    EvPrint [Lit "PERFORMANCE:"];
    EvPrint [Lit (repeat_string "-" 40)];
    EvPrint [Lit "Avg Query Duration: "; Fixed1 (JInt 0); Lit " ms"];
    EvPrint [Lit "P99 Query Duration: "; Fixed1 (JInt 0); Lit " ms"];
    EvPrint [] ].

Definition no_alerts_lines : list event :=
  [ EvPrint [Lit "ACTIVE ALERTS:"];
    EvPrint [Lit (repeat_string "-" 40)];
    EvPrint [Lit (GREEN ++ "No active alerts" ++ RESET)];
    EvPrint [];
    EvPrint [Lit "Press Ctrl+C to stop monitoring..."] ].

(** A world of the dashboard thread whose object is running and in which
    the service gives the answers of [answers] in turn, then failures. *)
Definition dashboard_world (answers : list reply) : World :=
  mkWorld (mkEnv (fun k => N.of_nat k)
                 (fun k => nth k answers (Failure ConnectionError))
                 (fun _ => 7%N) (fun _ => true))
          Worker MonitoringDemo_init 0 0 0 0 [].

(** A well-formed health report and the lines that show it. *)
Definition sample_health : JSON :=
  JObj [("status", JStr "ok"); ("version", JStr "1.0"); ("uptime_seconds", JInt 3661)].

Definition sample_health_lines : list event :=
  [ EvPrint [Lit ("System Status: " ++ GREEN ++ "OK" ++ RESET)];
    EvPrint [Lit "Version: "; Str (JStr "1.0")];
    EvPrint [Lit "Uptime: 0d 1h 1m"];
    EvPrint [] ].

(** The sizes of the batches submitted in a trace, and the plain lines
    printed in it. *)
Definition batch_sizes (evs : list event) : list nat :=
  flat_map (fun e => match e with
                     | EvPost _ (Logs records) => [length records]
                     | _ => []
                     end) evs.

Definition printed (evs : list event) : list string :=
  flat_map (fun e => match e with EvPrint [Lit s] => [s] | _ => [] end) evs.

(** A main-thread world whose service fails every request after a
    hundred seconds, with SIGINT during the blocking calls numbered in
    [hits]. *)
Definition slow_service_world (hits : list nat) : World :=
  mkWorld (mkEnv (fun k => (N.of_nat k * 7919)%N) (fun _ => Failure Timeout)
                 (fun _ => 100000%N) (fun k => existsb (Nat.eqb k) hits))
          MainThread MonitoringDemo_init 0 0 0 0 [].

(** A method is safe in the dashboard thread when, run in a [Worker]
    world, it stays in that thread and neither runs out of fuel nor ends
    with [KeyboardInterrupt]. *)
Definition worker_safe {A} (m : M A) : Prop :=
  forall w, thread w = Worker ->
    thread (snd (m w)) = Worker /\
    fst (m w) <> Exc KeyboardInterrupt /\
    fst (m w) <> Fuel.

(** The events of a reader: prints, GET requests and sleeps.  The events
    of a writer: prints, POST requests and sleeps. *)
Definition reader_event (e : event) : Prop :=
  match e with
  | EvPrint _ | EvGet _ _ | EvSleep _ => True
  | _ => False
  end.

Definition writer_event (e : event) : Prop :=
  match e with
  | EvPrint _ | EvPost _ _ | EvSleep _ => True
  | _ => False
  end.

(** The line that shows an alert: its severity in capitals between
    brackets, in the colour of the severity, its name and its message.
    An alert has a line when it is an object with a string severity, a
    name and a message. *)
Definition severity_color (severity : string) : string :=
  match color_assoc severity severity_colors with
  | Some c => c
  | None => RESET
  end.

Definition alert_line (alert : JSON) : option event :=
  match alert with
  | JObj members =>
      match assoc "severity" members, assoc "name" members, assoc "message" members with
      | Some (JStr severity), Some name, Some text =>
          Some (EvPrint [Lit (severity_color severity ++ "[" ++ upper severity ++ "]"
                              ++ RESET ++ " ");
                         Str name; Lit ": "; Str text])
      | _, _, _ => None
      end
  | _ => None
  end.

Definition alerts_heading : list event :=
  [ EvPrint [Lit "ACTIVE ALERTS:"]; EvPrint [Lit (repeat_string "-" 40)] ].

Definition alerts_footing : list event :=
  [ EvPrint []; EvPrint [Lit "Press Ctrl+C to stop monitoring..."] ].

(** The entry that a metric adds to [metric_map]: a metric has one when
    it is an object with a hashable name and a value. *)
Definition metric_pair (m : JSON) : option (JSON * JSON) :=
  match m with
  | JObj members =>
      match assoc "name" members, assoc "value" members with
      | Some name, Some value => if hashable name then Some (name, value) else None
      | _, _ => None
      end
  | _ => None
  end.

(** The values that [{v:.1f}] and [{v:,}] accept. *)
Definition fixed1_ok (v : JSON) : bool :=
  match v with
  | JInt z => (Z.abs z <? FLOAT_LIMIT)%Z
  | JBool _ | JFloat _ => true
  | _ => false
  end.

Definition grouped_ok (v : JSON) : bool :=
  match v with
  | JInt _ | JBool _ | JFloat _ => true
  | _ => false
  end.

Definition metrics_heading : list event :=
  [ EvPrint [Lit "KEY METRICS:"]; EvPrint [Lit (repeat_string "-" 40)] ].

(** The lines of the metrics, each metric read with [lookup]. *)
Definition metrics_lines (lookup : string -> JSON) : list event :=
  metrics_heading ++
  [ EvPrint [Lit "Ingestion Rate: "; Fixed1 (lookup "ingestion_rate_per_second");
             Lit " logs/sec"];
    EvPrint [Lit "Query Rate: "; Fixed1 (lookup "query_rate_per_second");
             Lit " queries/sec"];
    EvPrint [Lit "Total Logs: "; Grouped (lookup "total_logs_ingested")];
    EvPrint [Lit "Total Queries: "; Grouped (lookup "total_queries_executed")];
    EvPrint [];
    EvPrint [Lit "PERFORMANCE:"];
    EvPrint [Lit (repeat_string "-" 40)];
    EvPrint [Lit "Avg Query Duration: "; Fixed1 (lookup "query_duration_ms_avg");
             Lit " ms"];
    EvPrint [Lit "P99 Query Duration: "; Fixed1 (lookup "query_duration_ms_p99");
             Lit " ms"];
    EvPrint [] ].

(** A member of the health report, or its default. *)
Definition health_field (members : list (string * JSON)) (key : string)
  (default : JSON) : JSON :=
  match assoc key members with
  | Some x => x
  | None => default
  end.

Definition status_color (status : string) : string :=
  match color_assoc status status_colors with
  | Some c => c
  | None => RESET
  end.

Definition number_of (v : JSON) : option number :=
  match v with
  | JInt z => Some (Int z)
  | JBool b => Some (Int (Z.b2z b))
  | JFloat q => Some (Float q)
  | _ => None
  end.

Definition health_lines (status : string) (version : JSON) (seconds : number)
  : list event :=
  [ EvPrint [Lit ("System Status: " ++ status_color status ++ upper status ++ RESET)];
    EvPrint [Lit "Version: "; Str version];
    EvPrint [Lit ("Uptime: " ++ format_uptime seconds)];
    EvPrint [] ].

(** What every record of the high load is, given the size of its batch,
    and what every record of the normal load is. *)
Definition high_record_ok (batch_size : Z) (r : LogRecord) : Prop :=
  In (level r) ["info"; "warning"; "error"] /\
  message r = "High load test log" /\
  service r = "load-test" /\
  attributes r = [("load_test", JBool true); ("batch_size", JInt batch_size)].

Definition normal_record_ok (r : LogRecord) : Prop :=
  In (level r) ["debug"; "info"; "warning"; "error"] /\
  (exists what,
     In what ["User login"; "API request"; "Data processed"; "Cache hit";
              "Task completed"] /\
     message r = "Normal operation log - " ++ what) /\
  In (service r) ["web"; "api"; "worker"; "cache"] /\
  (exists user_id duration_ms,
     (1000 <= user_id <= 9999)%Z /\ (10 <= duration_ms <= 500)%Z /\
     attributes r =
       [ ("user_id", JInt user_id); ("duration_ms", JInt duration_ms);
         ("status", JStr (if String.eqb (level r) "error" then "failed" else "success")) ]).

(** The number of batches submitted so far. *)
Definition batches (w : World) : Z := Z.of_nat (length (batch_sizes (out w))).

(** An event that prints no plain line. *)
Definition silent (e : event) : Prop := printed [e] = [].

(** [scripted n lines m]: a run of [m] prints the lines of [lines] in
    order; it prints them all when it returns, and when it is interrupted
    it has printed some first ones, [n] at most. *)
Definition scripted (n : nat) (lines : list string) (m : M unit) : Prop :=
  forall w, exists k,
    printed (out (snd (m w))) = (printed (out w) ++ firstn k lines)%list /\
    (fst (m w) = Val tt /\ k = length lines \/
     fst (m w) = Exc KeyboardInterrupt /\ (k <= n)%nat).

(** The lines of the four phases, and the two endings of the demo. *)
Definition demo_script : list string :=
  [ "Phase 1: Normal operation (60 seconds)";
    "Generating normal load for 60 seconds...";
    NL ++ "Phase 2: High load test (30 seconds)";
    "Generating HIGH LOAD for 30 seconds...";
    NL ++ "Phase 3: Slow query test";
    "Generating 10 slow queries...";
    NL ++ "Phase 4: Return to normal operation (30 seconds)";
    "Generating normal load for 30 seconds..." ].

Definition demo_complete : string :=
  NL ++ "Demo complete! Check http://localhost:5173/monitoring for the web dashboard.".

Definition demo_stopped : string := NL ++ "Demo stopped by user.".

(** A world in which SIGINT never arrives. *)
Definition calm (w : World) : Prop := forall k, sigint (env w) k = false.

(** [lasts ms m]: in a calm world, with the flag on, a run of [m] returns
    [ms] milliseconds later at least, and leaves the world calm and the
    object as it was. *)
Definition lasts (ms : Z) (m : M unit) : Prop :=
  forall w, calm w -> running (self w) = true ->
    exists w',
      m w = (Val tt, w') /\ calm w' /\ self w' = self w /\
      (clock w + ms <= clock w')%Z.

(** Two replies that differ at most in their status code. *)
Definition same_bodies (a b : reply) : Prop :=
  match a, b with
  | Response _ x, Response _ y => x = y
  | Failure r, Failure r' => r = r'
  | _, _ => False
  end.

(** The replies [replies] are those of the world but for status codes. *)
Definition agree (replies : nat -> reply) (w : World) : Prop :=
  forall k, same_bodies (net_reply (env w) k) (replies k).

(** A method is blind to status codes when replies with other status
    codes change neither its result nor anything else of its final
    world. *)
Definition status_blind {A} (m : M A) : Prop :=
  forall replies w, agree replies w ->
    agree replies (snd (m w)) /\
    m (with_replies replies w) = (fst (m w), with_replies replies (snd (m w))).

(** The reply [r] with the status code [code]. *)
Definition recode (code : Z) (r : reply) : reply :=
  match r with
  | Response _ body => Response code body
  | Failure e => Failure e
  end.

(** A dashboard world whose service answers the three fetches of a tick
    well, and the same answers with the status code 503. *)
Definition healthy_world : World :=
  dashboard_world [ Response 200 (Some sample_health);
                    Response 200 (Some (JObj []));
                    Response 200 (Some (JObj [])) ].

Definition unavailable (k : nat) : reply :=
  recode 503 (net_reply (env healthy_world) k).

(** * Properties *)

(** ** Runs of the primitives *)

Lemma bump_rand_0 (w : World) : bump_rand 0 w = w.
Proof. destruct w; reflexivity. Qed.

Lemma bump_rand_add (j k : nat) (w : World) :
  bump_rand j (bump_rand k w) = bump_rand (j + k) w.
Proof. unfold bump_rand; cbn. f_equal. lia. Qed.

Lemma draw_bump (k i : nat) (w : World) : draw (bump_rand k w) i = draw w (i + k).
Proof. unfold draw, bump_rand; cbn. f_equal. lia. Qed.

Lemma unit_draw_range (k : N) : (0 <= unit_draw k /\ unit_draw k < 1)%Q.
Proof.
  unfold unit_draw, Qle, Qlt; cbn [Qnum Qden].
  assert (H : (0 < RANDOM_RES)%Z) by reflexivity.
  pose proof (Z.mod_pos_bound (Z.of_N k) RANDOM_RES H) as B.
  rewrite Z2Pos.id by exact H. lia.
Qed.

Lemma random_random_run (w : World) :
  random_random w = (Val (unit_draw (draw w 0)), bump_rand 1 w).
Proof. reflexivity. Qed.

Lemma random_randint_run (a b : Z) (w : World) :
  random_randint a b w =
    (Val (a + Z.of_N (draw w 0) mod (b - a + 1))%Z, bump_rand 1 w).
Proof. reflexivity. Qed.

Lemma randint_range (a b : Z) (k : N) :
  (a <= b)%Z -> (a <= a + Z.of_N k mod (b - a + 1) <= b)%Z.
Proof.
  intros H. pose proof (Z.mod_pos_bound (Z.of_N k) (b - a + 1)). lia.
Qed.

Lemma random_choice_run {A} (seq : list A) (w : World) :
  seq <> [] ->
  exists x, In x seq /\ random_choice seq w = (Val x, bump_rand 1 w).
Proof.
  intros Hne. unfold random_choice, bind, next_raw, ret.
  set (i := N.to_nat _).
  assert (Hi : (i < length seq)%nat).
  { subst i. destruct seq as [|a l]; [congruence|].
    assert (Hn : N.of_nat (length (a :: l)) <> 0%N) by (cbn [length]; lia).
    pose proof (N.mod_lt (rand_raw (env w) (n_rand w)) _ Hn).
    lia. }
  destruct (nth_error seq i) as [x|] eqn:E.
  - exists x. split; [eapply nth_error_In; eassumption | reflexivity].
  - apply nth_error_None in E. lia.
Qed.

Lemma bisect_le (a : list Z) (x : Q) (hi : nat) : (bisect a x hi <= hi)%nat.
Proof.
  revert hi. induction a as [|y rest IH]; intros [|hi]; cbn; try lia.
  destruct (Qle_bool (inject_Z y) x); [specialize (IH hi)|]; lia.
Qed.

(** ** The level distribution *)

Lemma Qlt_bool_iff (x y : Q) : Qlt_bool x y = true <-> (x < y)%Q.
Proof.
  unfold Qlt_bool. rewrite negb_true_iff.
  split.
  - intros H. apply Qnot_le_lt. intros L. apply Qle_bool_iff in L. congruence.
  - intros H. destruct (Qle_bool y x) eqn:E; [|reflexivity].
    apply Qle_bool_iff in E. exfalso. eapply Qlt_not_le; eassumption.
Qed.

Lemma Qle_bool_percent (c : Z) (u : Q) :
  Qle_bool (inject_Z c) (u * inject_Z 100) = negb (Qlt_bool u (c # 100)).
Proof.
  unfold Qlt_bool. rewrite negb_involutive.
  apply eq_true_iff_eq. rewrite !Qle_bool_iff.
  destruct u as [a b]. unfold Qle; cbn. lia.
Qed.

Lemma choices_index_levels (u : Q) :
  nth_error ["debug"; "info"; "warning"; "error"]
            (choices_index [10; 80; 95; 100]%Z 4 u) = Some (level_of_draw u).
Proof.
  unfold choices_index, level_of_draw. cbn [last bisect Nat.sub].
  rewrite !Qle_bool_percent.
  destruct (Qlt_bool u (10 # 100)); [reflexivity|].
  destruct (Qlt_bool u (80 # 100)); [reflexivity|].
  destruct (Qlt_bool u (95 # 100)); reflexivity.
Qed.

Lemma level_of_draw_cases (u : Q) :
  ((u < 10 # 100 -> level_of_draw u = "debug") /\
   (10 # 100 <= u -> u < 80 # 100 -> level_of_draw u = "info") /\
   (80 # 100 <= u -> u < 95 # 100 -> level_of_draw u = "warning") /\
   (95 # 100 <= u -> level_of_draw u = "error"))%Q.
Proof.
  unfold level_of_draw.
  destruct (Qlt_bool u (10 # 100)) eqn:E1;
  destruct (Qlt_bool u (80 # 100)) eqn:E2;
  destruct (Qlt_bool u (95 # 100)) eqn:E3;
  repeat match goal with
         | H : Qlt_bool _ _ = true |- _ => apply Qlt_bool_iff in H
         | H : Qlt_bool _ _ = false |- _ =>
             apply not_true_iff_false in H; rewrite Qlt_bool_iff in H;
             apply Qnot_lt_le in H
         end;
  repeat split; intros; try reflexivity; exfalso; lra.
Qed.

(** ** Stepping through a method *)

Lemma bind_val {A B} (m : M A) (k : A -> M B) (w w' : World) (a : A) :
  m w = (Val a, w') -> bind m k w = k a w'.
Proof. intros H. unfold bind. rewrite H. reflexivity. Qed.

Lemma bind_exc {A B} (m : M A) (k : A -> M B) (w w' : World) (e : exn) :
  m w = (Exc e, w') -> bind m k w = (Exc e, w').
Proof. intros H. unfold bind. rewrite H. reflexivity. Qed.

Lemma time_time_run (w : World) : time_time w = (Val (clock w), w).
Proof. reflexivity. Qed.

Lemma get_api_url_run (w : World) : get_api_url w = (Val (api_url (self w)), w).
Proof. reflexivity. Qed.

Lemma get_running_run (w : World) : get_running w = (Val (running (self w)), w).
Proof. reflexivity. Qed.

Lemma print_run (line : list piece) (w : World) :
  print line w = (Val tt, emit (EvPrint line) w).
Proof. reflexivity. Qed.

Lemma say_run (s : string) (w : World) :
  say s w = (Val tt, emit (EvPrint [Lit s]) w).
Proof. reflexivity. Qed.

Lemma ret_run {A} (a : A) (w : World) : ret a w = (Val a, w).
Proof. reflexivity. Qed.

Create HintDb runs.
#[local] Hint Resolve time_time_run get_api_url_run get_running_run print_run
  say_run ret_run random_random_run random_randint_run : runs.

(** Run the first statement of a sequence with a known result. *)
Ltac step := erewrite bind_val; [| solve [eauto with runs]].

(** ** Runs of the record builders *)

Lemma level_choice_run (w : World) :
  random_choices ["debug"; "info"; "warning"; "error"] [10; 70; 15; 5]%Z w =
    (Val [level_of_draw (unit_draw (draw w 0))], bump_rand 1 w).
Proof.
  unfold random_choices.
  cbn [length accumulate Z.add last Nat.eqb negb Z.leb Z.compare Pos.add Pos.succ Pos.compare Pos.compare_cont].
  step. rewrite choices_index_levels. reflexivity.
Qed.

#[local] Hint Resolve level_choice_run : runs.

Lemma normal_record_run (w : World) :
  exists r,
    normal_record w = (Val r, bump_rand 5 w) /\
    level r = level_of_draw (unit_draw (draw w 0)).
Proof.
  unfold normal_record.
  step. unfold first. step.
  destruct (random_choice_run
              ["User login"; "API request"; "Data processed"; "Cache hit"; "Task completed"]
              (bump_rand 1 w) ltac:(discriminate)) as (what & _ & Hwhat).
  step.
  destruct (random_choice_run ["web"; "api"; "worker"; "cache"]
              (bump_rand 1 (bump_rand 1 w)) ltac:(discriminate)) as (svc & _ & Hsvc).
  step. step. step. step.
  rewrite !bump_rand_add. cbn [Nat.add].
  eexists. split; reflexivity.
Qed.

Lemma high_record_run (batch_size : Z) (w : World) :
  exists r, high_record batch_size w = (Val r, bump_rand 1 w).
Proof.
  unfold high_record.
  destruct (random_choice_run ["info"; "warning"; "error"] w ltac:(discriminate))
    as (lvl & _ & Hlvl).
  step. step. eexists. reflexivity.
Qed.

(** A loop that appends [n] items, each made with [c] draws. *)
Lemma collect_run {A} (item : M A) (c : nat) (P : World -> A -> Prop) :
  (forall w, exists x, item w = (Val x, bump_rand c w) /\ P w x) ->
  forall (n : nat) (acc : list A) (w : World),
  exists l,
    collect n item acc w = (Val (acc ++ l)%list, bump_rand (n * c) w) /\
    length l = n /\
    (forall i x, nth_error l i = Some x -> P (bump_rand (i * c) w) x).
Proof.
  intros Hitem. induction n as [|n IH]; intros acc w.
  - exists []. cbn. rewrite app_nil_r, bump_rand_0.
    repeat split. intros [|i] x; discriminate.
  - destruct (Hitem w) as (x & Hx & Px).
    destruct (IH (acc ++ [x])%list (bump_rand c w)) as (l & Hl & Hlen & HP).
    exists (x :: l). cbn [collect]. step. rewrite Hl.
    rewrite <- app_assoc, bump_rand_add. cbn [app length].
    replace (n * c + c)%nat with (S n * c)%nat by lia.
    repeat split; [congruence|].
    intros [|i] y Hy; cbn in Hy.
    + injection Hy as <-. rewrite bump_rand_0. exact Px.
    + specialize (HP i y Hy). rewrite bump_rand_add in HP.
      replace (S i * c)%nat with (i * c + c)%nat by lia. exact HP.
Qed.

(** ** Runs of the loop bodies *)

Lemma time_sleep_run (ms : Z) (w : World) :
  time_sleep ms w =
    if interrupted w then (Exc KeyboardInterrupt, asleep ms w)
    else (Val tt, advance ms (asleep ms w)).
Proof. reflexivity. Qed.

(** A submission wrapped in [try: ... except: pass] returns normally
    whatever happens to the request. *)
Lemma quiet_post_run (path : string) (body : payload) (w : World) :
  try_except ExceptAll
    (url <- get_api_url ;; requests_post (url ++ path) body ;; ret tt)
    (fun _ => ret tt) w
  = (Val tt, sent (EvPost (api_url (self w) ++ path) body) w).
Proof.
  unfold try_except. step.
  unfold bind, requests_post, round_trip.
  destruct (interrupted w); [reflexivity|].
  destruct (net_reply (env w) (n_net w)); reflexivity.
Qed.

#[local] Hint Resolve quiet_post_run : runs.

Lemma execute_query_run (w : World) :
  exists q,
    In q queries /\
    execute_query w =
      (Val tt, sent (EvPost (api_url (self w) ++ "/query/execute") (Sql q))
                    (bump_rand 1 w)).
Proof.
  unfold execute_query.
  destruct (random_choice_run queries w ltac:(discriminate)) as (q & Hin & Hq).
  exists q. split; [exact Hin|]. step. rewrite quiet_post_run. reflexivity.
Qed.

Lemma slow_query_body_run (i : nat) (w : World) :
  slow_query_body i w =
    time_sleep 500 (sent (EvPost (api_url (self w) ++ "/query/execute") (Sql slow_sql)) w).
Proof. unfold slow_query_body. step. reflexivity. Qed.

Lemma high_load_body_run (w : World) :
  let batch_size := randint_of 500 1000 (draw w 0) in
  exists logs,
    length logs = Z.to_nat batch_size /\
    high_load_body w =
      time_sleep 100
        (sent (EvPost (api_url (self w) ++ "/ingest/bulk") (Logs logs))
              (bump_rand (Z.to_nat batch_size + 1) w)).
Proof.
  intros batch_size. unfold high_load_body. step.
  fold (randint_of 500 1000 (draw w 0)). fold batch_size.
  destruct (collect_run (high_record batch_size) 1 (fun _ _ => True)
              ltac:(intros w'; destruct (high_record_run batch_size w') as (r & Hr);
                    exists r; split; [exact Hr|exact I])
              (Z.to_nat batch_size) [] (bump_rand 1 w)) as (logs & Hlogs & Hlen & _).
  exists logs. split; [exact Hlen|].
  step. step. rewrite bump_rand_add, Nat.mul_1_r. reflexivity.
Qed.

Lemma normal_load_body_run (w : World) :
  let batch_size := randint_of 10 50 (draw w 0) in
  let n := Z.to_nat batch_size in
  exists logs q,
    length logs = n /\
    (forall i r, nth_error logs i = Some r ->
                 level r = level_of_draw (unit_draw (draw w (i * 5 + 1)))) /\
    In q queries /\
    let posted :=
      sent (EvPost (api_url (self w) ++ "/ingest/logs") (Logs logs))
           (bump_rand (n * 5 + 1) w) in
    normal_load_body w =
      if Qlt_bool (unit_draw (draw w (n * 5 + 1))) (3 # 10)
      then time_sleep 1000
             (sent (EvPost (api_url (self w) ++ "/query/execute") (Sql q))
                   (bump_rand 2 posted))
      else time_sleep 1000 (bump_rand 1 posted).
Proof.
  intros batch_size n. unfold normal_load_body. step.
  fold (randint_of 10 50 (draw w 0)). fold batch_size. fold n.
  destruct (collect_run normal_record 5
              (fun w' r => level r = level_of_draw (unit_draw (draw w' 0)))
              normal_record_run n [] (bump_rand 1 w)) as (logs & Hlogs & Hlen & Hlev).
  rewrite bump_rand_add in Hlogs.
  set (posted := sent (EvPost (api_url (self w) ++ "/ingest/logs") (Logs logs))
                      (bump_rand (n * 5 + 1) w)).
  destruct (execute_query_run (bump_rand 1 posted)) as (q & Hq & Hrun).
  exists logs, q. split; [exact Hlen|]. split.
  { intros i r Hi. rewrite (Hlev i r Hi), !draw_bump. reflexivity. }
  split; [exact Hq|].
  step. step. fold posted. step.
  replace (draw posted 0) with (draw w (n * 5 + 1))
    by (unfold draw, posted; cbn; f_equal; lia).
  destruct (Qlt_bool _ _).
  - step. rewrite bump_rand_add. reflexivity.
  - step. reflexivity.
Qed.

(** ** Relations kept by every run *)

Section Respect.
Variable R : World -> World -> Prop.
Hypothesis R_refl : forall w, R w w.
Hypothesis R_trans : forall a b c, R a b -> R b c -> R a c.

Lemma respects_ret {A} (a : A) : respects R (ret a).
Proof. intros w. apply R_refl. Qed.

Lemma respects_raise {A} (e : exn) : respects R (@raise A e).
Proof. intros w. apply R_refl. Qed.

Lemma respects_bind {A B} (m : M A) (k : A -> M B) :
  respects R m -> (forall a, respects R (k a)) -> respects R (bind m k).
Proof.
  intros Hm Hk w. unfold bind. specialize (Hm w).
  destruct (m w) as [[a|e|] w1]; cbn in *; try assumption.
  eapply R_trans; [eassumption | apply Hk].
Qed.

Lemma respects_try_except {A} (c : clause) (body : M A) (handler : exn -> M A) :
  respects R body -> (forall e, respects R (handler e)) ->
  respects R (try_except c body handler).
Proof.
  intros Hb Hh w. unfold try_except. specialize (Hb w).
  destruct (body w) as [[a|e|] w1]; cbn in *; try assumption.
  destruct (caught_by c e); cbn; [|assumption].
  eapply R_trans; [eassumption | apply Hh].
Qed.

Lemma respects_try_finally {A} (body : M A) (final : M unit) :
  respects R body -> respects R final -> respects R (try_finally body final).
Proof.
  intros Hb Hf w. unfold try_finally. specialize (Hb w).
  destruct (body w) as [[a|e|] w1]; cbn in *; try assumption;
    specialize (Hf w1); destruct (final w1) as [[[]|e'|] w2]; cbn in *;
    eapply R_trans; eassumption.
Qed.

Lemma respects_while (cond : M bool) (body : M unit) :
  respects R cond -> respects R body ->
  forall fuel, respects R (while fuel cond body).
Proof.
  intros Hc Hb. induction fuel as [|fuel IH]; cbn [while].
  - intros w. apply R_refl.
  - apply respects_bind; [exact Hc|]. intros [|].
    + apply respects_bind; [exact Hb | intros _; exact IH].
    + apply respects_ret.
Qed.

Lemma respects_for_range_from (body : nat -> M unit) :
  (forall i, respects R (body i)) ->
  forall n i, respects R (for_range_from i n body).
Proof.
  intros Hb. induction n as [|n IH]; intros i; cbn [for_range_from].
  - apply respects_ret.
  - apply respects_bind; [apply Hb | intros _; apply IH].
Qed.

Lemma respects_for_each {A} (body : A -> M unit) :
  (forall x, respects R (body x)) ->
  forall l, respects R (for_each l body).
Proof.
  intros Hb. induction l as [|x l IH]; cbn [for_each].
  - apply respects_ret.
  - apply respects_bind; [apply Hb | intros _; exact IH].
Qed.
End Respect.

Lemma grows_refl (P : event -> Prop) (w : World) : grows P w w.
Proof. exists []. split; [symmetry; apply app_nil_r | constructor]. Qed.

Lemma grows_same (P : event -> Prop) (w w' : World) :
  out w' = out w -> grows P w w'.
Proof.
  intros H. exists []. split; [rewrite H; symmetry; apply app_nil_r | constructor].
Qed.

Lemma grows_trans (P : event -> Prop) (a b c : World) :
  grows P a b -> grows P b c -> grows P a c.
Proof.
  intros (e1 & H1 & F1) (e2 & H2 & F2). exists (e1 ++ e2)%list. split.
  - rewrite H2, H1, app_assoc. reflexivity.
  - apply Forall_app. split; assumption.
Qed.

Ltac quiet_split := unfold quiet; refine (conj _ (conj _ (conj _ (conj _ _)))).

Lemma quiet_refl (P : event -> Prop) (w : World) : quiet P w w.
Proof. quiet_split; [reflexivity .. | lia | apply grows_refl]. Qed.

Lemma quiet_trans (P : event -> Prop) (a b c : World) :
  quiet P a b -> quiet P b c -> quiet P a c.
Proof.
  intros (S1 & E1 & T1 & C1 & G1) (S2 & E2 & T2 & C2 & G2).
  quiet_split; [congruence .. | lia | eapply grows_trans; eassumption].
Qed.

(** The primitives that do not touch the object. *)
Lemma quiet_bump_rand (P : event -> Prop) (k : nat) (w : World) :
  quiet P w (bump_rand k w).
Proof.
  quiet_split; [reflexivity .. | cbn; lia | apply grows_same; reflexivity].
Qed.

Lemma grows_emit (P : event -> Prop) (e : event) (w : World) :
  P e -> grows P w (emit e w).
Proof. intros H. exists [e]. split; [reflexivity | repeat constructor; exact H]. Qed.

Lemma quiet_emit (P : event -> Prop) (e : event) (w : World) :
  P e -> quiet P w (emit e w).
Proof.
  intros H. quiet_split; [reflexivity .. | cbn; lia | apply grows_emit; exact H].
Qed.

Lemma quiet_sent (P : event -> Prop) (e : event) (w : World) :
  P e -> quiet P w (sent e w).
Proof.
  intros H. quiet_split; [reflexivity .. | cbn; lia |]. exists [e].
  split; [reflexivity | repeat constructor; exact H].
Qed.

Lemma quiet_time_sleep (P : event -> Prop) (ms : Z) :
  (0 <= ms)%Z -> P (EvSleep ms) -> respects (quiet P) (time_sleep ms).
Proof.
  intros Hms H w. rewrite time_sleep_run.
  destruct (interrupted w);
    (quiet_split;
     [reflexivity .. | cbn; lia
     | exists [EvSleep ms]; split; [reflexivity | repeat constructor; exact H]]).
Qed.

Lemma quiet_say (P : event -> Prop) (s : string) :
  P (EvPrint [Lit s]) -> respects (quiet P) (say s).
Proof. intros H w. apply quiet_emit. exact H. Qed.

Lemma quiet_print (P : event -> Prop) (line : list piece) :
  P (EvPrint line) -> respects (quiet P) (print line).
Proof. intros H w. apply quiet_emit. exact H. Qed.

Lemma quiet_load_test (P : event -> Prop) (start_time duration : Z) :
  respects (quiet P) (load_test start_time duration).
Proof.
  intros w. unfold load_test. step.
  destruct (_ <? _)%Z; apply quiet_refl.
Qed.

(** ** The load loops keep the object and emit only their own events *)

Lemma quiet_sent_after_draws (P : event -> Prop) (e : event) (k : nat) (w : World) :
  P e -> quiet P w (sent e (bump_rand k w)).
Proof.
  intros H. eapply quiet_trans; [apply quiet_bump_rand | apply quiet_sent, H].
Qed.

Lemma quiet_then_sleep (P : event -> Prop) (ms : Z) (w w' : World) :
  P (EvSleep ms) -> (0 <= ms)%Z -> quiet P w w' ->
  quiet P w (snd (time_sleep ms w')).
Proof.
  intros Hs Hms H. eapply quiet_trans; [exact H|].
  apply quiet_time_sleep; assumption.
Qed.

Lemma quiet_slow_query_body (P : event -> Prop) (i : nat) :
  (forall url, P (EvPost url (Sql slow_sql))) -> P (EvSleep 500) ->
  respects (quiet P) (slow_query_body i).
Proof.
  intros Hpost Hsleep w. rewrite slow_query_body_run.
  apply quiet_then_sleep; [exact Hsleep | lia |]. apply quiet_sent, Hpost.
Qed.

Lemma quiet_high_load_body (P : event -> Prop) :
  (forall url logs,
     (500 <= Z.of_nat (length logs) <= 1000)%Z -> P (EvPost url (Logs logs))) ->
  P (EvSleep 100) ->
  respects (quiet P) high_load_body.
Proof.
  intros Hpost Hsleep w.
  destruct (high_load_body_run w) as (logs & Hlen & Hrun). rewrite Hrun.
  pose proof (randint_range 500 1000 (draw w 0) ltac:(lia)) as B.
  fold (randint_of 500 1000 (draw w 0)) in B.
  apply quiet_then_sleep; [exact Hsleep | lia |].
  apply quiet_sent_after_draws, Hpost. lia.
Qed.

Lemma quiet_normal_load_body (P : event -> Prop) :
  (forall url logs,
     (10 <= Z.of_nat (length logs) <= 50)%Z -> P (EvPost url (Logs logs))) ->
  (forall url q, In q queries -> P (EvPost url (Sql q))) ->
  P (EvSleep 1000) ->
  respects (quiet P) normal_load_body.
Proof.
  intros Hpost Hquery Hsleep w.
  destruct (normal_load_body_run w) as (logs & q & Hlen & _ & Hq & Hrun).
  cbv zeta in Hrun. rewrite Hrun.
  pose proof (randint_range 10 50 (draw w 0) ltac:(lia)) as B.
  fold (randint_of 10 50 (draw w 0)) in B.
  assert (Hposted : quiet P w
            (sent (EvPost (api_url (self w) ++ "/ingest/logs") (Logs logs))
                  (bump_rand (Z.to_nat (randint_of 10 50 (draw w 0)) * 5 + 1) w)))
    by (apply quiet_sent_after_draws, Hpost; lia).
  destruct (Qlt_bool _ _); (apply quiet_then_sleep; [exact Hsleep | lia |]).
  - eapply quiet_trans; [exact Hposted|].
    apply quiet_sent_after_draws, Hquery, Hq.
  - eapply quiet_trans; [exact Hposted | apply quiet_bump_rand].
Qed.

Lemma quiet_generate_normal_load (P : event -> Prop) (fuel : nat) (duration : Z) :
  (forall line, P (EvPrint line)) ->
  (forall url logs,
     (10 <= Z.of_nat (length logs) <= 50)%Z -> P (EvPost url (Logs logs))) ->
  (forall url q, In q queries -> P (EvPost url (Sql q))) ->
  P (EvSleep 1000) ->
  respects (quiet P) (generate_normal_load fuel duration).
Proof.
  intros Hprint Hpost Hquery Hsleep. unfold generate_normal_load.
  apply respects_bind; [apply quiet_trans | |].
  - apply quiet_say, Hprint.
  - intros _. apply respects_bind; [apply quiet_trans | |].
    + intros w. apply quiet_refl.
    + intros start_time.
      apply respects_while; [apply quiet_refl | apply quiet_trans | |].
      * apply quiet_load_test.
      * apply quiet_normal_load_body; assumption.
Qed.

Lemma quiet_generate_high_load (P : event -> Prop) (fuel : nat) (duration : Z) :
  (forall line, P (EvPrint line)) ->
  (forall url logs,
     (500 <= Z.of_nat (length logs) <= 1000)%Z -> P (EvPost url (Logs logs))) ->
  P (EvSleep 100) ->
  respects (quiet P) (generate_high_load fuel duration).
Proof.
  intros Hprint Hpost Hsleep. unfold generate_high_load.
  apply respects_bind; [apply quiet_trans | |].
  - apply quiet_say, Hprint.
  - intros _. apply respects_bind; [apply quiet_trans | |].
    + intros w. apply quiet_refl.
    + intros start_time.
      apply respects_while; [apply quiet_refl | apply quiet_trans | |].
      * apply quiet_load_test.
      * apply quiet_high_load_body; assumption.
Qed.

Lemma quiet_generate_slow_queries (P : event -> Prop) (count : nat) :
  (forall line, P (EvPrint line)) ->
  (forall url, P (EvPost url (Sql slow_sql))) -> P (EvSleep 500) ->
  respects (quiet P) (generate_slow_queries count).
Proof.
  intros Hprint Hpost Hsleep. unfold generate_slow_queries, for_range.
  apply respects_bind; [apply quiet_trans | |].
  - apply quiet_say, Hprint.
  - intros _. apply respects_for_range_from; [apply quiet_refl | apply quiet_trans |].
    intros i. apply quiet_slow_query_body; assumption.
Qed.

(** ** Batch sizes *)

(** C6.  Every batch that a load phase submits has a number of records
    within the bounds of the phase: 10 to 50 in the normal load, 500 to
    1000 in the high load.  Each iteration submits such a batch, and so
    all the events of a whole phase, whatever its duration and however
    long it runs, carry batches within the bounds. *)
Theorem batch_sizes_within_bounds (fuel : nat) (duration : Z) (w : World) :
  (exists logs,
     (10 <= Z.of_nat (length logs) <= 50)%Z /\
     In (EvPost (api_url (self w) ++ "/ingest/logs") (Logs logs))
        (out (snd (normal_load_body w)))) /\
  (exists logs,
     (500 <= Z.of_nat (length logs) <= 1000)%Z /\
     In (EvPost (api_url (self w) ++ "/ingest/bulk") (Logs logs))
        (out (snd (high_load_body w)))) /\
  grows (batch_within 10 50) w (snd (generate_normal_load fuel duration w)) /\
  grows (batch_within 500 1000) w (snd (generate_high_load fuel duration w)).
Proof.
  split; [|split; [|split]].
  - destruct (normal_load_body_run w) as (logs & q & Hlen & _ & _ & Hrun).
    cbv zeta in Hrun.
    pose proof (randint_range 10 50 (draw w 0) ltac:(lia)) as B.
    fold (randint_of 10 50 (draw w 0)) in B.
    exists logs. split; [lia|]. rewrite Hrun.
    destruct (Qlt_bool _ _); rewrite time_sleep_run;
      match goal with |- context [interrupted ?x] => destruct (interrupted x) end;
      cbn; rewrite !in_app_iff; cbn; tauto.
  - destruct (high_load_body_run w) as (logs & Hlen & Hrun).
    pose proof (randint_range 500 1000 (draw w 0) ltac:(lia)) as B.
    fold (randint_of 500 1000 (draw w 0)) in B.
    exists logs. split; [lia|]. rewrite Hrun, time_sleep_run.
    match goal with |- context [interrupted ?x] => destruct (interrupted x) end;
      cbn; rewrite !in_app_iff; cbn; tauto.
  - apply quiet_generate_normal_load; cbn; auto.
  - apply quiet_generate_high_load; cbn; auto.
Qed.

(** ** Uptime formatting *)

Lemma Qfloor_div_Z (q : Q) (d : Z) :
  (0 < d)%Z -> Qfloor (q / inject_Z d) = (Qfloor q / d)%Z.
Proof.
  intros Hd. destruct q as [a b]. destruct d as [|p|p]; try lia.
  unfold Qdiv, Qinv, Qmult, inject_Z, Qfloor. simpl.
  rewrite Z.mul_1_r. rewrite Pos2Z.inj_mul. rewrite Z.div_div by lia. reflexivity.
Qed.

Lemma Qfloor_sub_Z (q : Q) (k : Z) : Qfloor (q - inject_Z k) = (Qfloor q - k)%Z.
Proof.
  destruct q as [a b]. unfold Qminus, Qplus, Qopp, inject_Z, Qfloor. simpl.
  rewrite Z.mul_1_r, Pos.mul_1_r.
  replace (a + - k * Z.pos b)%Z with (a + (- k) * Z.pos b)%Z by lia.
  rewrite Z.div_add by lia. lia.
Qed.

Lemma int_of_whole (n : Z) : int_of (Float (inject_Z n)) = n.
Proof.
  unfold int_of. destruct (Qle_bool 0 (inject_Z n)).
  - apply Qfloor_Z.
  - apply Qceiling_Z.
Qed.

(** A float is formatted as the whole number of seconds below it. *)
Lemma format_uptime_float (q : Q) :
  format_uptime (Float q) = format_uptime (Int (Qfloor q)).
Proof.
  unfold format_uptime, floordiv, modulo.
  rewrite !int_of_whole. cbn [int_of].
  rewrite !Qfloor_div_Z by lia.
  rewrite <- !inject_Z_mult, !Qfloor_sub_Z.
  rewrite !Z.mod_eq by lia. reflexivity.
Qed.

Lemma uptime_split (s : Z) :
  (0 <= s)%Z ->
  let d := (s / 86400)%Z in
  let h := ((s mod 86400) / 3600)%Z in
  let m := ((s mod 3600) / 60)%Z in
  (0 <= d /\ 0 <= h < 24 /\ 0 <= m < 60 /\
   0 <= s - (86400 * d + 3600 * h + 60 * m) < 60)%Z.
Proof.
  intros Hs d h m. subst d h m.
  Z.to_euclidean_division_equations. lia.
Qed.



(** ** The normal load: level weights and the query branch *)


(** ** Failed submissions *)

Lemma blind_ret {A} (a : A) : blind_to_replies (ret a).
Proof. intros f w. reflexivity. Qed.

Lemma blind_raise {A} (e : exn) : blind_to_replies (@raise A e).
Proof. intros f w. reflexivity. Qed.

Lemma blind_bind {A B} (m : M A) (k : A -> M B) :
  blind_to_replies m -> (forall a, blind_to_replies (k a)) ->
  blind_to_replies (bind m k).
Proof.
  intros Hm Hk f w. unfold bind. rewrite Hm.
  destruct (m w) as [[a|e|] w1]; cbn [fst snd]; try reflexivity. apply Hk.
Qed.

Lemma blind_while (cond : M bool) (body : M unit) :
  blind_to_replies cond -> blind_to_replies body ->
  forall fuel, blind_to_replies (while fuel cond body).
Proof.
  intros Hc Hb. induction fuel as [|fuel IH]; cbn [while].
  - intros f w. reflexivity.
  - apply blind_bind; [exact Hc|]. intros [|].
    + apply blind_bind; [exact Hb | intros _; exact IH].
    + apply blind_ret.
Qed.

Lemma blind_for_range_from (body : nat -> M unit) :
  (forall i, blind_to_replies (body i)) ->
  forall n i, blind_to_replies (for_range_from i n body).
Proof.
  intros Hb. induction n as [|n IH]; intros i; cbn [for_range_from].
  - apply blind_ret.
  - apply blind_bind; [apply Hb | intros _; apply IH].
Qed.

Lemma blind_collect {A} (item : M A) :
  blind_to_replies item ->
  forall n acc, blind_to_replies (collect n item acc).
Proof.
  intros Hi. induction n as [|n IH]; intros acc; cbn [collect].
  - apply blind_ret.
  - apply blind_bind; [exact Hi | intros x; apply IH].
Qed.

Lemma blind_say (s : string) : blind_to_replies (say s).
Proof. intros f w. reflexivity. Qed.

Lemma blind_time_time : blind_to_replies time_time.
Proof. intros f w. reflexivity. Qed.

Lemma blind_get_running : blind_to_replies get_running.
Proof. intros f w. reflexivity. Qed.

Lemma blind_time_sleep (ms : Z) : blind_to_replies (time_sleep ms).
Proof.
  intros f w. rewrite !time_sleep_run.
  change (interrupted (with_replies f w)) with (interrupted w).
  destruct (interrupted w); reflexivity.
Qed.

Lemma blind_random_random : blind_to_replies random_random.
Proof. intros f w. reflexivity. Qed.

Lemma blind_random_randint (a b : Z) : blind_to_replies (random_randint a b).
Proof. intros f w. reflexivity. Qed.

Lemma blind_random_choice {A} (seq : list A) : blind_to_replies (random_choice seq).
Proof.
  intros f w. unfold random_choice, bind, next_raw. cbn [env rand_raw n_rand with_replies].
  destruct (nth_error seq _); reflexivity.
Qed.

Lemma blind_quiet_post (path : string) (body : payload) :
  blind_to_replies
    (try_except ExceptAll
       (url <- get_api_url ;; requests_post (url ++ path) body ;; ret tt)
       (fun _ => ret tt)).
Proof. intros f w. rewrite !quiet_post_run. reflexivity. Qed.

Lemma blind_execute_query : blind_to_replies execute_query.
Proof.
  apply blind_bind; [apply blind_random_choice | intros sql; apply blind_quiet_post].
Qed.

Lemma blind_random_choices {A} (population : list A) (weights : list Z) :
  blind_to_replies (random_choices population weights).
Proof.
  unfold random_choices.
  destruct (negb _); [apply blind_raise|].
  destruct (_ <=? _)%Z; [apply blind_raise|].
  apply blind_bind; [apply blind_random_random|].
  intros u. destruct (nth_error _ _); [apply blind_ret | apply blind_raise].
Qed.

Lemma blind_first {A} (l : list A) : blind_to_replies (first l).
Proof. destruct l; [apply blind_raise | apply blind_ret]. Qed.

Lemma blind_normal_record : blind_to_replies normal_record.
Proof.
  unfold normal_record.
  repeat first
    [ apply blind_ret
    | apply blind_random_choices
    | apply blind_first
    | apply blind_random_choice
    | apply blind_random_randint
    | apply blind_time_time
    | apply blind_bind; [| intros ?] ].
Qed.

Lemma blind_high_record (batch_size : Z) : blind_to_replies (high_record batch_size).
Proof.
  unfold high_record.
  repeat first
    [ apply blind_ret
    | apply blind_random_choice
    | apply blind_time_time
    | apply blind_bind; [| intros ?] ].
Qed.

Lemma blind_load_test (start_time duration : Z) :
  blind_to_replies (load_test start_time duration).
Proof.
  apply blind_bind; [apply blind_time_time|]. intros now.
  destruct (_ <? _)%Z; [apply blind_get_running | apply blind_ret].
Qed.

Lemma blind_normal_load_body : blind_to_replies normal_load_body.
Proof.
  unfold normal_load_body.
  apply blind_bind; [apply blind_random_randint | intros batch_size].
  apply blind_bind; [apply blind_collect, blind_normal_record | intros logs].
  apply blind_bind; [apply blind_quiet_post | intros _].
  apply blind_bind; [apply blind_random_random | intros u].
  apply blind_bind; [| intros _; apply blind_time_sleep].
  destruct (Qlt_bool u (3 # 10)); [apply blind_execute_query | apply blind_ret].
Qed.

Lemma blind_high_load_body : blind_to_replies high_load_body.
Proof.
  unfold high_load_body.
  apply blind_bind; [apply blind_random_randint | intros batch_size].
  apply blind_bind; [apply blind_collect, blind_high_record | intros logs].
  apply blind_bind; [apply blind_quiet_post | intros _; apply blind_time_sleep].
Qed.

Lemma blind_slow_query_body (i : nat) : blind_to_replies (slow_query_body i).
Proof.
  apply blind_bind; [apply blind_quiet_post | intros _; apply blind_time_sleep].
Qed.

(** C3.  A write that fails stays inside its submission.  When the
    service answers a POST with a failure the request raises it, and a
    response is returned whatever its status; yet the submission of each
    load phase, wrapped in its bare [except], returns normally in every
    case, and the iteration goes on to its sleep.  A whole phase is blind
    to the replies of the service: with other replies, failures or not, it
    returns the same result, prints and posts and sleeps the same, and
    reads the same clock. *)
Theorem failed_write_not_observed
  (w : World) (fuel count i : nat) (duration : Z) :
  (forall r url body,
     net_reply (env w) (n_net w) = Failure r -> interrupted w = false ->
     fst (requests_post url body w) = Exc (RequestException r)) /\
  (forall status_code answer url body,
     net_reply (env w) (n_net w) = Response status_code answer ->
     interrupted w = false ->
     fst (requests_post url body w) = Val (status_code, answer)) /\
  (forall path body,
     try_except ExceptAll
       (url <- get_api_url ;; requests_post (url ++ path) body ;; ret tt)
       (fun _ => ret tt) w
     = (Val tt, sent (EvPost (api_url (self w) ++ path) body) w)) /\
  (exists logs w',
     In (EvPost (api_url (self w) ++ "/ingest/logs") (Logs logs)) (out w') /\
     normal_load_body w = time_sleep 1000 w') /\
  (exists logs w',
     In (EvPost (api_url (self w) ++ "/ingest/bulk") (Logs logs)) (out w') /\
     high_load_body w = time_sleep 100 w') /\
  (exists w',
     In (EvPost (api_url (self w) ++ "/query/execute") (Sql slow_sql)) (out w') /\
     slow_query_body i w = time_sleep 500 w') /\
  blind_to_replies (generate_normal_load fuel duration) /\
  blind_to_replies (generate_high_load fuel duration) /\
  blind_to_replies (generate_slow_queries count).
Proof.
  split; [|split; [|split; [|split; [|split; [|split; [|split; [|split]]]]]]].
  - intros r url body Hr Hi. unfold requests_post, round_trip.
    rewrite Hi, Hr. reflexivity.
  - intros s a url body Hr Hi. unfold requests_post, round_trip.
    rewrite Hi, Hr. reflexivity.
  - intros path body. apply quiet_post_run.
  - destruct (normal_load_body_run w) as (logs & q & _ & _ & _ & Hrun).
    cbv zeta in Hrun. exists logs. rewrite Hrun.
    destruct (Qlt_bool _ _); eexists; (split; [|reflexivity]);
      cbn; rewrite !in_app_iff; cbn; tauto.
  - destruct (high_load_body_run w) as (logs & _ & Hrun).
    exists logs. rewrite Hrun. eexists; split; [|reflexivity].
    cbn; rewrite !in_app_iff; cbn; tauto.
  - rewrite slow_query_body_run. eexists; split; [|reflexivity].
    cbn; rewrite !in_app_iff; cbn; tauto.
  - unfold generate_normal_load.
    apply blind_bind; [apply blind_say | intros _].
    apply blind_bind; [apply blind_time_time | intros start_time].
    apply blind_while; [apply blind_load_test | apply blind_normal_load_body].
  - unfold generate_high_load.
    apply blind_bind; [apply blind_say | intros _].
    apply blind_bind; [apply blind_time_time | intros start_time].
    apply blind_while; [apply blind_load_test | apply blind_high_load_body].
  - unfold generate_slow_queries, for_range.
    apply blind_bind; [apply blind_say | intros _].
    apply blind_for_range_from, blind_slow_query_body.
Qed.

(** ** Interrupts during a submission *)

Lemma while_step (fuel : nat) (cond : M bool) (body : M unit) (w w1 w2 : World) :
  cond w = (Val true, w1) -> body w1 = (Val tt, w2) ->
  while (S fuel) cond body w = while fuel cond body w2.
Proof.
  intros Hc Hb. cbn [while]. erewrite bind_val by exact Hc.
  cbv beta iota. erewrite bind_val by exact Hb. reflexivity.
Qed.

(** C10.  The handlers around the submissions are bare [except] clauses:
    they catch every exception.  When SIGINT arrives in the main thread
    during the POST of an iteration (and not again in the rest of the
    iteration), the POST raises [KeyboardInterrupt], the handler discards
    it, [execute_query] and the three loop bodies return normally after
    their sleep, and an [except KeyboardInterrupt] clause around them, as
    that of [run_demo], is not entered: the loop goes on with its next
    test. *)
Theorem interrupt_in_submission_discarded
  (w : World) (i fuel : nat) (test : M bool) (handler : exn -> M unit)
  (Hmain : thread w = MainThread)
  (Hnow : sigint (env w) (n_block w) = true)
  (Hlater : forall k, (n_block w < k)%nat -> sigint (env w) k = false) :
  (forall e, caught_by ExceptAll e = true) /\
  (forall url body, fst (requests_post url body w) = Exc KeyboardInterrupt) /\
  fst (execute_query w) = Val tt /\
  (forall body,
     body = normal_load_body \/ body = high_load_body \/ body = slow_query_body i ->
     exists w',
       body w = (Val tt, w') /\
       (exists ms, last (out w') (EvSleep 0) = EvSleep ms) /\
       try_except ExceptKeyboardInterrupt body handler w = (Val tt, w') /\
       (forall w0, test w0 = (Val true, w) ->
          while (S fuel) test body w0 = while fuel test body w')).
Proof.
  assert (Hint : interrupted w = true)
    by (unfold interrupted; rewrite Hmain, Hnow; reflexivity).
  split; [reflexivity|]. split.
  { intros url body. unfold requests_post, round_trip. rewrite Hint. reflexivity. }
  split.
  { destruct (execute_query_run w) as (q & _ & Hq). rewrite Hq. reflexivity. }
  assert (Hfinish : forall body w1 ms,
            body w = time_sleep ms w1 ->
            interrupted w1 = false ->
            exists w',
              body w = (Val tt, w') /\
              (exists ms, last (out w') (EvSleep 0) = EvSleep ms) /\
              try_except ExceptKeyboardInterrupt body handler w = (Val tt, w') /\
              (forall w0, test w0 = (Val true, w) ->
                 while (S fuel) test body w0 = while fuel test body w')).
  { intros body w1 ms Hrun Hcalm.
    rewrite time_sleep_run, Hcalm in Hrun.
    exists (advance ms (asleep ms w1)). split; [exact Hrun|]. split.
    - exists ms. cbn. apply last_last.
    - split.
      + unfold try_except. rewrite Hrun. reflexivity.
      + intros w0 Ht. eapply while_step; eassumption. }
  intros body [-> | [-> | ->]].
  - destruct (normal_load_body_run w) as (logs & q & _ & _ & _ & Hrun).
    cbv zeta in Hrun.
    destruct (Qlt_bool _ _); (eapply Hfinish; [exact Hrun|]);
      unfold interrupted; cbn; rewrite Hlater by lia; apply andb_false_r.
  - destruct (high_load_body_run w) as (logs & _ & Hrun).
    eapply Hfinish; [exact Hrun|].
    unfold interrupted; cbn; rewrite Hlater by lia; apply andb_false_r.
  - eapply Hfinish; [apply slow_query_body_run|].
    unfold interrupted; cbn; rewrite Hlater by lia; apply andb_false_r.
Qed.

Lemma interrupt_in_submission_discarded_witness :
  fst (requests_post "u" (Sql "s") (interrupted_world [0%nat] (fun _ => Failure Timeout)))
    = Exc KeyboardInterrupt /\
  fst (high_load_body (interrupted_world [0%nat] (fun _ => Failure Timeout))) = Val tt.
Proof.
  pose proof (interrupt_in_submission_discarded
                (interrupted_world [0%nat] (fun _ => Failure Timeout))
                0 0 (ret true) (fun _ => ret tt) eq_refl eq_refl
                ltac:(intros [|k] H; [cbn in H; lia | reflexivity]))
    as (_ & Hpost & _ & Hbody).
  split; [apply Hpost|].
  destruct (Hbody high_load_body ltac:(tauto)) as (w' & Hrun & _).
  rewrite Hrun. reflexivity.
Defined.

(** ** The running flag and the load loops *)

(** A loop of the normal or of the high load stops at its next test once
    the flag is false. *)
Lemma load_loop_stops (fuel : nat) (start_time duration : Z) (body : M unit) (w : World) :
  running (self w) = false ->
  while (S fuel) (load_test start_time duration) body w = (Val tt, w).
Proof.
  intros Hoff. cbn [while]. unfold load_test. unfold bind at 1. unfold bind at 1.
  rewrite time_time_run. cbv beta iota.
  destruct (_ <? _)%Z; [rewrite get_running_run, Hoff | rewrite ret_run]; reflexivity.
Qed.

(** The slow-query loop never reads the flag: it runs all its iterations. *)
Lemma slow_loop_run (n i : nat) (w : World) :
  (forall k, sigint (env w) k = false) ->
  exists w',
    for_range_from i n slow_query_body w = (Val tt, w') /\
    out w' = (out w ++ concat (repeat (slow_iteration (api_url (self w))) n))%list /\
    (clock w + 500 * Z.of_nat n <= clock w')%Z /\
    self w' = self w /\ env w' = env w.
Proof.
  revert i w. induction n as [|n IH]; intros i w Hcalm.
  - exists w. cbn. rewrite app_nil_r. repeat split; lia.
  - cbn [for_range_from].
    set (w1 := advance 500 (asleep 500
                 (sent (EvPost (api_url (self w) ++ "/query/execute") (Sql slow_sql)) w))).
    assert (Hbody : slow_query_body i w = (Val tt, w1)).
    { rewrite slow_query_body_run, time_sleep_run. unfold interrupted. cbn.
      rewrite Hcalm, andb_false_r. reflexivity. }
    erewrite bind_val by exact Hbody.
    destruct (IH (S i) w1 Hcalm) as (w' & Hrun & Hout & Hclock & Hself & Henv).
    exists w'. split; [exact Hrun|]. split.
    { rewrite Hout. cbn. rewrite <- !app_assoc. reflexivity. }
    split; [|split; assumption].
    unfold w1 in Hclock.
    cbn [clock advance asleep sent tick_block tick_net emit] in Hclock. lia.
Qed.

(** C1, on the code.  With the flag false, the loops of the normal and of
    the high load stop at their next test and submit nothing.  The
    slow-query phase does not read the flag: it still runs every one of
    its [count] iterations, posting a query and sleeping half a second in
    each. *)
Theorem slow_queries_ignore_running
  (w : World) (count fuel : nat) (duration : Z)
  (Hoff : running (self w) = false)
  (Hcalm : forall k, sigint (env w) k = false) :
  (forall start_time body,
     while (S fuel) (load_test start_time duration) body w = (Val tt, w)) /\
  (exists line, generate_normal_load (S fuel) duration w = (Val tt, emit (EvPrint line) w)) /\
  (exists line, generate_high_load (S fuel) duration w = (Val tt, emit (EvPrint line) w)) /\
  (exists line w',
     generate_slow_queries count w = (Val tt, w') /\
     out w' = (out w ++ EvPrint line ::
               concat (repeat (slow_iteration (api_url (self w))) count))%list /\
     (clock w + 500 * Z.of_nat count <= clock w')%Z /\
     running (self w') = false).
Proof.
  split; [intros; apply load_loop_stops, Hoff|]. split; [|split].
  - eexists. unfold generate_normal_load. step. step.
    apply load_loop_stops, Hoff.
  - eexists. unfold generate_high_load. step. step.
    apply load_loop_stops, Hoff.
  - unfold generate_slow_queries, for_range. eexists.
    destruct (slow_loop_run count 0 (emit (EvPrint [Lit ("Generating " ++
                string_of_Z (Z.of_nat count) ++ " slow queries...")]) w) Hcalm)
      as (w' & Hrun & Hout & Hclock & Hself & _).
    exists w'. split; [step; exact Hrun|]. split.
    { rewrite Hout. cbn. rewrite <- app_assoc. reflexivity. }
    split; [exact Hclock|]. rewrite Hself. exact Hoff.
Qed.

Lemma slow_queries_ignore_running_witness :
  exists line w',
    generate_slow_queries 10 (stopped_world (fun _ => Response 200 None)) = (Val tt, w') /\
    out w' = EvPrint line :: concat (repeat (slow_iteration API_URL) 10) /\
    (5000 <= clock w')%Z /\
    running (self w') = false.
Proof.
  destruct (slow_queries_ignore_running
              (stopped_world (fun _ => Response 200 None)) 10 0 60
              eq_refl (fun _ => eq_refl))
    as (_ & _ & _ & line & w' & Hrun & Hout & Hclock & Hoff).
  exists line, w'. repeat split; assumption.
Defined.

(** ** Termination of the load driver *)

Lemma settled_weaken {A} (ms ms' : Z) (w w0 : World) (run : result A * World) :
  (clock w0 + ms' <= clock w + ms)%Z -> (clock w0 <= clock w)%Z ->
  settled ms w run -> settled ms' w0 run.
Proof.
  intros H H0. destruct run as [[a|e|] w']; cbn; [lia | | tauto].
  intros [-> Hc]. split; [reflexivity | lia].
Qed.

Lemma settles_ret {A} (a : A) : settles 0 (ret a).
Proof. intros w. cbn. lia. Qed.

Lemma settles_say (s : string) : settles 0 (say s).
Proof. intros w. cbn. lia. Qed.

Lemma settles_bind {A B} (m : M A) (k : A -> M B) :
  settles 0 m -> (forall a, settles 0 (k a)) -> settles 0 (bind m k).
Proof.
  intros Hm Hk w. unfold bind. specialize (Hm w).
  destruct (m w) as [[a|e|] w1]; cbn in Hm |- *; try assumption.
  eapply settled_weaken; [| | apply Hk]; lia.
Qed.

Lemma settles_time_sleep (ms : Z) : (0 <= ms)%Z -> settles ms (time_sleep ms).
Proof.
  intros Hms w. rewrite time_sleep_run.
  destruct (interrupted w); cbn; [split; [reflexivity | lia] | lia].
Qed.

(** A loop body that ends with [time.sleep] settles that much later. *)
Lemma settled_after_sleep (ms : Z) (w w1 : World) :
  (0 <= ms)%Z -> (clock w <= clock w1)%Z -> settled ms w (time_sleep ms w1).
Proof.
  intros Hms Hc. eapply settled_weaken; [| | apply settles_time_sleep, Hms]; lia.
Qed.

Lemma settles_slow_query_body (i : nat) : settles 500 (slow_query_body i).
Proof.
  intros w. rewrite slow_query_body_run. apply settled_after_sleep; cbn; lia.
Qed.

Lemma settles_high_load_body : settles 100 high_load_body.
Proof.
  intros w. destruct (high_load_body_run w) as (logs & _ & Hrun). rewrite Hrun.
  apply settled_after_sleep; cbn; lia.
Qed.

Lemma settles_normal_load_body : settles 1000 normal_load_body.
Proof.
  intros w. destruct (normal_load_body_run w) as (logs & q & _ & _ & _ & Hrun).
  cbv zeta in Hrun. rewrite Hrun.
  destruct (Qlt_bool _ _); apply settled_after_sleep; cbn; lia.
Qed.

Lemma settles_for_range_from (body : nat -> M unit) :
  (forall i, settles 0 (body i)) ->
  forall n i, settles 0 (for_range_from i n body).
Proof.
  intros Hb. induction n as [|n IH]; intros i; cbn [for_range_from].
  - apply settles_ret.
  - apply settles_bind; [apply Hb | intros _; apply IH].
Qed.

Lemma settles_0 {A} (ms : Z) (m : M A) : (0 <= ms)%Z -> settles ms m -> settles 0 m.
Proof.
  intros Hms H w. eapply settled_weaken; [| | apply H]; lia.
Qed.

(** A load loop whose body takes at least [step] milliseconds ends within
    its fuel when the time left fits in [fuel - 1] steps. *)
Lemma settles_load_loop (body : M unit) (step : Z) :
  (0 < step)%Z -> settles step body ->
  forall (fuel : nat) (start_time duration : Z) (w : World),
    (1 <= fuel)%nat ->
    (duration * 1000 - (clock w - start_time) <= (Z.of_nat fuel - 1) * step)%Z ->
    settled 0 w (while fuel (load_test start_time duration) body w).
Proof.
  intros Hstep Hbody. induction fuel as [|fuel IH]; intros start_time duration w Hf Ht.
  - lia.
  - cbn [while]. unfold load_test. unfold bind at 1. unfold bind at 1.
    rewrite time_time_run. cbv beta iota.
    destruct (clock w - start_time <? duration * 1000)%Z eqn:Htest.
    + rewrite get_running_run. cbv beta iota.
      destruct (running (self w)); [|cbn; lia].
      specialize (Hbody w). unfold bind.
      destruct (body w) as [[[]|e|] w1]; cbn in Hbody |- *; try assumption.
      apply Z.ltb_lt in Htest.
      eapply settled_weaken; [| | apply (IH start_time duration w1)]; lia.
    + rewrite ret_run. cbn. lia.
Qed.

Lemma settles_generate_normal_load (fuel : nat) (duration : Z) :
  (1 <= fuel)%nat -> (duration <= Z.of_nat fuel - 1)%Z ->
  settles 0 (generate_normal_load fuel duration).
Proof.
  intros Hf Hd w. unfold generate_normal_load. step. step.
  eapply settled_weaken;
    [| | apply (settles_load_loop normal_load_body 1000 ltac:(lia)
                  settles_normal_load_body fuel)]; cbn; lia.
Qed.

Lemma settles_generate_high_load (fuel : nat) (duration : Z) :
  (1 <= fuel)%nat -> (duration * 10 <= Z.of_nat fuel - 1)%Z ->
  settles 0 (generate_high_load fuel duration).
Proof.
  intros Hf Hd w. unfold generate_high_load. step. step.
  eapply settled_weaken;
    [| | apply (settles_load_loop high_load_body 100 ltac:(lia)
                  settles_high_load_body fuel)]; cbn; lia.
Qed.

Lemma settles_generate_slow_queries (count : nat) :
  settles 0 (generate_slow_queries count).
Proof.
  unfold generate_slow_queries, for_range.
  apply settles_bind; [apply settles_say | intros _].
  apply settles_for_range_from. intros i.
  eapply settles_0; [| apply settles_slow_query_body]. lia.
Qed.

(** ** The dashboard keeps the object and emits only its own events *)

Lemma quiet_stateless (P : event -> Prop) {A} (m : M A) :
  stateless m -> respects (quiet P) m.
Proof. intros H w. rewrite H. apply quiet_refl. Qed.

Lemma stateless_dict_get (v : JSON) (key : string) (default : JSON) :
  stateless (dict_get v key default).
Proof. intros w. destruct v; reflexivity. Qed.

Lemma stateless_response_json (response : Z * option JSON) :
  stateless (response_json response).
Proof. intros w. unfold response_json. destruct (snd response); reflexivity. Qed.

Lemma stateless_color_get (table : list (string * string)) (key : JSON) :
  stateless (color_get table key).
Proof. intros w. destruct key; reflexivity. Qed.

Lemma stateless_str_upper (v : JSON) : stateless (str_upper v).
Proof. intros w. destruct v; reflexivity. Qed.

Lemma stateless_as_number (v : JSON) : stateless (as_number v).
Proof. intros w. destruct v; reflexivity. Qed.

Lemma stateless_subscript (v : JSON) (key : string) : stateless (subscript v key).
Proof.
  intros w. destruct v; try reflexivity. cbn. destruct (assoc key members); reflexivity.
Qed.

Lemma stateless_iterate (v : JSON) : stateless (iterate v).
Proof. intros w. destruct v; reflexivity. Qed.

Lemma stateless_format_fixed1 (v : JSON) : stateless (format_fixed1 v).
Proof.
  intros w. destruct v; try reflexivity. cbn. destruct (_ <? _)%Z; reflexivity.
Qed.

Lemma stateless_format_grouped (v : JSON) : stateless (format_grouped v).
Proof. intros w. destruct v; reflexivity. Qed.

Lemma stateless_first_five (v : JSON) : stateless (first_five v).
Proof. intros w. destruct v; reflexivity. Qed.

Lemma stateless_bind {A B} (m : M A) (k : A -> M B) :
  stateless m -> (forall a, stateless (k a)) -> stateless (bind m k).
Proof.
  intros Hm Hk w. unfold bind. specialize (Hm w).
  destruct (m w) as [[a|e|] w1]; cbn in Hm |- *; subst; try reflexivity. apply Hk.
Qed.

Lemma stateless_metric_entries (metrics : list JSON) (acc : list (JSON * JSON)) :
  stateless (metric_entries metrics acc).
Proof.
  revert acc. induction metrics as [|m rest IH]; intros acc; cbn [metric_entries].
  - intros w. reflexivity.
  - apply stateless_bind; [apply stateless_subscript | intros name].
    apply stateless_bind; [apply stateless_subscript | intros value].
    destruct (hashable name); [apply IH | intros w; reflexivity].
Qed.

Create HintDb stateless.
#[local] Hint Resolve stateless_dict_get stateless_response_json stateless_color_get
  stateless_str_upper stateless_as_number stateless_subscript stateless_iterate
  stateless_format_fixed1 stateless_format_grouped stateless_first_five
  stateless_metric_entries : stateless.

Lemma quiet_round_trip (P : event -> Prop) (request : event) :
  P request -> respects (quiet P) (round_trip request).
Proof.
  intros H w. unfold round_trip.
  destruct (interrupted w); [apply quiet_sent, H|].
  destruct (net_reply _ _); apply quiet_sent, H.
Qed.

(** Straight-line code made of prints and stateless steps. *)
Ltac quiet_steps :=
  repeat first
    [ apply respects_ret, quiet_refl
    | apply quiet_say; solve [auto]
    | apply quiet_print; solve [auto]
    | apply quiet_stateless; solve [auto with stateless]
    | apply respects_bind; [apply quiet_trans | | intros ?] ].

Section Dashboard.
Variable P : event -> Prop.
Hypothesis P_print : forall line, P (EvPrint line).
Hypothesis P_get : forall url timeout, P (EvGet url timeout).
Hypothesis P_sleep : forall ms, P (EvSleep ms).

Lemma quiet_fetch (path : string) (k : JSON -> M JSON) :
  (forall parsed, stateless (k parsed)) ->
  respects (quiet P)
    (url <- get_api_url ;;
     response <- requests_get (url ++ path) None ;;
     parsed <- response_json response ;;
     k parsed).
Proof.
  intros Hk.
  apply respects_bind; [apply quiet_trans | intros w; apply quiet_refl | intros url].
  apply respects_bind; [apply quiet_trans | apply quiet_round_trip, P_get | intros response].
  apply respects_bind; [apply quiet_trans | | intros parsed].
  - apply quiet_stateless, stateless_response_json.
  - apply quiet_stateless, Hk.
Qed.

Lemma quiet_check_health : respects (quiet P) check_health.
Proof.
  unfold check_health.
  apply respects_bind; [apply quiet_trans | intros w; apply quiet_refl | intros url].
  apply respects_bind; [apply quiet_trans | apply quiet_round_trip, P_get | intros response].
  apply quiet_stateless, stateless_response_json.
Qed.

Lemma quiet_get_metrics : respects (quiet P) get_metrics.
Proof. apply quiet_fetch. intros parsed. apply stateless_dict_get. Qed.

Lemma quiet_get_alerts : respects (quiet P) get_alerts.
Proof. apply quiet_fetch. intros parsed. apply stateless_dict_get. Qed.

Lemma quiet_display_header : respects (quiet P) display_header.
Proof. unfold display_header, newline. quiet_steps. Qed.

Lemma quiet_display_health (health : JSON) : respects (quiet P) (display_health health).
Proof. unfold display_health, newline. quiet_steps. Qed.

Lemma quiet_display_metrics (metrics : JSON) : respects (quiet P) (display_metrics metrics).
Proof. unfold display_metrics, newline. quiet_steps. Qed.

Lemma quiet_render_alert (alert : JSON) : respects (quiet P) (render_alert alert).
Proof. unfold render_alert. quiet_steps. Qed.

Lemma quiet_display_alerts (alerts : JSON) : respects (quiet P) (display_alerts alerts).
Proof.
  unfold display_alerts, newline.
  apply respects_bind; [apply quiet_trans | apply quiet_say, P_print | intros _].
  apply respects_bind; [apply quiet_trans | apply quiet_say, P_print | intros _].
  apply respects_bind; [apply quiet_trans | | intros _; quiet_steps].
  destruct (truthy alerts); [|apply quiet_say, P_print].
  apply respects_bind; [apply quiet_trans | | intros shown].
  - apply quiet_stateless, stateless_first_five.
  - apply respects_for_each; [apply quiet_refl | apply quiet_trans |].
    apply quiet_render_alert.
Qed.

Lemma quiet_dashboard_snapshot : respects (quiet P) dashboard_snapshot.
Proof.
  unfold dashboard_snapshot.
  apply respects_bind; [apply quiet_trans | apply quiet_say, P_print | intros _].
  apply respects_bind; [apply quiet_trans | apply quiet_check_health | intros health].
  apply respects_bind; [apply quiet_trans | apply quiet_get_metrics | intros metrics].
  apply respects_bind; [apply quiet_trans | apply quiet_get_alerts | intros alerts].
  apply respects_bind; [apply quiet_trans | apply quiet_display_header | intros _].
  apply respects_bind; [apply quiet_trans | apply quiet_display_health | intros _].
  apply respects_bind; [apply quiet_trans | apply quiet_display_metrics | intros _].
  apply quiet_display_alerts.
Qed.

Lemma quiet_dashboard_tick : respects (quiet P) dashboard_tick.
Proof.
  unfold dashboard_tick.
  apply respects_bind; [apply quiet_trans | | intros _].
  - apply respects_try_except; [apply quiet_trans | apply quiet_dashboard_snapshot |].
    intros e. apply quiet_print, P_print.
  - apply quiet_time_sleep; [lia | apply P_sleep].
Qed.

Lemma quiet_display_metrics_dashboard (fuel : nat) :
  respects (quiet P) (display_metrics_dashboard fuel).
Proof.
  apply respects_while; [apply quiet_refl | apply quiet_trans | |].
  - intros w. apply quiet_refl.
  - apply quiet_dashboard_tick.
Qed.
End Dashboard.

(** ** The life cycle of the running flag *)

Lemma quiet_grows (P : event -> Prop) {A} (m : M A) :
  respects (quiet P) m -> respects (grows P) m.
Proof. intros H w. apply H. Qed.

Lemma no_flag_write_writes (evs : list event) :
  Forall no_flag_write evs -> flag_writes evs = [].
Proof.
  induction 1 as [|e evs He _ IH]; [reflexivity|].
  unfold flag_writes in *. cbn. rewrite IH. destruct e; cbn in *; tauto.
Qed.

Lemma quiet_run_phases (P : event -> Prop) (fuel : nat) :
  (forall e, no_flag_write e -> P e) -> respects (quiet P) (run_phases fuel).
Proof.
  intros HP. unfold run_phases.
  repeat first
    [ apply quiet_say; apply HP; exact I
    | apply quiet_generate_normal_load; intros; apply HP; exact I
    | apply quiet_generate_high_load; intros; apply HP; exact I
    | apply quiet_generate_slow_queries; intros; apply HP; exact I
    | apply respects_bind; [apply quiet_trans | | intros ?] ].
Qed.

Lemma settles_run_phases (fuel : nat) :
  (301 <= fuel)%nat -> settles 0 (run_phases fuel).
Proof.
  intros Hf. unfold run_phases.
  repeat first
    [ apply settles_say
    | apply settles_generate_normal_load; lia
    | apply settles_generate_high_load; lia
    | apply settles_generate_slow_queries
    | apply settles_bind; [| intros ?] ].
Qed.

(** With enough fuel [run_demo] returns, and its one write to the flag is
    its last action. *)
Lemma run_demo_run (fuel : nat) (w : World) :
  (301 <= fuel)%nat ->
  exists evs w',
    run_demo fuel w = (Val tt, w') /\
    out w' = (out w ++ evs ++ [EvSetRunning false])%list /\
    Forall no_flag_write evs /\
    self w' = mkDemo (api_url (self w)) false.
Proof.
  intros Hf. unfold run_demo, newline. step. step.
  erewrite bind_val by reflexivity.
  set (w3 := emit _ (emit _ (emit _ w))).
  assert (Hinner : exists w5,
            try_except ExceptKeyboardInterrupt (run_phases fuel)
              (fun _ => say (NL ++ "Demo stopped by user.")) w3 = (Val tt, w5) /\
            quiet no_flag_write w3 w5).
  { unfold try_except.
    pose proof (settles_run_phases fuel Hf w3) as Hs.
    pose proof (quiet_run_phases no_flag_write fuel (fun e H => H) w3) as Hq.
    destruct (run_phases fuel w3) as [[[]|e|] w4]; cbn in Hs, Hq; [| |contradiction].
    - exists w4. split; [reflexivity | exact Hq].
    - destruct Hs as [-> _]. cbn [caught_by]. eexists. split; [reflexivity|].
      eapply quiet_trans; [exact Hq | apply quiet_emit; exact I]. }
  destruct Hinner as (w5 & Hrun & Hself & _ & _ & _ & evs & Hout & Hevs).
  unfold try_finally. rewrite Hrun. cbn.
  exists (EvPrint [Lit "Starting Click-Lite Monitoring Demo..."] :: EvPrint [] ::
          EvThreadStart "display_metrics_dashboard" :: evs).
  eexists. split; [reflexivity|]. split; [|split].
  - cbn. rewrite Hout. unfold w3. cbn. rewrite <- !app_assoc. reflexivity.
  - repeat constructor. exact Hevs.
  - cbn. rewrite Hself. reflexivity.
Qed.

(** ** The start-up precheck *)

Lemma main_run (fuel : nat) (w : World) :
  main fuel w =
    if interrupted w then (Exc KeyboardInterrupt, sent liveness_request w)
    else
      match net_reply (env w) (n_net w) with
      | Failure _ =>
          (Val tt, emit_all connection_diagnostic (sent liveness_request w))
      | Response status_code _ =>
          if (status_code =? 200)%Z
          then run_demo fuel (with_self MonitoringDemo_init (sent liveness_request w))
          else (Val tt, emit_all status_diagnostic (sent liveness_request w))
      end.
Proof.
  unfold main, try_except, requests_get, round_trip, bind.
  fold liveness_request.
  destruct (interrupted w); [reflexivity|].
  destruct (net_reply (env w) (n_net w)) as [status_code body | r]; [|reflexivity].
  cbn [fst]. destruct (status_code =? 200)%Z; reflexivity.
Qed.

Lemma grows_run_demo (fuel : nat) : respects (grows never_sets_true) (run_demo fuel).
Proof.
  unfold run_demo, newline.
  apply respects_bind; [apply grows_trans | intros w; apply grows_emit; exact I | intros _].
  apply respects_bind; [apply grows_trans | intros w; apply grows_emit; exact I | intros _].
  apply respects_bind; [apply grows_trans | intros w; apply grows_emit; exact I | intros _].
  apply respects_try_finally; [apply grows_trans | |].
  - apply respects_try_except; [apply grows_trans | |].
    + apply quiet_grows, quiet_run_phases. intros [] H; cbn in *; tauto.
    + intros e w. apply grows_emit. exact I.
  - intros w. exists [EvSetRunning false]. split; [reflexivity|].
    repeat constructor.
Qed.

Lemma grows_main (fuel : nat) : respects (grows never_sets_true) (main fuel).
Proof.
  intros w. rewrite main_run.
  assert (Hsent : grows never_sets_true w (sent liveness_request w))
    by (exists [liveness_request]; split; [reflexivity | repeat constructor]).
  destruct (interrupted w); [exact Hsent|].
  destruct (net_reply (env w) (n_net w)) as [status_code body | r].
  - destruct (status_code =? 200)%Z.
    + eapply grows_trans; [exact Hsent|].
      apply grows_trans with (b := with_self MonitoringDemo_init (sent liveness_request w));
        [apply grows_same; reflexivity | apply grows_run_demo].
    + eapply grows_trans; [exact Hsent|].
      exists status_diagnostic. split; [cbn; rewrite <- !app_assoc; reflexivity|].
      repeat constructor.
  - eapply grows_trans; [exact Hsent|].
    exists connection_diagnostic. split; [cbn; rewrite <- !app_assoc; reflexivity|].
    repeat constructor.
Qed.

(** C5, as the code has it.  [main] first issues the liveness GET.  It
    prints a diagnostic and returns, with no further request and no phase,
    exactly when the request fails with a [RequestException] or is
    answered with a status code other than 200; when the answer is 200 it
    creates the demo and runs it.  (An interrupt during the request leaves
    [main] with [KeyboardInterrupt].) *)
Theorem precheck_gates_demo (fuel : nat) (w : World) :
  let w1 := sent liveness_request w in
  (exists evs, out (snd (main fuel w)) = (out w ++ liveness_request :: evs)%list) /\
  (forall r,
     interrupted w = false -> net_reply (env w) (n_net w) = Failure r ->
     main fuel w = (Val tt, emit_all connection_diagnostic w1) /\
     n_net (emit_all connection_diagnostic w1) = S (n_net w)) /\
  (forall status_code body,
     interrupted w = false ->
     net_reply (env w) (n_net w) = Response status_code body ->
     status_code <> 200%Z ->
     main fuel w = (Val tt, emit_all status_diagnostic w1) /\
     n_net (emit_all status_diagnostic w1) = S (n_net w)) /\
  (forall body,
     interrupted w = false ->
     net_reply (env w) (n_net w) = Response 200 body ->
     main fuel w = run_demo fuel (with_self MonitoringDemo_init w1)) /\
  (interrupted w = true -> main fuel w = (Exc KeyboardInterrupt, w1)).
Proof.
  intros w1. split; [|split; [|split; [|split]]].
  - rewrite main_run. fold w1.
    destruct (interrupted w); [exists []; reflexivity|].
    destruct (net_reply (env w) (n_net w)) as [status_code body | r].
    + destruct (status_code =? 200)%Z.
      * destruct (grows_run_demo fuel (with_self MonitoringDemo_init w1))
          as (evs & Hout & _).
        exists evs. rewrite Hout. cbn. rewrite <- app_assoc. reflexivity.
      * eexists. cbn. rewrite <- !app_assoc. reflexivity.
    + eexists. cbn. rewrite <- !app_assoc. reflexivity.
  - intros r Hi Hr. rewrite main_run, Hi, Hr. split; reflexivity.
  - intros s body Hi Hr Hs. rewrite main_run, Hi, Hr.
    apply Z.eqb_neq in Hs. rewrite Hs. split; reflexivity.
  - intros body Hi Hr. rewrite main_run, Hi, Hr. reflexivity.
  - intros Hi. rewrite main_run, Hi. reflexivity.
Qed.

(** The service answers the liveness request with 204, a success status:
    the specification's wording lets the demo run, the code refuses it. *)
Lemma precheck_204_counterexample :
  ~ precheck_as_stated 301 (answering_world (Response 204 None)).
Proof.
  unfold precheck_as_stated. cbn [answering_world env net_reply n_net http_success].
  cbv beta iota zeta. change (negb _) with false. cbv iota.
  rewrite main_run. cbn [interrupted answering_world thread env sigint is_main andb
                          net_reply n_net n_block].
  change (204 =? 200)%Z with false. cbv iota.
  intros H.
  destruct (run_demo_run 301
              (with_self MonitoringDemo_init
                 (sent liveness_request (answering_world (Response 204 None))))
              ltac:(lia)) as (evs & w' & Hrun & Hout & _).
  rewrite Hrun in H. injection H as <-.
  apply (f_equal (fun l => last l (EvSleep 0))) in Hout.
  rewrite app_assoc, last_last in Hout. discriminate Hout.
Qed.

Lemma quiet_execute_query (P : event -> Prop) :
  (forall url q, P (EvPost url (Sql q))) -> respects (quiet P) execute_query.
Proof.
  intros HP w. destruct (execute_query_run w) as (q & _ & Hq). rewrite Hq.
  apply quiet_sent_after_draws, HP.
Qed.

(** C8.  The flag is true in a new [MonitoringDemo].  With fuel for its
    loops, [run_demo] always returns, whether its phases complete or an
    interrupt stops them, and in both cases its trace ends with its one
    write to the flag, which sets it to false.  The load phases, the query
    submission, the dashboard and the three fetches never write the flag
    and leave the object as it is; no run of [run_demo] or of [main] ever
    writes true to it. *)
Theorem running_flag_lifecycle
  (w : World) (fuel n : nat) (duration : Z) (Hfuel : (301 <= fuel)%nat) :
  running MonitoringDemo_init = true /\
  running (self (snd (new_demo w))) = true /\
  (exists evs w',
     run_demo fuel w = (Val tt, w') /\
     out w' = (out w ++ evs ++ [EvSetRunning false])%list /\
     flag_writes evs = [] /\
     running (self w') = false) /\
  (forall m : M unit,
     In m [ generate_normal_load n duration; generate_high_load n duration;
            generate_slow_queries n; execute_query; display_metrics_dashboard n ] ->
     respects (quiet no_flag_write) m) /\
  (forall fetch : M JSON,
     In fetch [check_health; get_metrics; get_alerts] ->
     respects (quiet no_flag_write) fetch) /\
  respects (grows never_sets_true) (run_demo n) /\
  respects (grows never_sets_true) (main n).
Proof.
  split; [reflexivity|]. split; [reflexivity|]. split; [|split; [|split; [|split]]].
  - destruct (run_demo_run fuel w Hfuel) as (evs & w' & Hrun & Hout & Hevs & Hself).
    exists evs, w'. split; [exact Hrun|]. split; [exact Hout|].
    split; [apply no_flag_write_writes, Hevs | rewrite Hself; reflexivity].
  - intros m [<- | [<- | [<- | [<- | [<- | []]]]]].
    + apply quiet_generate_normal_load; intros; exact I.
    + apply quiet_generate_high_load; intros; exact I.
    + apply quiet_generate_slow_queries; intros; exact I.
    + apply quiet_execute_query; intros; exact I.
    + apply quiet_display_metrics_dashboard; intros; exact I.
  - intros fetch [<- | [<- | [<- | []]]].
    + apply quiet_check_health; intros; exact I.
    + apply quiet_get_metrics; intros; exact I.
    + apply quiet_get_alerts; intros; exact I.
  - apply grows_run_demo.
  - apply grows_main.
Qed.

Lemma running_flag_lifecycle_witness :
  exists evs w',
    run_demo 301 (answering_world (Failure ConnectionError)) = (Val tt, w') /\
    out w' = (evs ++ [EvSetRunning false])%list /\
    flag_writes evs = [] /\
    running (self w') = false.
Proof.
  destruct (running_flag_lifecycle (answering_world (Failure ConnectionError))
              301 0 0 ltac:(lia)) as (_ & _ & H & _).
  exact H.
Defined.

(** ** The fetches of the dashboard *)

Lemma worker_not_interrupted (w : World) : thread w = Worker -> interrupted w = false.
Proof. intros H. unfold interrupted. rewrite H. reflexivity. Qed.

Lemma check_health_run (w : World) :
  interrupted w = false ->
  check_health w =
    (fetch_result None (net_reply (env w) (n_net w)),
     sent (EvGet (api_url (self w) ++ "/monitoring/health") None) w).
Proof.
  intros Hi. unfold check_health, bind, requests_get, round_trip, get_api_url.
  rewrite Hi. destruct (net_reply (env w) (n_net w)) as [s [v|] | r]; reflexivity.
Qed.

Lemma get_metrics_run (w : World) :
  interrupted w = false ->
  get_metrics w =
    (fetch_result (Some "metrics") (net_reply (env w) (n_net w)),
     sent (EvGet (api_url (self w) ++ "/monitoring/metrics") None) w).
Proof.
  intros Hi. unfold get_metrics, bind, requests_get, round_trip, get_api_url.
  rewrite Hi. destruct (net_reply (env w) (n_net w)) as [s [[]|] | r]; reflexivity.
Qed.

Lemma get_alerts_run (w : World) :
  interrupted w = false ->
  get_alerts w =
    (fetch_result (Some "alerts") (net_reply (env w) (n_net w)),
     sent (EvGet (api_url (self w) ++ "/monitoring/alerts/active") None) w).
Proof.
  intros Hi. unfold get_alerts, bind, requests_get, round_trip, get_api_url.
  rewrite Hi. destruct (net_reply (env w) (n_net w)) as [s [[]|] | r]; reflexivity.
Qed.

Lemma fetch_exn_caught (field : option string) (answer : reply) (e : exn) :
  fetch_exn field answer = Some e -> caught_by ExceptException e = true.
Proof.
  unfold fetch_exn, fetch_result.
  destruct answer as [s [v|] | r]; [destruct field; [destruct v|] | |];
    intros H; try discriminate; injection H as <-; reflexivity.
Qed.

Lemma fetch_exn_result (field : option string) (answer : reply) :
  match fetch_exn field answer with
  | Some e => fetch_result field answer = Exc e
  | None => exists v, fetch_result field answer = Val v
  end.
Proof.
  unfold fetch_exn, fetch_result.
  destruct answer as [s [v|] | r]; [destruct field; [destruct v|] | |];
    try reflexivity; eexists; reflexivity.
Qed.

Lemma emit_all_app (a b : list event) (w : World) :
  emit_all (a ++ b) w = emit_all b (emit_all a w).
Proof. revert w. induction a as [|e a IH]; intros w; [reflexivity | apply IH]. Qed.

(** ** A failed fetch in a dashboard tick *)

(** C4.  In the dashboard thread, when one of the three fetches of a tick
    raises (the request fails, the body is not JSON, or the parsed body
    has no [.get]), the exception leaves the fetch function, the
    remaining fetches and the snapshot are skipped, the handler of the
    loop body catches it and prints one line with the error after the
    screen has been cleared, the tick sleeps its two seconds and returns
    normally, the object is unchanged, and the loop goes on with its next
    test. *)
Theorem fetch_failure_shown_not_fatal
  (w : World) (fuel k : nat) (e : exn)
  (Hworker : thread w = Worker)
  (Hfail : first_fetch_error w = Some (k, e)) :
  let url := api_url (self w) in
  let before := send_all (firstn (k - 1) (fetch_requests url)) (emit clear_screen w) in
  let after := send_all (firstn k (fetch_requests url)) (emit clear_screen w) in
  let shown := advance 2000 (asleep 2000 (emit (error_line e) after)) in
  (exists fetch, nth_error fetches (k - 1) = Some fetch /\ fetch before = (Exc e, after)) /\
  caught_by ExceptException e = true /\
  dashboard_snapshot w = (Exc e, after) /\
  dashboard_tick w = (Val tt, shown) /\
  self shown = self w /\
  (running (self w) = true ->
   display_metrics_dashboard (S fuel) w = display_metrics_dashboard fuel shown).
Proof.
  intros url before after shown.
  set (w0 := emit clear_screen w).
  set (w1 := sent (EvGet (url ++ "/monitoring/health") None) w0).
  set (w2 := sent (EvGet (url ++ "/monitoring/metrics") None) w1).
  assert (H0 : check_health w0 = (fetch_result None (net_reply (env w) (0 + n_net w)), w1))
    by (apply check_health_run, worker_not_interrupted, Hworker).
  assert (H1 : get_metrics w1 =
               (fetch_result (Some "metrics") (net_reply (env w) (1 + n_net w)), w2))
    by (apply get_metrics_run, worker_not_interrupted, Hworker).
  assert (H2 : get_alerts w2 =
               (fetch_result (Some "alerts") (net_reply (env w) (2 + n_net w)),
                sent (EvGet (url ++ "/monitoring/alerts/active") None) w2))
    by (apply get_alerts_run, worker_not_interrupted, Hworker).
  unfold first_fetch_error in Hfail. cbv zeta in Hfail.
  pose proof (fetch_exn_result None (net_reply (env w) (0 + n_net w))) as R0.
  pose proof (fetch_exn_result (Some "metrics") (net_reply (env w) (1 + n_net w))) as R1.
  pose proof (fetch_exn_result (Some "alerts") (net_reply (env w) (2 + n_net w))) as R2.
  pose proof (fetch_exn_caught None (net_reply (env w) (0 + n_net w))) as C0.
  pose proof (fetch_exn_caught (Some "metrics") (net_reply (env w) (1 + n_net w))) as C1.
  pose proof (fetch_exn_caught (Some "alerts") (net_reply (env w) (2 + n_net w))) as C2.
  assert (Hsnap : exists fetch,
            nth_error fetches (k - 1) = Some fetch /\ fetch before = (Exc e, after) /\
            caught_by ExceptException e = true /\
            dashboard_snapshot w = (Exc e, after)).
  { unfold dashboard_snapshot.
    erewrite bind_val by (apply say_run). fold clear_screen. fold w0.
    destruct (fetch_exn None _) as [e0|].
    - injection Hfail as <- <-. rewrite R0 in H0.
      exists check_health. split; [reflexivity|]. split; [exact H0|].
      split; [apply C0; reflexivity|]. erewrite bind_exc by exact H0. reflexivity.
    - destruct R0 as (health & R0). rewrite R0 in H0.
      erewrite bind_val by exact H0.
      destruct (fetch_exn (Some "metrics") _) as [e1|].
      + injection Hfail as <- <-. rewrite R1 in H1.
        exists get_metrics. split; [reflexivity|]. split; [exact H1|].
        split; [apply C1; reflexivity|]. erewrite bind_exc by exact H1. reflexivity.
      + destruct R1 as (metrics & R1). rewrite R1 in H1.
        erewrite bind_val by exact H1.
        destruct (fetch_exn (Some "alerts") _) as [e2|]; [|discriminate].
        injection Hfail as <- <-. rewrite R2 in H2.
        exists get_alerts. split; [reflexivity|]. split; [exact H2|].
        split; [apply C2; reflexivity|]. erewrite bind_exc by exact H2. reflexivity. }
  destruct Hsnap as (fetch & Hnth & Hfetch & Hcaught & Hsnap).
  assert (Htick : dashboard_tick w = (Val tt, shown)).
  { unfold dashboard_tick.
    erewrite bind_val
      by (unfold try_except; rewrite Hsnap, Hcaught; apply print_run).
    rewrite time_sleep_run, worker_not_interrupted; [reflexivity|].
    destruct k as [|[|[|[|k]]]]; exact Hworker. }
  split; [exists fetch; split; assumption|]. split; [exact Hcaught|].
  split; [exact Hsnap|]. split; [exact Htick|]. split.
  - destruct k as [|[|[|[|k]]]]; reflexivity.
  - intros Hon. apply while_step with (w1 := w); [|exact Htick].
    rewrite get_running_run, Hon. reflexivity.
Qed.

Lemma fetch_failure_shown_not_fatal_witness :
  exists shown,
    dashboard_tick
      (dashboard_world [Response 200 (Some (JObj [])); Failure Timeout]) = (Val tt, shown) /\
    out shown =
      [ clear_screen;
        EvGet (API_URL ++ "/monitoring/health") None;
        EvGet (API_URL ++ "/monitoring/metrics") None;
        error_line (RequestException Timeout);
        EvSleep 2000 ].
Proof.
  destruct (fetch_failure_shown_not_fatal
              (dashboard_world [Response 200 (Some (JObj [])); Failure Timeout])
              0 2 (RequestException Timeout) eq_refl eq_refl)
    as (_ & _ & _ & Htick & _).
  eexists. split; [exact Htick | reflexivity].
Defined.

(** ** Replies without the expected field *)

Lemma emit_all_thread (evs : list event) (w : World) :
  thread (emit_all evs w) = thread w.
Proof.
  revert w. induction evs as [|e evs IH]; intros w; [reflexivity|].
  cbn [emit_all]. rewrite IH. reflexivity.
Qed.

(** C9.  When the body of the reply is a JSON object without the member
    metrics (or alerts), [get_metrics] (or [get_alerts]) returns the empty
    list and raises nothing.  Such replies are then displayed as a
    snapshot without metrics and without alerts: every metric shows its
    default 0 and the alerts section says that there is none; the
    snapshot returns normally, so the handler of the tick prints no error
    line. *)
Theorem fieldless_reply_is_empty_snapshot
  (w : World) (health : JSON) (lines : list event) (s1 s2 s3 : Z)
  (metrics_members alerts_members : list (string * JSON))
  (Hworker : thread w = Worker)
  (Hhealth : forall w0, display_health health w0 = (Val tt, emit_all lines w0))
  (H1 : net_reply (env w) (n_net w) = Response s1 (Some health))
  (H2 : net_reply (env w) (S (n_net w)) = Response s2 (Some (JObj metrics_members)))
  (H3 : net_reply (env w) (S (S (n_net w))) = Response s3 (Some (JObj alerts_members)))
  (Hmetrics : assoc "metrics" metrics_members = None)
  (Halerts : assoc "alerts" alerts_members = None) :
  let url := api_url (self w) in
  let w1 := sent (EvGet (url ++ "/monitoring/health") None) (emit clear_screen w) in
  let w2 := sent (EvGet (url ++ "/monitoring/metrics") None) w1 in
  let w3 := sent (EvGet (url ++ "/monitoring/alerts/active") None) w2 in
  let snapshot :=
    emit_all (header_lines ++ lines ++ empty_metrics_lines ++ no_alerts_lines) w3 in
  get_metrics w1 = (Val (JArr []), w2) /\
  get_alerts w2 = (Val (JArr []), w3) /\
  (forall w0, display_metrics (JArr []) w0 = (Val tt, emit_all empty_metrics_lines w0)) /\
  (forall w0, display_alerts (JArr []) w0 = (Val tt, emit_all no_alerts_lines w0)) /\
  dashboard_snapshot w = (Val tt, snapshot) /\
  dashboard_tick w = (Val tt, advance 2000 (asleep 2000 snapshot)).
Proof.
  intros url w1 w2 w3 snapshot.
  assert (G0 : check_health (emit clear_screen w) = (Val health, w1)).
  { rewrite check_health_run by (apply worker_not_interrupted, Hworker).
    cbn [env n_net emit]. rewrite H1. reflexivity. }
  assert (G1 : get_metrics w1 = (Val (JArr []), w2)).
  { rewrite get_metrics_run by (apply worker_not_interrupted, Hworker).
    change (net_reply (env w1) (n_net w1)) with (net_reply (env w) (S (n_net w))).
    rewrite H2. cbn [fetch_result]. rewrite Hmetrics. reflexivity. }
  assert (G2 : get_alerts w2 = (Val (JArr []), w3)).
  { rewrite get_alerts_run by (apply worker_not_interrupted, Hworker).
    change (net_reply (env w2) (n_net w2)) with (net_reply (env w) (S (S (n_net w)))).
    rewrite H3. cbn [fetch_result]. rewrite Halerts. reflexivity. }
  assert (Gm : forall w0,
            display_metrics (JArr []) w0 = (Val tt, emit_all empty_metrics_lines w0))
    by (intros w0; reflexivity).
  assert (Ga : forall w0,
            display_alerts (JArr []) w0 = (Val tt, emit_all no_alerts_lines w0))
    by (intros w0; reflexivity).
  assert (Gs : dashboard_snapshot w = (Val tt, snapshot)).
  { unfold dashboard_snapshot.
    erewrite bind_val by (apply say_run). fold clear_screen.
    erewrite bind_val by exact G0.
    erewrite bind_val by exact G1.
    erewrite bind_val by exact G2.
    erewrite bind_val by (instantiate (1 := emit_all header_lines w3); reflexivity).
    erewrite bind_val by (apply Hhealth).
    erewrite bind_val by (apply Gm).
    rewrite Ga. unfold snapshot. rewrite !emit_all_app. reflexivity. }
  split; [exact G1|]. split; [exact G2|]. split; [exact Gm|]. split; [exact Ga|].
  split; [exact Gs|].
  unfold dashboard_tick.
  erewrite bind_val by (unfold try_except; rewrite Gs; reflexivity).
  rewrite time_sleep_run, worker_not_interrupted; [reflexivity|].
  unfold snapshot. rewrite emit_all_thread. exact Hworker.
Qed.

Lemma fieldless_reply_is_empty_snapshot_witness :
  exists shown,
    dashboard_tick
      (dashboard_world
         [ Response 200 (Some sample_health);
           Response 200 (Some (JObj [("count", JInt 3)]));
           Response 200 (Some (JObj [])) ]) = (Val tt, shown) /\
    out shown =
      (clear_screen :: fetch_requests API_URL ++ header_lines ++ sample_health_lines ++
       empty_metrics_lines ++ no_alerts_lines ++ [EvSleep 2000])%list.
Proof.
  destruct (fieldless_reply_is_empty_snapshot
              (dashboard_world
                 [ Response 200 (Some sample_health);
                   Response 200 (Some (JObj [("count", JInt 3)]));
                   Response 200 (Some (JObj [])) ])
              sample_health sample_health_lines 200 200 200
              [("count", JInt 3)] []
              eq_refl (fun _ => eq_refl) eq_refl eq_refl eq_refl eq_refl eq_refl)
    as (_ & _ & _ & _ & _ & Htick).
  eexists. split; [exact Htick | reflexivity].
Defined.

(** ** Sample runs *)

(** A whole demo against a service that fails every request: the four
    phases run, three batches are submitted, the flag is cleared once. *)
Example sample_complete_run :
  let run := run_demo 301 (slow_service_world []) in
  fst run = Val tt /\
  batch_sizes (out (snd run)) = [10; 870; 19]%nat /\
  flag_writes (out (snd run)) = [false] /\
  last (printed (out (snd run))) "" =
    NL ++ "Demo complete! Check http://localhost:5173/monitoring for the web dashboard.".
Proof. vm_compute. repeat split; reflexivity. Qed.

(** SIGINT during the first submission is swallowed: the demo completes. *)
Example sample_interrupt_in_submission :
  let run := run_demo 301 (slow_service_world [0%nat]) in
  fst run = Val tt /\
  batch_sizes (out (snd run)) = [10; 870; 19]%nat /\
  last (printed (out (snd run))) "" =
    NL ++ "Demo complete! Check http://localhost:5173/monitoring for the web dashboard.".
Proof. vm_compute. repeat split; reflexivity. Qed.

(** SIGINT during the first sleep stops the demo; the flag is cleared. *)
Example sample_interrupt_in_sleep :
  let run := run_demo 301 (slow_service_world [2%nat]) in
  fst run = Val tt /\
  batch_sizes (out (snd run)) = [10%nat] /\
  flag_writes (out (snd run)) = [false] /\
  running (self (snd run)) = false /\
  last (printed (out (snd run))) "" = NL ++ "Demo stopped by user.".
Proof. vm_compute. repeat split; reflexivity. Qed.

(** The liveness request answered with 500: a diagnostic and nothing else. *)
Example sample_precheck_500 :
  main 301 (answering_world (Response 500 None)) =
    (Val tt, emit_all (liveness_request :: status_diagnostic)
               (advance 7 (tick_net (tick_block (answering_world (Response 500 None)))))).
Proof. reflexivity. Qed.

(** Three seconds of normal load and one second of high load. *)
Example sample_batches :
  batch_sizes (out (snd (generate_normal_load 61 3 (answering_world (Failure Timeout)))))
    = [10; 22; 12]%nat /\
  batch_sizes (out (snd (generate_high_load 301 1 (slow_service_world []))))
    = [500%nat].
Proof. vm_compute. split; reflexivity. Qed.

(** * Further properties of the code *)

(** ** The dashboard tick never fails *)

Lemma caught_unless_interrupt (e : exn) :
  e <> KeyboardInterrupt -> caught_by ExceptException e = true.
Proof. destruct e; intros H; try reflexivity. congruence. Qed.

Lemma worker_safe_ret {A} (a : A) : worker_safe (ret a).
Proof. intros w Hw. refine (conj _ (conj _ _)); [exact Hw | discriminate | discriminate]. Qed.

Lemma worker_safe_raise {A} (e : exn) :
  e <> KeyboardInterrupt -> worker_safe (@raise A e).
Proof.
  intros He w Hw. refine (conj _ (conj _ _)); [exact Hw | cbn; congruence | discriminate].
Qed.

Lemma worker_safe_bind {A B} (m : M A) (k : A -> M B) :
  worker_safe m -> (forall a, worker_safe (k a)) -> worker_safe (bind m k).
Proof.
  intros Hm Hk w Hw. unfold bind. destruct (Hm w Hw) as (Ht & Hi & Hf).
  destruct (m w) as [[a|e|] w1]; cbn [fst snd] in *.
  - apply Hk, Ht.
  - refine (conj _ (conj _ _)); [exact Ht | | discriminate].
    intros H. apply Hi. injection H as ->. reflexivity.
  - congruence.
Qed.

(** A stateless step that cannot raise [KeyboardInterrupt]. *)
Ltac worker_safe_pure :=
  intros w Hw;
  repeat match goal with
         | |- context [match ?x with _ => _ end] => destruct x
         end;
  refine (conj _ (conj _ _)); solve [exact Hw | discriminate].

Lemma worker_safe_dict_get (v : JSON) (key : string) (default : JSON) :
  worker_safe (dict_get v key default).
Proof. unfold dict_get. destruct v; worker_safe_pure. Qed.

Lemma worker_safe_response_json (response : Z * option JSON) :
  worker_safe (response_json response).
Proof. unfold response_json. worker_safe_pure. Qed.

Lemma worker_safe_color_get (table : list (string * string)) (key : JSON) :
  worker_safe (color_get table key).
Proof. unfold color_get. destruct key; worker_safe_pure. Qed.

Lemma worker_safe_str_upper (v : JSON) : worker_safe (str_upper v).
Proof. unfold str_upper. destruct v; worker_safe_pure. Qed.

Lemma worker_safe_as_number (v : JSON) : worker_safe (as_number v).
Proof. unfold as_number. destruct v; worker_safe_pure. Qed.

Lemma worker_safe_subscript (v : JSON) (key : string) : worker_safe (subscript v key).
Proof. unfold subscript. destruct v; worker_safe_pure. Qed.

Lemma worker_safe_iterate (v : JSON) : worker_safe (iterate v).
Proof. unfold iterate. destruct v; worker_safe_pure. Qed.

Lemma worker_safe_format_fixed1 (v : JSON) : worker_safe (format_fixed1 v).
Proof. unfold format_fixed1. destruct v; worker_safe_pure. Qed.

Lemma worker_safe_format_grouped (v : JSON) : worker_safe (format_grouped v).
Proof. unfold format_grouped. destruct v; worker_safe_pure. Qed.

Lemma worker_safe_first_five (v : JSON) : worker_safe (first_five v).
Proof. unfold first_five. destruct v; worker_safe_pure. Qed.

Lemma worker_safe_print (line : list piece) : worker_safe (print line).
Proof. intros w Hw. refine (conj _ (conj _ _)); [exact Hw | discriminate | discriminate]. Qed.

Lemma worker_safe_get_api_url : worker_safe get_api_url.
Proof. intros w Hw. refine (conj _ (conj _ _)); [exact Hw | discriminate | discriminate]. Qed.

Lemma worker_safe_round_trip (request : event) : worker_safe (round_trip request).
Proof.
  intros w Hw. unfold round_trip. rewrite (worker_not_interrupted w Hw).
  destruct (net_reply (env w) (n_net w));
    refine (conj _ (conj _ _)); solve [exact Hw | discriminate].
Qed.

Lemma worker_safe_metric_entries (metrics : list JSON) (acc : list (JSON * JSON)) :
  worker_safe (metric_entries metrics acc).
Proof.
  revert acc. induction metrics as [|m rest IH]; intros acc; cbn [metric_entries].
  - apply worker_safe_ret.
  - apply worker_safe_bind; [apply worker_safe_subscript | intros name].
    apply worker_safe_bind; [apply worker_safe_subscript | intros value].
    destruct (hashable name); [apply IH | apply worker_safe_raise; discriminate].
Qed.

Lemma worker_safe_for_each {A} (body : A -> M unit) :
  (forall x, worker_safe (body x)) -> forall l, worker_safe (for_each l body).
Proof.
  intros Hb. induction l as [|x l IH]; cbn [for_each].
  - apply worker_safe_ret.
  - apply worker_safe_bind; [apply Hb | intros _; exact IH].
Qed.

Ltac worker_safe_steps :=
  repeat first
    [ apply worker_safe_ret
    | apply worker_safe_print
    | apply worker_safe_dict_get
    | apply worker_safe_response_json
    | apply worker_safe_color_get
    | apply worker_safe_str_upper
    | apply worker_safe_as_number
    | apply worker_safe_subscript
    | apply worker_safe_iterate
    | apply worker_safe_format_fixed1
    | apply worker_safe_format_grouped
    | apply worker_safe_first_five
    | apply worker_safe_metric_entries
    | apply worker_safe_get_api_url
    | apply worker_safe_round_trip
    | apply worker_safe_bind; [| intros ?] ].

Lemma worker_safe_check_health : worker_safe check_health.
Proof. unfold check_health, requests_get. worker_safe_steps. Qed.

Lemma worker_safe_get_metrics : worker_safe get_metrics.
Proof. unfold get_metrics, requests_get. worker_safe_steps. Qed.

Lemma worker_safe_get_alerts : worker_safe get_alerts.
Proof. unfold get_alerts, requests_get. worker_safe_steps. Qed.

Lemma worker_safe_display_header : worker_safe display_header.
Proof. unfold display_header, say, newline. worker_safe_steps. Qed.

Lemma worker_safe_display_health (health : JSON) : worker_safe (display_health health).
Proof. unfold display_health, say, newline. worker_safe_steps. Qed.

Lemma worker_safe_display_metrics (metrics : JSON) :
  worker_safe (display_metrics metrics).
Proof. unfold display_metrics, say, newline. worker_safe_steps. Qed.

Lemma worker_safe_render_alert (alert : JSON) : worker_safe (render_alert alert).
Proof. unfold render_alert. worker_safe_steps. Qed.

Lemma worker_safe_display_alerts (alerts : JSON) : worker_safe (display_alerts alerts).
Proof.
  unfold display_alerts, say, newline.
  apply worker_safe_bind; [apply worker_safe_print | intros _].
  apply worker_safe_bind; [apply worker_safe_print | intros _].
  apply worker_safe_bind; [| intros _; worker_safe_steps].
  destruct (truthy alerts); [|apply worker_safe_print].
  apply worker_safe_bind; [apply worker_safe_first_five | intros shown].
  apply worker_safe_for_each, worker_safe_render_alert.
Qed.

Lemma worker_safe_dashboard_snapshot : worker_safe dashboard_snapshot.
Proof.
  unfold dashboard_snapshot, say.
  apply worker_safe_bind; [apply worker_safe_print | intros _].
  apply worker_safe_bind; [apply worker_safe_check_health | intros health].
  apply worker_safe_bind; [apply worker_safe_get_metrics | intros metrics].
  apply worker_safe_bind; [apply worker_safe_get_alerts | intros alerts].
  apply worker_safe_bind; [apply worker_safe_display_header | intros _].
  apply worker_safe_bind; [apply worker_safe_display_health | intros _].
  apply worker_safe_bind; [apply worker_safe_display_metrics | intros _].
  apply worker_safe_display_alerts.
Qed.

(** A tick of the dashboard thread. *)
Lemma dashboard_tick_run (w : World) :
  thread w = Worker ->
  exists w',
    dashboard_tick w = (Val tt, w') /\
    self w' = self w /\
    thread w' = Worker /\
    (clock w + 2000 <= clock w')%Z /\
    last (out w') (EvSleep 0) = EvSleep 2000.
Proof.
  intros Hworker. unfold dashboard_tick.
  set (handler := fun e : exn => print [Lit "Error updating dashboard: "; ExnText e]).
  assert (Htry : exists w1,
            try_except ExceptException dashboard_snapshot handler w = (Val tt, w1) /\
            self w1 = self w /\ thread w1 = Worker /\ (clock w <= clock w1)%Z).
  { pose proof (quiet_dashboard_snapshot (fun _ => True)
                  (fun _ => I) (fun _ _ => I) w) as Hq.
    destruct (worker_safe_dashboard_snapshot w Hworker) as (Ht & Hi & Hf).
    unfold try_except.
    destruct (dashboard_snapshot w) as [[[]|e|] w0]; cbn [fst snd] in *.
    - exists w0. destruct Hq as (Hs & _ & _ & Hc & _).
      refine (conj eq_refl (conj Hs (conj Ht Hc))).
    - rewrite caught_unless_interrupt by congruence.
      exists (emit (EvPrint [Lit "Error updating dashboard: "; ExnText e]) w0).
      destruct Hq as (Hs & _ & _ & Hc & _).
      refine (conj eq_refl (conj Hs (conj Ht Hc))).
    - congruence. }
  destruct Htry as (w1 & Hrun & Hs & Ht & Hc).
  erewrite bind_val by exact Hrun.
  rewrite time_sleep_run, (worker_not_interrupted w1 Ht).
  eexists. split; [reflexivity|]. cbn.
  refine (conj Hs (conj Ht (conj _ _))); [lia | apply last_last].
Qed.

(** X1.  In the dashboard thread a tick always returns normally, whatever
    the service answers and however malformed the bodies are: every
    exception of the fetches and of the rendering is caught by the handler
    of the loop body.  The tick leaves the object as it is, ends with its
    sleep and takes at least two seconds. *)
Theorem dashboard_tick_never_fails (w : World) (Hworker : thread w = Worker) :
  exists w',
    dashboard_tick w = (Val tt, w') /\
    self w' = self w /\
    thread w' = Worker /\
    (clock w + 2000 <= clock w')%Z /\
    last (out w') (EvSleep 0) = EvSleep 2000.
Proof. exact (dashboard_tick_run w Hworker). Qed.

Lemma dashboard_tick_never_fails_witness :
  exists w',
    dashboard_tick
      (dashboard_world [Response 500 (Some (JArr [])); Response 200 None]) = (Val tt, w') /\
    last (out w') (EvSleep 0) = EvSleep 2000.
Proof.
  destruct (dashboard_tick_never_fails
              (dashboard_world [Response 500 (Some (JArr [])); Response 200 None])
              eq_refl) as (w' & Hrun & _ & _ & _ & Hlast).
  exists w'. split; assumption.
Defined.

(** ** The dashboard loop *)

(** X2.  The dashboard loop ends only through the flag.  With the flag
    false it returns at once and does nothing.  With the flag true, in its
    own thread, it is still running after any number of ticks: each tick
    returns, takes two seconds at least and leaves the flag true, so the
    loop uses up whatever fuel it is given. *)
Theorem dashboard_runs_until_stopped (w : World) (fuel : nat)
  (Hworker : thread w = Worker) :
  (running (self w) = false ->
   display_metrics_dashboard (S fuel) w = (Val tt, w)) /\
  (running (self w) = true ->
   exists w',
     display_metrics_dashboard fuel w = (Fuel, w') /\
     self w' = self w /\
     (clock w + 2000 * Z.of_nat fuel <= clock w')%Z).
Proof.
  split.
  - intros Hoff. unfold display_metrics_dashboard. cbn [while].
    unfold bind at 1. rewrite get_running_run, Hoff. reflexivity.
  - revert w Hworker. induction fuel as [|fuel IH]; intros w Hworker Hon.
    + exists w. cbn. repeat split; lia.
    + destruct (dashboard_tick_run w Hworker)
        as (w1 & Htick & Hself & Hthread & Hclock & _).
      destruct (IH w1 Hthread ltac:(rewrite Hself; exact Hon))
        as (w' & Hrun & Hself' & Hclock').
      exists w'. split; [|split; [congruence | lia]].
      unfold display_metrics_dashboard in *.
      erewrite while_step; [exact Hrun | | exact Htick].
      rewrite get_running_run, Hon. reflexivity.
Qed.

Lemma dashboard_runs_until_stopped_witness :
  exists w',
    display_metrics_dashboard 3 (dashboard_world []) = (Fuel, w') /\
    (6000 <= clock w')%Z.
Proof.
  destruct (dashboard_runs_until_stopped (dashboard_world []) 3 eq_refl)
    as (_ & H).
  destruct (H eq_refl) as (w' & Hrun & _ & Hclock).
  exists w'. split; [exact Hrun | exact Hclock].
Defined.

(** ** Readers and writers *)

(** X3.  The dashboard only reads and the load driver only writes: a run
    of the dashboard loop prints, issues GET requests and sleeps, and
    never posts; a run of the four phases prints, issues POST requests and
    sleeps, and never issues a GET.  Neither touches the object. *)
Theorem dashboard_reads_driver_writes (w : World) (fuel : nat) :
  quiet reader_event w (snd (display_metrics_dashboard fuel w)) /\
  quiet writer_event w (snd (run_phases fuel w)).
Proof.
  split.
  - apply quiet_display_metrics_dashboard; intros; exact I.
  - unfold run_phases.
    repeat first
      [ apply quiet_say; exact I
      | apply quiet_generate_normal_load; intros; exact I
      | apply quiet_generate_high_load; intros; exact I
      | apply quiet_generate_slow_queries; intros; exact I
      | apply respects_bind; [apply quiet_trans | | intros ?] ].
Qed.

(** ** The alerts of a snapshot *)

Lemma render_alert_run (alert : JSON) (line : event) (w : World) :
  alert_line alert = Some line -> render_alert alert w = (Val tt, emit line w).
Proof.
  unfold alert_line, render_alert. destruct alert as [| | | | |items|members]; try discriminate.
  unfold subscript.
  destruct (assoc "severity" members) as [[| | | |severity| |]|]; try discriminate.
  destruct (assoc "name" members) as [name|]; try discriminate.
  destruct (assoc "message" members) as [text|]; try discriminate.
  intros H. injection H as <-. reflexivity.
Qed.

Lemma for_each_render_alert (items : list JSON) (lines : list event) (w : World) :
  map alert_line items = map Some lines ->
  for_each items render_alert w = (Val tt, emit_all lines w).
Proof.
  revert lines w. induction items as [|a items IH]; intros [|l lines] w H;
    try discriminate; [reflexivity|].
  cbn in H. injection H as Ha Hrest. cbn [for_each emit_all].
  erewrite bind_val by (apply render_alert_run, Ha). apply IH, Hrest.
Qed.



(** ** The metrics of a snapshot *)

Lemma metric_entries_run (items : list JSON) (pairs acc : list (JSON * JSON)) (w : World) :
  map metric_pair items = map Some pairs ->
  metric_entries items acc w = (Val (acc ++ pairs)%list, w).
Proof.
  revert pairs acc. induction items as [|m items IH]; intros [|p pairs] acc H;
    try discriminate.
  - cbn. rewrite app_nil_r. reflexivity.
  - cbn in H. injection H as Hm Hrest. cbn [metric_entries].
    unfold metric_pair in Hm. destruct m as [| | | | |l|members]; try discriminate.
    unfold subscript, bind.
    destruct (assoc "name" members) as [name|]; [|discriminate].
    destruct (assoc "value" members) as [value|]; [|discriminate].
    cbn. destruct (hashable name); [|discriminate].
    injection Hm as <-. rewrite (IH pairs (acc ++ [(name, value)])%list Hrest).
    rewrite <- app_assoc. reflexivity.
Qed.

Lemma metric_entries_fails (items : list JSON) (m : JSON) (acc : list (JSON * JSON))
  (w : World) :
  In m items -> metric_pair m = None ->
  exists e, (e = KeyError \/ e = TypeError) /\ metric_entries items acc w = (Exc e, w).
Proof.
  revert acc. induction items as [|m0 items IH]; intros acc Hin Hbad; [contradiction|].
  cbn [metric_entries].
  destruct (metric_pair m0) as [[name value]|] eqn:E0.
  - destruct Hin as [-> | Hin]; [congruence|].
    destruct (IH (acc ++ [(name, value)])%list Hin Hbad) as (e & He & Hrun).
    exists e. split; [exact He|].
    unfold metric_pair in E0. destruct m0 as [| | | | |l|members]; try discriminate.
    unfold subscript, bind.
    destruct (assoc "name" members) as [name'|]; [|discriminate].
    destruct (assoc "value" members) as [value'|]; [|discriminate].
    cbn. destruct (hashable name'); [|discriminate].
    injection E0 as -> ->. exact Hrun.
  - clear IH Hin Hbad. unfold metric_pair in E0.
    destruct m0 as [| | | | |l|members];
      try (exists TypeError; split; [tauto | reflexivity]).
    unfold subscript, bind.
    destruct (assoc "name" members) as [name|];
      [|exists KeyError; split; [tauto | reflexivity]].
    destruct (assoc "value" members) as [value|];
      [|exists KeyError; split; [tauto | reflexivity]].
    cbn. destruct (hashable name); [discriminate|].
    exists TypeError; split; [tauto | reflexivity].
Qed.

(** X5.  One malformed metric spoils the metrics of the tick.  When an
    element of the metrics is not an object, lacks its name or its value,
    or has a name that cannot be a key, the dictionary of the metrics
    cannot be built: only the heading is printed and [KeyError] or
    [TypeError] is raised, wherever in the list the element stands. *)
Theorem malformed_metric_spoils_metrics
  (items : list JSON) (m : JSON) (w : World)
  (Hin : In m items) (Hbad : metric_pair m = None) :
  exists e,
    (e = KeyError \/ e = TypeError) /\
    display_metrics (JArr items) w = (Exc e, emit_all metrics_heading w).
Proof.
  destruct (metric_entries_fails items m [] (emit_all metrics_heading w) Hin Hbad)
    as (e & He & Hrun).
  exists e. split; [exact He|].
  unfold display_metrics. step. step.
  erewrite bind_val by reflexivity.
  erewrite bind_exc by exact Hrun. reflexivity.
Qed.

Lemma malformed_metric_spoils_metrics_witness :
  exists e,
    (e = KeyError \/ e = TypeError) /\
    display_metrics
      (JArr [ JObj [("name", JStr "query_rate_per_second"); ("value", JInt 4)];
              JObj [("name", JStr "total_logs_ingested")] ])
      (dashboard_world []) = (Exc e, emit_all metrics_heading (dashboard_world [])).
Proof.
  exact (malformed_metric_spoils_metrics
           [ JObj [("name", JStr "query_rate_per_second"); ("value", JInt 4)];
             JObj [("name", JStr "total_logs_ingested")] ]
           (JObj [("name", JStr "total_logs_ingested")]) (dashboard_world [])
           (or_intror (or_introl eq_refl)) eq_refl).
Defined.

Lemma metric_find_app (key : string) (front back : list (JSON * JSON)) :
  metric_find key (front ++ back) =
    match metric_find key back with
    | Some v => Some v
    | None => metric_find key front
    end.
Proof.
  induction front as [|[k v] front IH]; cbn [app metric_find].
  - destruct (metric_find key back); reflexivity.
  - rewrite IH. destruct (metric_find key back); reflexivity.
Qed.

Lemma format_fixed1_run (v : JSON) (w : World) :
  fixed1_ok v = true -> format_fixed1 v w = (Val (Fixed1 v), w).
Proof.
  destruct v; cbn; try discriminate; try reflexivity.
  intros ->. reflexivity.
Qed.

Lemma format_grouped_run (v : JSON) (w : World) :
  grouped_ok v = true -> format_grouped v w = (Val (Grouped v), w).
Proof. destruct v; cbn; try discriminate; reflexivity. Qed.

(** X6.  Well-formed metrics are shown by name.  The dictionary of the
    metrics holds the name and value of every element in order; a metric
    is read by its name, the last element of that name counts, and a name
    that no element has reads 0.  When the six values read are numbers the
    twelve lines of the metrics are printed with them. *)
Theorem metrics_shown_by_name
  (items : list JSON) (pairs : list (JSON * JSON)) (w : World)
  (Hpairs : map metric_pair items = map Some pairs)
  (Hfixed : forall key,
     In key [ "ingestion_rate_per_second"; "query_rate_per_second";
              "query_duration_ms_avg"; "query_duration_ms_p99" ] ->
     fixed1_ok (metric_get pairs key) = true)
  (Hgrouped : forall key,
     In key ["total_logs_ingested"; "total_queries_executed"] ->
     grouped_ok (metric_get pairs key) = true) :
  display_metrics (JArr items) w =
    (Val tt, emit_all (metrics_lines (metric_get pairs)) w) /\
  (forall front back key v,
     pairs = (front ++ (JStr key, v) :: back)%list ->
     metric_find key back = None ->
     metric_get pairs key = v) /\
  (forall key, metric_find key pairs = None -> metric_get pairs key = JInt 0).
Proof.
  split; [|split].
  - unfold display_metrics, newline. step. step.
    erewrite bind_val by reflexivity.
    erewrite bind_val by (apply metric_entries_run, Hpairs).
    cbn [app].
    erewrite bind_val by (apply format_fixed1_run, Hfixed; cbn; tauto). step.
    erewrite bind_val by (apply format_fixed1_run, Hfixed; cbn; tauto). step.
    erewrite bind_val by (apply format_grouped_run, Hgrouped; cbn; tauto). step.
    erewrite bind_val by (apply format_grouped_run, Hgrouped; cbn; tauto). step.
    step. step. step.
    erewrite bind_val by (apply format_fixed1_run, Hfixed; cbn; tauto). step.
    erewrite bind_val by (apply format_fixed1_run, Hfixed; cbn; tauto). step.
    reflexivity.
  - intros front back key v -> Hback. unfold metric_get.
    rewrite metric_find_app. cbn [metric_find]. rewrite Hback, String.eqb_refl.
    reflexivity.
  - intros key Hnone. unfold metric_get. rewrite Hnone. reflexivity.
Qed.

Lemma metrics_shown_by_name_witness :
  display_metrics
    (JArr [ JObj [("name", JStr "total_logs_ingested"); ("value", JInt 5)];
            JObj [("name", JStr "query_rate_per_second"); ("value", JFloat (3 # 2))];
            JObj [("name", JStr "total_logs_ingested"); ("value", JInt 9)] ])
    (dashboard_world []) =
    (Val tt,
     emit_all
       (metrics_lines
          (fun key =>
             if String.eqb key "total_logs_ingested" then JInt 9
             else if String.eqb key "query_rate_per_second" then JFloat (3 # 2)
             else JInt 0))
       (dashboard_world [])).
Proof.
  exact (proj1 (metrics_shown_by_name
           [ JObj [("name", JStr "total_logs_ingested"); ("value", JInt 5)];
             JObj [("name", JStr "query_rate_per_second"); ("value", JFloat (3 # 2))];
             JObj [("name", JStr "total_logs_ingested"); ("value", JInt 9)] ]
           [ (JStr "total_logs_ingested", JInt 5);
             (JStr "query_rate_per_second", JFloat (3 # 2));
             (JStr "total_logs_ingested", JInt 9) ]
           (dashboard_world []) eq_refl
           ltac:(intros key [<- | [<- | [<- | [<- | []]]]]; reflexivity)
           ltac:(intros key [<- | [<- | []]]; reflexivity))).
Defined.

(** ** The health report of a snapshot *)



(** ** The records of the load phases *)

Lemma high_record_spec (batch_size : Z) (w : World) :
  exists r,
    high_record batch_size w = (Val r, bump_rand 1 w) /\ high_record_ok batch_size r.
Proof.
  unfold high_record.
  destruct (random_choice_run ["info"; "warning"; "error"] w ltac:(discriminate))
    as (lvl & Hin & Hlvl).
  step. step. eexists. split; [reflexivity|].
  unfold high_record_ok. cbn. tauto.
Qed.

Lemma level_of_draw_in (u : Q) :
  In (level_of_draw u) ["debug"; "info"; "warning"; "error"].
Proof.
  unfold level_of_draw.
  destruct (Qlt_bool u (10 # 100)); [cbn; tauto|].
  destruct (Qlt_bool u (80 # 100)); [cbn; tauto|].
  destruct (Qlt_bool u (95 # 100)); cbn; tauto.
Qed.

Lemma normal_record_spec (w : World) :
  exists r, normal_record w = (Val r, bump_rand 5 w) /\ normal_record_ok r.
Proof.
  unfold normal_record.
  step. unfold first. step.
  destruct (random_choice_run
              ["User login"; "API request"; "Data processed"; "Cache hit"; "Task completed"]
              (bump_rand 1 w) ltac:(discriminate)) as (what & Hwhat_in & Hwhat).
  step.
  destruct (random_choice_run ["web"; "api"; "worker"; "cache"]
              (bump_rand 1 (bump_rand 1 w)) ltac:(discriminate)) as (svc & Hsvc_in & Hsvc).
  step. step. step. step.
  rewrite !bump_rand_add. cbn [Nat.add].
  eexists. split; [reflexivity|].
  unfold normal_record_ok. cbn [level message service attributes].
  split; [apply level_of_draw_in|]. split; [exists what; tauto|]. split; [exact Hsvc_in|].
  eexists. eexists. split; [apply (randint_range 1000 9999); lia|].
  split; [apply (randint_range 10 500); lia|].
  destruct (String.eqb _ "error"); reflexivity.
Qed.

Lemma collect_all {A} (item : M A) (c : nat) (P : A -> Prop) :
  (forall w, exists x, item w = (Val x, bump_rand c w) /\ P x) ->
  forall (n : nat) (w : World),
  exists l,
    collect n item [] w = (Val l, bump_rand (n * c) w) /\
    length l = n /\ Forall P l.
Proof.
  intros Hitem n w.
  destruct (collect_run item c (fun _ x => P x) Hitem n [] w) as (l & Hrun & Hlen & HP).
  exists l. split; [exact Hrun|]. split; [exact Hlen|].
  apply Forall_forall. intros x Hx. apply In_nth_error in Hx. destruct Hx as (i & Hi).
  exact (HP i x Hi).
Qed.

(** X8.  Every record of a high-load batch carries the size of its batch.
    The batch posted by an iteration of the high load is made of records
    with the fixed message and the fixed service tag, a level among info,
    warning and error, and two attributes: the load-test mark and the
    number of records of the very batch the record is in. *)
Theorem high_load_records_carry_batch_size (w : World) :
  exists logs,
    In (EvPost (api_url (self w) ++ "/ingest/bulk") (Logs logs))
       (out (snd (high_load_body w))) /\
    Forall (high_record_ok (Z.of_nat (length logs))) logs.
Proof.
  set (batch_size := randint_of 500 1000 (draw w 0)).
  pose proof (randint_range 500 1000 (draw w 0) ltac:(lia)) as B.
  fold (randint_of 500 1000 (draw w 0)) in B. fold batch_size in B.
  destruct (collect_all (high_record batch_size) 1 (high_record_ok batch_size)
              (high_record_spec batch_size) (Z.to_nat batch_size) (bump_rand 1 w))
    as (logs & Hlogs & Hlen & Hok).
  exists logs. split.
  - unfold high_load_body. step. fold (randint_of 500 1000 (draw w 0)). fold batch_size.
    step. step. rewrite time_sleep_run.
    match goal with |- context [interrupted ?x] => destruct (interrupted x) end;
      cbn; rewrite !in_app_iff; cbn; tauto.
  - replace (Z.of_nat (length logs)) with batch_size by lia. exact Hok.
Qed.

(** X9.  Every record of a normal-load batch is consistent.  The batch
    posted by an iteration of the normal load is made of records with a
    level among the four, a message made of the fixed prefix and one of
    the five activities, a service among the four, a user id from 1000 to
    9999, a duration from 10 to 500 milliseconds, and a status that is
    failed exactly for the records of level error. *)
Theorem normal_load_records_consistent (w : World) :
  exists logs,
    In (EvPost (api_url (self w) ++ "/ingest/logs") (Logs logs))
       (out (snd (normal_load_body w))) /\
    Forall normal_record_ok logs.
Proof.
  set (batch_size := randint_of 10 50 (draw w 0)).
  destruct (collect_all normal_record 5 normal_record_ok normal_record_spec
              (Z.to_nat batch_size) (bump_rand 1 w)) as (logs & Hlogs & _ & Hok).
  exists logs. split; [|exact Hok].
  unfold normal_load_body. step. fold (randint_of 10 50 (draw w 0)). fold batch_size.
  step. step.
  set (posted := sent _ _).
  assert (Hrest : grows (fun _ => True) posted
            (snd ((u <- random_random ;;
                   (if Qlt_bool u (3 # 10) then execute_query else ret tt) ;;
                   time_sleep 1000) posted))).
  { apply quiet_grows.
    apply respects_bind; [apply quiet_trans | | intros u].
    - intros w0. rewrite random_random_run. apply quiet_bump_rand.
    - apply respects_bind; [apply quiet_trans | | intros _].
      + destruct (Qlt_bool u (3 # 10));
          [apply quiet_execute_query; intros; exact I | apply respects_ret, quiet_refl].
      + apply quiet_time_sleep; [lia | exact I]. }
  destruct Hrest as (evs & Hout & _). rewrite Hout.
  unfold posted. cbn. rewrite !in_app_iff. cbn. tauto.
Qed.

(** ** The length of a load phase *)

Lemma batch_sizes_app (a b : list event) :
  batch_sizes (a ++ b) = (batch_sizes a ++ batch_sizes b)%list.
Proof. apply flat_map_app. Qed.

Lemma batches_normal_load_body (w : World) :
  batches (snd (normal_load_body w)) = (batches w + 1)%Z.
Proof.
  destruct (normal_load_body_run w) as (logs & q & _ & _ & _ & Hrun).
  cbv zeta in Hrun. rewrite Hrun. unfold batches.
  destruct (Qlt_bool _ _); rewrite time_sleep_run;
    match goal with |- context [interrupted ?x] => destruct (interrupted x) end;
    cbn; rewrite !batch_sizes_app, !length_app; cbn; lia.
Qed.

Lemma batches_high_load_body (w : World) :
  batches (snd (high_load_body w)) = (batches w + 1)%Z.
Proof.
  destruct (high_load_body_run w) as (logs & _ & Hrun). rewrite Hrun. unfold batches.
  rewrite time_sleep_run.
  match goal with |- context [interrupted ?x] => destruct (interrupted x) end;
    cbn; rewrite !batch_sizes_app, !length_app; cbn; lia.
Qed.

Lemma load_test_run (start_time duration : Z) (w : World) :
  load_test start_time duration w =
    (Val ((clock w - start_time <? duration * 1000)%Z && running (self w)), w).
Proof.
  unfold load_test. step. destruct (_ <? _)%Z; reflexivity.
Qed.

(** A load loop whose body submits one batch and takes at least [step]
    milliseconds submits no more batches than steps begin in the time
    left, and when it returns with the flag on the time is over. *)
Lemma load_loop_bounds (body : M unit) (step : Z) :
  (0 < step)%Z -> settles step body ->
  (forall w, self (snd (body w)) = self w) ->
  (forall w, batches (snd (body w)) = (batches w + 1)%Z) ->
  forall (fuel : nat) (start_time duration : Z) (w : World),
    let run := while fuel (load_test start_time duration) body w in
    (step * (batches (snd run) - batches w) <=
       Z.max 0 (duration * 1000 - (clock w - start_time) + step - 1))%Z /\
    (fst run = Val tt -> running (self w) = true ->
     (duration * 1000 <= clock (snd run) - start_time)%Z).
Proof.
  intros Hstep Hsettles Hself Hcount.
  induction fuel as [|fuel IH]; intros start_time duration w; cbv zeta.
  - cbn. split; [lia | discriminate].
  - cbn [while]. erewrite bind_val by apply load_test_run.
    destruct (clock w - start_time <? duration * 1000)%Z eqn:Htest; cbn [andb].
    + apply Z.ltb_lt in Htest.
      destruct (running (self w)) eqn:Hon; [|cbn; split; [lia | discriminate]].
      pose proof (Hsettles w) as Hs. pose proof (Hself w) as Hsf.
      pose proof (Hcount w) as Hc.
      destruct (body w) as [[[]|e|] w1] eqn:Hbody; cbn [fst snd] in *.
      * erewrite bind_val by exact Hbody. cbn in Hs.
        destruct (IH start_time duration w1) as (IHc & IHt). split.
        -- set (x := batches (snd (while fuel (load_test start_time duration) body w1))) in *.
           replace (step * (x - batches w))%Z with (step * (x - batches w1) + step)%Z
             by (rewrite Hc; ring).
           lia.
        -- intros Hval _. apply IHt; [exact Hval | rewrite Hsf; exact Hon].
      * erewrite bind_exc by exact Hbody. cbn [fst snd]. split; [|discriminate].
        rewrite Hc. replace (step * (batches w + 1 - batches w))%Z with step by ring.
        lia.
      * contradiction.
    + apply Z.ltb_ge in Htest. cbn. split; lia.
Qed.

Lemma batches_emit_print (line : list piece) (w : World) :
  batches (emit (EvPrint line) w) = batches w.
Proof.
  unfold batches. cbn. rewrite batch_sizes_app. cbn. rewrite app_nil_r. reflexivity.
Qed.

(** X10.  A load phase lasts its duration and no more than one iteration
    per step.  The normal load submits at most one batch for each second
    of its duration and the high load at most ten; with a duration of
    zero or less neither submits anything.  A phase that returns while the
    flag is on has run for its whole duration. *)
Theorem phase_length_and_batches (fuel : nat) (duration : Z) (w : World) :
  let normal := generate_normal_load fuel duration w in
  let high := generate_high_load fuel duration w in
  (batches (snd normal) - batches w <= Z.max 0 duration)%Z /\
  (batches (snd high) - batches w <= Z.max 0 (10 * duration))%Z /\
  (running (self w) = true -> fst normal = Val tt ->
   (clock w + duration * 1000 <= clock (snd normal))%Z) /\
  (running (self w) = true -> fst high = Val tt ->
   (clock w + duration * 1000 <= clock (snd high))%Z).
Proof.
  cbv zeta. unfold generate_normal_load, generate_high_load.
  repeat (erewrite bind_val by eauto with runs).
  set (w0 := emit (EvPrint _) w). set (w0' := emit (EvPrint _) w).
  destruct (load_loop_bounds normal_load_body 1000 ltac:(lia) settles_normal_load_body
              (fun w1 => proj1 (quiet_normal_load_body (fun _ => True)
                                  (fun _ _ _ => I) (fun _ _ _ => I) I w1))
              batches_normal_load_body fuel (clock w) duration w0) as (Nc & Nt).
  destruct (load_loop_bounds high_load_body 100 ltac:(lia) settles_high_load_body
              (fun w1 => proj1 (quiet_high_load_body (fun _ => True)
                                  (fun _ _ _ => I) I w1))
              batches_high_load_body fuel (clock w) duration w0') as (Hc & Ht).
  subst w0 w0'. rewrite batches_emit_print in Nc, Hc.
  cbn [clock emit self] in Nc, Nt, Hc, Ht |- *.
  split; [lia|]. split; [lia|]. split.
  - intros Hon Hval. specialize (Nt Hval Hon). lia.
  - intros Hon Hval. specialize (Ht Hval Hon). lia.
Qed.

Lemma phase_length_and_batches_witness :
  (2000 <= clock (snd (generate_normal_load 3 2 (slow_service_world []))))%Z /\
  (1000 <= clock (snd (generate_high_load 11 1 (slow_service_world []))))%Z.
Proof.
  destruct (phase_length_and_batches 3 2 (slow_service_world [])) as (_ & _ & Hn & _).
  destruct (phase_length_and_batches 11 1 (slow_service_world [])) as (_ & _ & _ & Hh).
  split.
  - exact (Hn eq_refl ltac:(vm_compute; reflexivity)).
  - exact (Hh eq_refl ltac:(vm_compute; reflexivity)).
Defined.

(** ** The script of the demo *)

Lemma printed_app (a b : list event) :
  printed (a ++ b) = (printed a ++ printed b)%list.
Proof. apply flat_map_app. Qed.

Lemma printed_silent (evs : list event) : Forall silent evs -> printed evs = [].
Proof.
  induction 1 as [|e evs He _ IH]; [reflexivity|].
  change (e :: evs) with ([e] ++ evs)%list. rewrite printed_app, He, IH. reflexivity.
Qed.

Lemma settled_cases (ms : Z) (w : World) (run : result unit * World) :
  settled ms w run -> fst run = Val tt \/ fst run = Exc KeyboardInterrupt.
Proof.
  destruct run as [[[]|e|] w']; cbn; [tauto | | tauto].
  intros [-> _]. tauto.
Qed.

Lemma scripted_weaken (n n' : nat) (lines : list string) (m : M unit) :
  (n <= n')%nat -> scripted n lines m -> scripted n' lines m.
Proof.
  intros Hn H w. destruct (H w) as (k & Hp & Hr). exists k. split; [exact Hp|].
  destruct Hr as [Hv | [Hi Hk]]; [left; exact Hv | right; split; [exact Hi | lia]].
Qed.

Lemma scripted_say (s : string) : scripted 0 [s] (say s).
Proof.
  intros w. exists 1%nat. split; [|left; split; reflexivity].
  cbn. rewrite printed_app. reflexivity.
Qed.

Lemma scripted_bind (n1 n2 : nat) (l1 l2 : list string) (m1 m2 : M unit) :
  scripted n1 l1 m1 -> scripted n2 l2 m2 ->
  scripted (Nat.max n1 (length l1 + n2)) (l1 ++ l2) (m1 ;; m2).
Proof.
  intros H1 H2 w. unfold bind.
  destruct (H1 w) as (k1 & Hp1 & Hr1).
  destruct (m1 w) as [[[]|e|] w1]; cbn [fst snd] in *.
  - destruct Hr1 as [[_ ->] | [Hr1 _]]; [|discriminate].
    destruct (H2 w1) as (k2 & Hp2 & Hr2).
    exists (length l1 + k2)%nat. split.
    + rewrite Hp2, Hp1, firstn_all, firstn_app_2, app_assoc. reflexivity.
    + destruct Hr2 as [[Hv ->] | [Hi Hk]]; [left | right; split; [exact Hi | lia]].
      split; [exact Hv | rewrite length_app; reflexivity].
  - destruct Hr1 as [[Hv _] | [Hi Hk]]; [discriminate|].
    exists (Nat.min k1 (length l1)). split.
    + rewrite Hp1, firstn_app.
      replace (Nat.min k1 (length l1) - length l1)%nat with 0%nat by lia.
      cbn. rewrite app_nil_r.
      destruct (Nat.le_ge_cases k1 (length l1)) as [Hle | Hge].
      * rewrite Nat.min_l by exact Hle. reflexivity.
      * rewrite Nat.min_r by exact Hge. rewrite firstn_all, firstn_all2 by exact Hge.
        reflexivity.
    + right. split; [exact Hi | lia].
  - destruct Hr1 as [[Hv _] | [Hi _]]; discriminate.
Qed.

(** A phase prints its banner and nothing else. *)
Lemma scripted_phase (banner : string) (rest : M unit) :
  respects (grows silent) rest -> settles 0 (say banner ;; rest) ->
  scripted 1 [banner] (say banner ;; rest).
Proof.
  intros Hg Hs w. exists 1%nat. split.
  - erewrite bind_val by apply say_run.
    destruct (Hg (emit (EvPrint [Lit banner]) w)) as (evs & Hout & Hevs).
    rewrite Hout. cbn. rewrite !printed_app, (printed_silent evs Hevs), app_nil_r.
    reflexivity.
  - destruct (settled_cases 0 w _ (Hs w)) as [Hv | Hi];
      [left; split; [exact Hv | reflexivity] | right; split; [exact Hi | lia]].
Qed.

Lemma scripted_generate_normal_load (fuel : nat) (duration : Z) :
  (1 <= fuel)%nat -> (duration <= Z.of_nat fuel - 1)%Z ->
  scripted 1 [("Generating normal load for " ++ string_of_Z duration ++ " seconds...")%string]
           (generate_normal_load fuel duration).
Proof.
  intros Hf Hd. apply scripted_phase;
    [|apply (settles_generate_normal_load fuel duration Hf Hd)].
  apply quiet_grows.
  apply respects_bind; [apply quiet_trans | intros w; apply quiet_refl | intros start_time].
  apply respects_while; [apply quiet_refl | apply quiet_trans | apply quiet_load_test |].
  apply quiet_normal_load_body; intros; reflexivity.
Qed.

Lemma scripted_generate_high_load (fuel : nat) (duration : Z) :
  (1 <= fuel)%nat -> (duration * 10 <= Z.of_nat fuel - 1)%Z ->
  scripted 1 [("Generating HIGH LOAD for " ++ string_of_Z duration ++ " seconds...")%string]
           (generate_high_load fuel duration).
Proof.
  intros Hf Hd. apply scripted_phase;
    [|apply (settles_generate_high_load fuel duration Hf Hd)].
  apply quiet_grows.
  apply respects_bind; [apply quiet_trans | intros w; apply quiet_refl | intros start_time].
  apply respects_while; [apply quiet_refl | apply quiet_trans | apply quiet_load_test |].
  apply quiet_high_load_body; intros; reflexivity.
Qed.

Lemma scripted_generate_slow_queries (count : nat) :
  scripted 1 [("Generating " ++ string_of_Z (Z.of_nat count) ++ " slow queries...")%string]
           (generate_slow_queries count).
Proof.
  apply scripted_phase; [|apply settles_generate_slow_queries].
  apply quiet_grows. unfold for_range.
  apply respects_for_range_from; [apply quiet_refl | apply quiet_trans |].
  intros i. apply quiet_slow_query_body; intros; reflexivity.
Qed.

Lemma scripted_run_phases (fuel : nat) :
  (301 <= fuel)%nat ->
  scripted (length demo_script) (demo_script ++ [demo_complete]) (run_phases fuel).
Proof.
  intros Hf. unfold run_phases.
  eapply scripted_weaken; cycle 1.
  - change (demo_script ++ [demo_complete])%list with
      (["Phase 1: Normal operation (60 seconds)"] ++
       [("Generating normal load for " ++ string_of_Z 60 ++ " seconds...")%string] ++
       [(NL ++ "Phase 2: High load test (30 seconds)")%string] ++
       [("Generating HIGH LOAD for " ++ string_of_Z 30 ++ " seconds...")%string] ++
       [(NL ++ "Phase 3: Slow query test")%string] ++
       [("Generating " ++ string_of_Z (Z.of_nat 10) ++ " slow queries...")%string] ++
       [(NL ++ "Phase 4: Return to normal operation (30 seconds)")%string] ++
       [("Generating normal load for " ++ string_of_Z 30 ++ " seconds...")%string] ++
       [demo_complete])%list.
    repeat first
      [ apply scripted_say
      | apply scripted_generate_normal_load; lia
      | apply scripted_generate_high_load; lia
      | apply scripted_generate_slow_queries
      | eapply scripted_bind ].
  - cbn. lia.
Qed.



(** ** The demo when nobody interrupts it *)

Lemma calm_quiet (P : event -> Prop) (w w' : World) :
  quiet P w w' -> calm w -> calm w'.
Proof. intros (_ & Henv & _) Hcalm k. rewrite Henv. apply Hcalm. Qed.

Lemma calm_not_interrupted (w : World) : calm w -> interrupted w = false.
Proof. intros H. unfold interrupted. rewrite H. apply andb_false_r. Qed.

Lemma lasts_weaken (ms ms' : Z) (m : M unit) :
  (ms' <= ms)%Z -> lasts ms m -> lasts ms' m.
Proof.
  intros Hms H w Hcalm Hon. destruct (H w Hcalm Hon) as (w' & Hrun & Hc & Hs & Ht).
  exists w'. refine (conj Hrun (conj Hc (conj Hs _))). lia.
Qed.

Lemma lasts_say (s : string) : lasts 0 (say s).
Proof.
  intros w Hcalm Hon. eexists. split; [apply say_run|].
  split; [exact Hcalm|]. split; [reflexivity | cbn; lia].
Qed.

Lemma lasts_bind (a b : Z) (m1 m2 : M unit) :
  lasts a m1 -> lasts b m2 -> lasts (a + b) (m1 ;; m2).
Proof.
  intros H1 H2 w Hcalm Hon.
  destruct (H1 w Hcalm Hon) as (w1 & Hrun1 & Hc1 & Hs1 & Ht1).
  destruct (H2 w1 Hc1 ltac:(rewrite Hs1; exact Hon)) as (w2 & Hrun2 & Hc2 & Hs2 & Ht2).
  exists w2. erewrite bind_val by exact Hrun1.
  refine (conj Hrun2 (conj Hc2 (conj _ _))); [congruence | lia].
Qed.

(** A loop body that ends with an uninterrupted [time.sleep]. *)
Lemma lasts_after_sleep (ms : Z) (w w1 : World) :
  (0 <= ms)%Z -> calm w -> quiet (fun _ => True) w w1 ->
  exists w',
    time_sleep ms w1 = (Val tt, w') /\ calm w' /\ self w' = self w /\
    (clock w + ms <= clock w')%Z.
Proof.
  intros Hms Hcalm Hq. pose proof (calm_quiet _ _ _ Hq Hcalm) as Hc1.
  destruct Hq as (Hself & _ & _ & Hclock & _).
  rewrite time_sleep_run, (calm_not_interrupted w1 Hc1).
  eexists. split; [reflexivity|]. split; [exact Hc1|].
  split; [exact Hself | cbn; lia].
Qed.

Lemma lasts_slow_query_body (i : nat) : lasts 500 (slow_query_body i).
Proof.
  intros w Hcalm _. rewrite slow_query_body_run.
  apply lasts_after_sleep; [lia | exact Hcalm |]. apply quiet_sent. exact I.
Qed.

Lemma lasts_high_load_body : lasts 100 high_load_body.
Proof.
  intros w Hcalm _. destruct (high_load_body_run w) as (logs & _ & Hrun).
  rewrite Hrun. apply lasts_after_sleep; [lia | exact Hcalm |].
  apply quiet_sent_after_draws. exact I.
Qed.

Lemma lasts_normal_load_body : lasts 1000 normal_load_body.
Proof.
  intros w Hcalm _. destruct (normal_load_body_run w) as (logs & q & _ & _ & _ & Hrun).
  cbv zeta in Hrun. rewrite Hrun.
  destruct (Qlt_bool _ _); (apply lasts_after_sleep; [lia | exact Hcalm |]).
  - eapply quiet_trans; apply quiet_sent_after_draws; exact I.
  - eapply quiet_trans; [apply quiet_sent_after_draws; exact I | apply quiet_bump_rand].
Qed.

(** An uninterrupted load loop with the flag on runs until its time is
    over, when it has fuel for the steps that fit in the time left. *)
Lemma lasts_load_loop (body : M unit) (step : Z) :
  (0 < step)%Z -> lasts step body ->
  forall (fuel : nat) (start_time duration : Z) (w : World),
    (1 <= fuel)%nat ->
    (duration * 1000 - (clock w - start_time) <= (Z.of_nat fuel - 1) * step)%Z ->
    calm w -> running (self w) = true ->
    exists w',
      while fuel (load_test start_time duration) body w = (Val tt, w') /\
      calm w' /\ self w' = self w /\ (clock w <= clock w')%Z /\
      (duration * 1000 <= clock w' - start_time)%Z.
Proof.
  intros Hstep Hbody.
  induction fuel as [|fuel IH]; intros start_time duration w Hf Ht Hcalm Hon; [lia|].
  cbn [while]. erewrite bind_val by apply load_test_run. rewrite Hon, andb_true_r.
  destruct (clock w - start_time <? duration * 1000)%Z eqn:Htest.
  - apply Z.ltb_lt in Htest.
    destruct (Hbody w Hcalm Hon) as (w1 & Hrun & Hc1 & Hs1 & Ht1).
    erewrite bind_val by exact Hrun.
    destruct (IH start_time duration w1) as (w' & Hloop & Hc' & Hs' & Hle & Hover);
      [lia | lia | exact Hc1 | rewrite Hs1; exact Hon |].
    exists w'. refine (conj Hloop (conj Hc' (conj _ (conj _ Hover)))); [congruence | lia].
  - apply Z.ltb_ge in Htest. exists w. rewrite ret_run.
    refine (conj eq_refl (conj Hcalm (conj eq_refl (conj _ _)))); lia.
Qed.

Lemma lasts_generate_normal_load (fuel : nat) (duration : Z) :
  (1 <= fuel)%nat -> (duration <= Z.of_nat fuel - 1)%Z ->
  lasts (duration * 1000) (generate_normal_load fuel duration).
Proof.
  intros Hf Hd w Hcalm Hon. unfold generate_normal_load. step. step.
  set (w0 := emit _ w).
  destruct (lasts_load_loop normal_load_body 1000 ltac:(lia) lasts_normal_load_body
              fuel (clock w) duration w0 Hf ltac:(cbn; lia) Hcalm Hon)
    as (w' & Hrun & Hc & Hs & _ & Hover).
  exists w'. refine (conj Hrun (conj Hc (conj Hs _))). lia.
Qed.

Lemma lasts_generate_high_load (fuel : nat) (duration : Z) :
  (1 <= fuel)%nat -> (duration * 10 <= Z.of_nat fuel - 1)%Z ->
  lasts (duration * 1000) (generate_high_load fuel duration).
Proof.
  intros Hf Hd w Hcalm Hon. unfold generate_high_load. step. step.
  set (w0 := emit _ w).
  destruct (lasts_load_loop high_load_body 100 ltac:(lia) lasts_high_load_body
              fuel (clock w) duration w0 Hf ltac:(cbn; lia) Hcalm Hon)
    as (w' & Hrun & Hc & Hs & _ & Hover).
  exists w'. refine (conj Hrun (conj Hc (conj Hs _))). lia.
Qed.

Lemma lasts_for_range_from (body : nat -> M unit) (step : Z) :
  (forall i, lasts step (body i)) ->
  forall n i, lasts (step * Z.of_nat n) (for_range_from i n body).
Proof.
  intros Hb. induction n as [|n IH]; intros i; cbn [for_range_from].
  - intros w Hcalm Hon. exists w. rewrite ret_run.
    refine (conj eq_refl (conj Hcalm (conj eq_refl _))). lia.
  - eapply lasts_weaken; [|apply lasts_bind; [apply Hb | apply IH]]. lia.
Qed.

Lemma lasts_generate_slow_queries (count : nat) :
  lasts (500 * Z.of_nat count) (generate_slow_queries count).
Proof.
  unfold generate_slow_queries, for_range.
  eapply lasts_weaken; [|apply lasts_bind;
    [apply lasts_say | apply lasts_for_range_from, lasts_slow_query_body]].
  lia.
Qed.

Lemma lasts_run_phases (fuel : nat) :
  (301 <= fuel)%nat -> lasts 125000 (run_phases fuel).
Proof.
  intros Hf. unfold run_phases.
  eapply lasts_weaken; cycle 1.
  - repeat first
      [ apply lasts_say
      | apply lasts_generate_normal_load; lia
      | apply lasts_generate_high_load; lia
      | apply lasts_generate_slow_queries
      | eapply lasts_bind ].
  - lia.
Qed.

(** X12.  A demo that nobody interrupts runs to its end.  In a world where
    SIGINT never arrives, started with the flag on and with fuel for its
    loops, [run_demo] returns, has printed its opening line, all the
    lines of the four phases and the completion line, never the
    stopped-by-user line, has taken at least the 125 seconds of its phases
    (60, 30, ten slow queries of half a second, and 30), and leaves the
    flag off. *)
Theorem uninterrupted_demo_completes (fuel : nat) (w : World)
  (Hfuel : (301 <= fuel)%nat)
  (Hcalm : calm w)
  (Hon : running (self w) = true) :
  exists w',
    run_demo fuel w = (Val tt, w') /\
    printed (out w') =
      (printed (out w) ++ "Starting Click-Lite Monitoring Demo..." ::
       demo_script ++ [demo_complete])%list /\
    ~ In demo_stopped (skipn (length (printed (out w))) (printed (out w'))) /\
    (clock w + 125000 <= clock w')%Z /\
    running (self w') = false.
Proof.
  unfold run_demo, newline. step. step. erewrite bind_val by reflexivity.
  set (w3 := emit _ (emit _ (emit _ w))).
  assert (H3 : printed (out w3) =
               (printed (out w) ++ ["Starting Click-Lite Monitoring Demo..."])%list).
  { unfold w3. cbn. rewrite !printed_app. cbn. rewrite !app_nil_r. reflexivity. }
  destruct (lasts_run_phases fuel Hfuel w3 Hcalm Hon) as (w4 & Hrun & _ & _ & Hclock).
  destruct (scripted_run_phases fuel Hfuel w3) as (k & Hp & Hr).
  rewrite Hrun in Hp, Hr. cbn [fst snd] in Hp, Hr.
  destruct Hr as [[_ ->] | [Hr _]]; [|discriminate].
  unfold try_finally, try_except. rewrite Hrun. cbn [set_running].
  eexists. split; [reflexivity|].
  assert (Hout : printed (out (emit (EvSetRunning false)
                                 (with_self (mkDemo (api_url (self w4)) false) w4))) =
                 (printed (out w) ++ "Starting Click-Lite Monitoring Demo..." ::
                  demo_script ++ [demo_complete])%list).
  { cbn [out emit with_self]. rewrite printed_app, Hp, H3, firstn_all.
    cbn. rewrite app_nil_r, <- app_assoc. reflexivity. }
  split; [exact Hout|]. split; [|split].
  - rewrite Hout, skipn_app, skipn_all, Nat.sub_diag. cbn [app skipn].
    intros Hin. cbn in Hin.
    repeat (destruct Hin as [Hin | Hin]; [discriminate Hin|]). exact Hin.
  - cbn. cbn in Hclock. lia.
  - reflexivity.
Qed.

Lemma uninterrupted_demo_completes_witness :
  exists w',
    run_demo 301 (slow_service_world []) = (Val tt, w') /\
    printed (out w') =
      ("Starting Click-Lite Monitoring Demo..." :: demo_script ++ [demo_complete])%list /\
    ~ In demo_stopped (printed (out w')) /\
    (125000 <= clock w')%Z /\
    running (self w') = false.
Proof.
  exact (uninterrupted_demo_completes 301 (slow_service_world []) ltac:(lia)
           (fun k => eq_refl) eq_refl).
Defined.

(** ** Uptimes of either sign *)

Lemma uptime_split_any (s : Z) :
  let d := (s / 86400)%Z in
  let h := ((s mod 86400) / 3600)%Z in
  let m := ((s mod 3600) / 60)%Z in
  (0 <= h < 24 /\ 0 <= m < 60 /\
   0 <= s - (86400 * d + 3600 * h + 60 * m) < 60 /\
   (s < 0 -> d < 0) /\ (0 <= s -> 0 <= d))%Z.
Proof.
  intros d h m. subst d h m.
  Z.to_euclidean_division_equations. lia.
Qed.


(** ** The dashboard and the status codes *)

Lemma status_blind_ret {A} (a : A) : status_blind (ret a).
Proof. intros replies w H. split; [exact H | reflexivity]. Qed.

Lemma status_blind_raise {A} (e : exn) : status_blind (@raise A e).
Proof. intros replies w H. split; [exact H | reflexivity]. Qed.

Lemma status_blind_bind {A B} (m : M A) (k : A -> M B) :
  status_blind m -> (forall a, status_blind (k a)) -> status_blind (bind m k).
Proof.
  intros Hm Hk replies w H. unfold bind.
  destruct (Hm replies w H) as (H1 & Hrun). rewrite Hrun.
  destruct (m w) as [[a|e|] w1]; cbn [fst snd] in *;
    try (split; [exact H1 | reflexivity]).
  apply Hk, H1.
Qed.

Lemma status_blind_try_except {A} (c : clause) (body : M A) (handler : exn -> M A) :
  status_blind body -> (forall e, status_blind (handler e)) ->
  status_blind (try_except c body handler).
Proof.
  intros Hb Hh replies w H. unfold try_except.
  destruct (Hb replies w H) as (H1 & Hrun). rewrite Hrun.
  destruct (body w) as [[a|e|] w1]; cbn [fst snd] in *;
    try (split; [exact H1 | reflexivity]).
  destruct (caught_by c e); [apply Hh, H1 | split; [exact H1 | reflexivity]].
Qed.

Lemma status_blind_while (cond : M bool) (body : M unit) :
  status_blind cond -> status_blind body ->
  forall fuel, status_blind (while fuel cond body).
Proof.
  intros Hc Hb. induction fuel as [|fuel IH]; cbn [while].
  - intros replies w H. split; [exact H | reflexivity].
  - apply status_blind_bind; [exact Hc|]. intros [|].
    + apply status_blind_bind; [exact Hb | intros _; exact IH].
    + apply status_blind_ret.
Qed.

Lemma status_blind_for_each {A} (body : A -> M unit) :
  (forall x, status_blind (body x)) -> forall l, status_blind (for_each l body).
Proof.
  intros Hb. induction l as [|x l IH]; cbn [for_each].
  - apply status_blind_ret.
  - apply status_blind_bind; [apply Hb | intros _; exact IH].
Qed.

(** A step that does not look at the world. *)
Ltac status_blind_pure :=
  intros replies w H;
  repeat match goal with
         | |- context [match ?x with _ => _ end] => destruct x
         end;
  split; solve [exact H | reflexivity].

Lemma status_blind_print (line : list piece) : status_blind (print line).
Proof. intros replies w H. split; [exact H | reflexivity]. Qed.

Lemma status_blind_get_running : status_blind get_running.
Proof. intros replies w H. split; [exact H | reflexivity]. Qed.

Lemma status_blind_time_sleep (ms : Z) : status_blind (time_sleep ms).
Proof.
  intros replies w H. rewrite !time_sleep_run.
  change (interrupted (with_replies replies w)) with (interrupted w).
  destruct (interrupted w); (split; [exact H | reflexivity]).
Qed.

Lemma status_blind_dict_get (v : JSON) (key : string) (default : JSON) :
  status_blind (dict_get v key default).
Proof. unfold dict_get. destruct v; status_blind_pure. Qed.

Lemma status_blind_color_get (table : list (string * string)) (key : JSON) :
  status_blind (color_get table key).
Proof. unfold color_get. destruct key; status_blind_pure. Qed.

Lemma status_blind_str_upper (v : JSON) : status_blind (str_upper v).
Proof. unfold str_upper. destruct v; status_blind_pure. Qed.

Lemma status_blind_as_number (v : JSON) : status_blind (as_number v).
Proof. unfold as_number. destruct v; status_blind_pure. Qed.

Lemma status_blind_subscript (v : JSON) (key : string) : status_blind (subscript v key).
Proof. unfold subscript. destruct v; status_blind_pure. Qed.

Lemma status_blind_iterate (v : JSON) : status_blind (iterate v).
Proof. unfold iterate. destruct v; status_blind_pure. Qed.

Lemma status_blind_format_fixed1 (v : JSON) : status_blind (format_fixed1 v).
Proof. unfold format_fixed1. destruct v; status_blind_pure. Qed.

Lemma status_blind_format_grouped (v : JSON) : status_blind (format_grouped v).
Proof. unfold format_grouped. destruct v; status_blind_pure. Qed.

Lemma status_blind_first_five (v : JSON) : status_blind (first_five v).
Proof. unfold first_five. destruct v; status_blind_pure. Qed.

Lemma status_blind_metric_entries (metrics : list JSON) (acc : list (JSON * JSON)) :
  status_blind (metric_entries metrics acc).
Proof.
  revert acc. induction metrics as [|m rest IH]; intros acc; cbn [metric_entries].
  - apply status_blind_ret.
  - apply status_blind_bind; [apply status_blind_subscript | intros name].
    apply status_blind_bind; [apply status_blind_subscript | intros value].
    destruct (hashable name); [apply IH | apply status_blind_raise].
Qed.

(** A fetch parses the body of the answer and never reads its status. *)
Lemma fetch_run (path : string) (k : JSON -> M JSON) (w : World) :
  (url <- get_api_url ;;
   response <- requests_get (url ++ path) None ;;
   parsed <- response_json response ;;
   k parsed) w =
    let w1 := sent (EvGet (api_url (self w) ++ path) None) w in
    if interrupted w then (Exc KeyboardInterrupt, w1)
    else match net_reply (env w) (n_net w) with
         | Response _ (Some v) => k v w1
         | Response _ None => (Exc JSONDecodeError, w1)
         | Failure r => (Exc (RequestException r), w1)
         end.
Proof.
  unfold bind, requests_get, round_trip, get_api_url, response_json.
  destruct (interrupted w); [reflexivity|].
  destruct (net_reply (env w) (n_net w)) as [code [v|] | r]; reflexivity.
Qed.

Lemma status_blind_fetch (path : string) (k : JSON -> M JSON) :
  (forall v, status_blind (k v)) ->
  status_blind (url <- get_api_url ;;
                response <- requests_get (url ++ path) None ;;
                parsed <- response_json response ;;
                k parsed).
Proof.
  intros Hk replies w H. rewrite !fetch_run. cbv zeta.
  change (interrupted (with_replies replies w)) with (interrupted w).
  change (net_reply (env (with_replies replies w)) (n_net (with_replies replies w)))
    with (replies (n_net w)).
  change (api_url (self (with_replies replies w))) with (api_url (self w)).
  destruct (interrupted w); [split; [exact H | reflexivity]|].
  pose proof (H (n_net w)) as Hk0.
  destruct (net_reply (env w) (n_net w)) as [code body | r];
    destruct (replies (n_net w)) as [code' body' | r']; cbn in Hk0;
    try contradiction; subst.
  - destruct body' as [v|]; [|split; [exact H | reflexivity]].
    apply (Hk v replies (sent (EvGet (api_url (self w) ++ path) None) w)). exact H.
  - split; [exact H | reflexivity].
Qed.

Lemma status_blind_check_health : status_blind check_health.
Proof.
  intros replies w H.
  destruct (status_blind_fetch "/monitoring/health" (fun v => ret v)
              (fun v => status_blind_ret v) replies w H) as (Ha & Hrun).
  assert (E : forall w0, check_health w0 =
            (url <- get_api_url ;;
             response <- requests_get (url ++ "/monitoring/health") None ;;
             parsed <- response_json response ;; ret parsed) w0).
  { intros w0. unfold check_health, bind.
    destruct (get_api_url w0) as [[url|e|] w1]; try reflexivity.
    destruct (requests_get _ _ w1) as [[response|e|] w2]; try reflexivity.
    destruct (response_json response w2) as [[v|e|] w3]; reflexivity. }
  rewrite !E. split; assumption.
Qed.

Lemma status_blind_get_metrics : status_blind get_metrics.
Proof.
  apply (status_blind_fetch "/monitoring/metrics"
           (fun parsed => dict_get parsed "metrics" (JArr []))).
  intros v. apply status_blind_dict_get.
Qed.

Lemma status_blind_get_alerts : status_blind get_alerts.
Proof.
  apply (status_blind_fetch "/monitoring/alerts/active"
           (fun parsed => dict_get parsed "alerts" (JArr []))).
  intros v. apply status_blind_dict_get.
Qed.

Ltac status_blind_steps :=
  repeat first
    [ apply status_blind_ret
    | apply status_blind_print
    | apply status_blind_dict_get
    | apply status_blind_color_get
    | apply status_blind_str_upper
    | apply status_blind_as_number
    | apply status_blind_subscript
    | apply status_blind_iterate
    | apply status_blind_format_fixed1
    | apply status_blind_format_grouped
    | apply status_blind_first_five
    | apply status_blind_metric_entries
    | apply status_blind_bind; [| intros ?] ].

Lemma status_blind_render_alert (alert : JSON) : status_blind (render_alert alert).
Proof. unfold render_alert. status_blind_steps. Qed.

Lemma status_blind_dashboard_snapshot : status_blind dashboard_snapshot.
Proof.
  unfold dashboard_snapshot, say.
  apply status_blind_bind; [apply status_blind_print | intros _].
  apply status_blind_bind; [apply status_blind_check_health | intros health].
  apply status_blind_bind; [apply status_blind_get_metrics | intros metrics].
  apply status_blind_bind; [apply status_blind_get_alerts | intros alerts].
  apply status_blind_bind;
    [unfold display_header, say, newline; status_blind_steps | intros _].
  apply status_blind_bind;
    [unfold display_health, say, newline; status_blind_steps | intros _].
  apply status_blind_bind;
    [unfold display_metrics, say, newline; status_blind_steps | intros _].
  unfold display_alerts, say, newline.
  apply status_blind_bind; [apply status_blind_print | intros _].
  apply status_blind_bind; [apply status_blind_print | intros _].
  apply status_blind_bind; [| intros _; status_blind_steps].
  destruct (truthy alerts); [|apply status_blind_print].
  apply status_blind_bind; [apply status_blind_first_five | intros shown].
  apply status_blind_for_each, status_blind_render_alert.
Qed.

Lemma status_blind_dashboard_tick : status_blind dashboard_tick.
Proof.
  unfold dashboard_tick.
  apply status_blind_bind; [| intros _; apply status_blind_time_sleep].
  apply status_blind_try_except; [apply status_blind_dashboard_snapshot|].
  intros e. apply status_blind_print.
Qed.

(** X14.  The dashboard never looks at a status code.  When the answers
    of the service keep their bodies and their failures and change only
    their status codes, a tick and a whole run of the dashboard loop end
    in the same way and show the same screen, line for line; so an answer
    with an error status and a JSON body is shown as if it had status 200.
    In particular [check_health] returns the parsed body of an answer of
    any status. *)
Theorem dashboard_ignores_status_codes
  (fuel : nat) (w : World) (replies : nat -> reply)
  (Hsame : forall k, same_bodies (net_reply (env w) k) (replies k)) :
  let tick := dashboard_tick w in
  let run := display_metrics_dashboard fuel w in
  dashboard_tick (with_replies replies w) = (fst tick, with_replies replies (snd tick)) /\
  display_metrics_dashboard fuel (with_replies replies w) =
    (fst run, with_replies replies (snd run)) /\
  out (snd (display_metrics_dashboard fuel (with_replies replies w))) = out (snd run) /\
  (forall code v,
     interrupted w = false -> net_reply (env w) (n_net w) = Response code (Some v) ->
     fst (check_health w) = Val v).
Proof.
  cbv zeta.
  pose proof (status_blind_dashboard_tick replies w Hsame) as (_ & Htick).
  pose proof (status_blind_while get_running dashboard_tick status_blind_get_running
                status_blind_dashboard_tick fuel replies w Hsame) as (_ & Hrun).
  fold (display_metrics_dashboard fuel) in Hrun.
  split; [exact Htick|]. split; [exact Hrun|]. split.
  - rewrite Hrun. reflexivity.
  - intros code v Hi Hr. rewrite (check_health_run w Hi), Hr. reflexivity.
Qed.

Lemma dashboard_ignores_status_codes_witness :
  dashboard_tick (with_replies unavailable healthy_world) =
    (fst (dashboard_tick healthy_world),
     with_replies unavailable (snd (dashboard_tick healthy_world))).
Proof.
  refine (proj1 (dashboard_ignores_status_codes 1 healthy_world unavailable _)).
  intros k. unfold unavailable.
  destruct (net_reply (env healthy_world) k); exact eq_refl.
Defined.
